(** * Student grade management: access control, grade ledger, lockout

    A shallow embedding of [app/models.py], [app/exceptions.py],
    [app/data.py], [app/auth.py], [app/services.py] and the hash format of
    [app/security.py], and the properties
    of the grade life cycle, of publishing and notification, of account
    lockout and of the aggregation that the specification states.

    Modelling conventions.
    - A Python [dict] is an insertion-ordered association list with one
      entry per key ([Dict.get], [Dict.set]): iteration order is observable
      in the listings of [services.py].
    - Python numbers (the [int] seeds and the [float] scores) are exact
      rationals [Q]; [round(x, n)] is rounding half to even on the exact
      value.  Not-a-number and the infinities, and the last-bit rounding of
      binary floating point, are outside the model.
    - The module-level stores of [data.py] and [auth.py] are the fields of
      one [World] record that every operation threads; an exception leaves
      the world as it was when the exception was raised.
    - [datetime.now] and the [secrets] and [os.urandom] draws are oracles
      carried by the world, read through a counter.
    - [security.verify_password] and [security.hash_password] (PBKDF2) are
      section variables of the operations; their string format is modelled
      apart, over a key derivation that is a variable. *)

From Stdlib Require Import List String Ascii ZArith QArith Bool Lia.
From Stdlib Require Import Qabs Permutation DecimalString Sorted.
Import ListNotations.

Local Open Scope string_scope.
Local Open Scope Z_scope.

(** ** Python built-ins used by the program *)

Module Py.

(** [x in xs] for a list of strings. *)
Definition str_in (x : string) (xs : list string) : bool :=
  existsb (String.eqb x) xs.

(** Truth value of an [Optional[str]]: [None] and the empty string are
    false. *)
Definition truthy (o : option string) : bool :=
  match o with
  | Some s => negb (String.eqb s "")
  | None => false
  end.

(** [o or default] for an [Optional[str]]. *)
Definition or_else (o : option string) (default : string) : string :=
  match o with
  | Some s => if String.eqb s "" then default else s
  | None => default
  end.

(** [str(n)] for a non-negative [int]. *)
Definition str_of_nat (n : nat) : string :=
  NilEmpty.string_of_uint (Nat.to_uint n).

Definition Qltb (x y : Q) : bool := negb (Qle_bool y x).

(** Nearest integer to [num / den], ties to the even one. *)
Definition round_half_even (num : Z) (den : positive) : Z :=
  let q := num / Zpos den in
  let r := num mod Zpos den in
  match 2 * r ?= Zpos den with
  | Lt => q
  | Gt => q + 1
  | Eq => if Z.even q then q else q + 1
  end.

(** [round(x, ndigits)]. *)
Definition round (x : Q) (ndigits : nat) : Q :=
  let scale := Z.to_pos (10 ^ Z.of_nat ndigits) in
  Qred (round_half_even (Qnum x * Zpos scale) (Qden x) # scale).

Definition sum (xs : list Q) : Q := fold_left Qplus xs (0 # 1).

(** [statistics.mean], for a list that is not empty. *)
Definition mean (xs : list Q) : Q :=
  Qred (sum xs / inject_Z (Z.of_nat (List.length xs))).

(** [max(xs)] and [min(xs)] of the list [first :: rest]: the first
    element is kept until a strictly greater (smaller) one is met. *)
Definition max (first : Q) (rest : list Q) : Q :=
  fold_left (fun m y => if Qltb m y then y else m) rest first.

Definition min (first : Q) (rest : list Q) : Q :=
  fold_left (fun m y => if Qltb y m then y else m) rest first.

(** [sorted(xs, key=...)]: a stable sort; [leb a b] says that the key of
    [a] is at most the key of [b].  An element goes before the first
    element of the sorted tail whose key is not smaller. *)
Section Sorted.
Context {A : Type} (leb : A -> A -> bool).

Fixpoint insert (a : A) (l : list A) : list A :=
  match l with
  | [] => [a]
  | b :: l' => if leb a b then a :: b :: l' else b :: insert a l'
  end.

Fixpoint sorted (l : list A) : list A :=
  match l with
  | [] => []
  | a :: l' => insert a (sorted l')
  end.
End Sorted.

(** Order of tuples of two keys. *)
Definition pair_leb {A B : Type} (cmpA : A -> A -> comparison)
    (lebB : B -> B -> bool) (x y : A * B) : bool :=
  match cmpA (fst x) (fst y) with
  | Lt => true
  | Gt => false
  | Eq => lebB (snd x) (snd y)
  end.

End Py.

(** ** Insertion-ordered dictionaries *)

Class KeyEq (K : Type) := { keqb : K -> K -> bool }.

(** The equality of keys decides equality. *)
Class KeyEqLaws (K : Type) `{KeyEq K} := {
  keqb_eq : forall a b : K, keqb a b = true <-> a = b
}.

#[export] Instance KeyEq_string : KeyEq string := {| keqb := String.eqb |}.

Definition key3 : Type := string * string * string.

Definition key3_eqb (a b : key3) : bool :=
  let '(a1, a2, a3) := a in
  let '(b1, b2, b3) := b in
  String.eqb a1 b1 && String.eqb a2 b2 && String.eqb a3 b3.

#[export] Instance KeyEq_key3 : KeyEq key3 := {| keqb := key3_eqb |}.

Module Dict.
Section Ops.
Context {K V : Type} `{KeyEq K}.

Definition t : Type := list (K * V).

(** [d.get(k)] *)
Fixpoint get (k : K) (d : list (K * V)) : option V :=
  match d with
  | [] => None
  | (k', v) :: d' => if keqb k k' then Some v else get k d'
  end.

(** [k in d] *)
Definition mem (k : K) (d : list (K * V)) : bool :=
  match get k d with Some _ => true | None => false end.

(** [d[k] = v]: an existing key keeps its place, a new key goes last. *)
Fixpoint set (k : K) (v : V) (d : list (K * V)) : list (K * V) :=
  match d with
  | [] => [(k, v)]
  | (k', v') :: d' =>
      if keqb k k' then (k', v) :: d' else (k', v') :: set k v d'
  end.

(** [d.pop(k, None)] *)
Fixpoint pop (k : K) (d : list (K * V)) : list (K * V) :=
  match d with
  | [] => []
  | (k', v') :: d' => if keqb k k' then d' else (k', v') :: pop k d'
  end.

(** [d.values()] and the keys, in insertion order. *)
Definition values (d : list (K * V)) : list V := map snd d.
Definition keys (d : list (K * V)) : list K := map fst d.

(** One entry per key, as in every Python dictionary. *)
Definition wf (d : list (K * V)) : Prop := NoDup (keys d).
End Ops.
End Dict.

Definition dict (K V : Type) : Type := list (K * V).

(** ** [models.py] *)

(** A [datetime] in microseconds since the epoch, a [timedelta] likewise;
    a [date] as its proleptic Gregorian ordinal. *)
Definition datetime : Type := Z.
Definition date : Type := Z.

Definition timedelta_minutes (minutes : Z) : Z := minutes * 60 * 1000000.

Inductive Role : Type := STUDENT | TEACHER | PRINCIPAL.

Definition Role_eqb (a b : Role) : bool :=
  match a, b with
  | STUDENT, STUDENT | TEACHER, TEACHER | PRINCIPAL, PRINCIPAL => true
  | _, _ => false
  end.

Module Account.
Record t : Type := mk {
  username : string;
  role : Role;
  bind_id : option string;
  password_hash : string;
  locked_until : option datetime;
  failed_attempts : Z;
  force_password_change : bool
}.
Definition set_password_hash (v : string) (a : t) : t :=
  mk (username a) (role a) (bind_id a) v (locked_until a)
     (failed_attempts a) (force_password_change a).
Definition set_locked_until (v : option datetime) (a : t) : t :=
  mk (username a) (role a) (bind_id a) (password_hash a) v
     (failed_attempts a) (force_password_change a).
Definition set_failed_attempts (v : Z) (a : t) : t :=
  mk (username a) (role a) (bind_id a) (password_hash a) (locked_until a)
     v (force_password_change a).
Definition set_force_password_change (v : bool) (a : t) : t :=
  mk (username a) (role a) (bind_id a) (password_hash a) (locked_until a)
     (failed_attempts a) v.
End Account.

Module Student.
Record t : Type := mk {
  student_no : string;
  name : string;
  class_name : string;
  status : string;
  has_unread_published_grades : bool
}.
Definition set_has_unread_published_grades (v : bool) (s : t) : t :=
  mk (student_no s) (name s) (class_name s) (status s) v.
End Student.

Module Subject.
Record t : Type := mk { subject_code : string; subject_name : string }.
End Subject.

Module Teacher.
Record t : Type := mk {
  teacher_id : string;
  name : string;
  subjects : list string;
  classes : list string
}.
End Teacher.

Inductive ExamStatus : Type := PUBLISHED | DRAFT.

Module Exam.
Record t : Type := mk {
  exam_id : string;
  exam_name : string;
  term : string;
  exam_date : date;
  classes : list string;
  status : ExamStatus
}.
End Exam.

Module Grade.
Record t : Type := mk {
  exam_id : string;
  subject_code : string;
  student_no : string;
  score : Q;
  created_by : string;
  created_at : datetime;
  updated_at : datetime;
  published : bool
}.
Definition set_score (v : Q) (g : t) : t :=
  mk (exam_id g) (subject_code g) (student_no g) v (created_by g)
     (created_at g) (updated_at g) (published g).
Definition set_created_by (v : string) (g : t) : t :=
  mk (exam_id g) (subject_code g) (student_no g) (score g) v
     (created_at g) (updated_at g) (published g).
Definition set_updated_at (v : datetime) (g : t) : t :=
  mk (exam_id g) (subject_code g) (student_no g) (score g) (created_by g)
     (created_at g) v (published g).
Definition set_published (v : bool) (g : t) : t :=
  mk (exam_id g) (subject_code g) (student_no g) (score g) (created_by g)
     (created_at g) (updated_at g) v.
End Grade.

Inductive AuditAction : Type :=
  GRADE_CREATED | GRADE_UPDATED | GRADE_PUBLISHED | EXPORT | PASSWORD_RESET.

Definition is_grade_action (a : AuditAction) : bool :=
  match a with
  | GRADE_CREATED | GRADE_UPDATED | GRADE_PUBLISHED => true
  | EXPORT | PASSWORD_RESET => false
  end.

(** The values that the program stores in the [details] of a log entry. *)
Inductive detail_value : Type :=
| DStr (s : string)
| DOptStr (s : option string)
| DNum (q : Q)
| DInt (n : nat)
| DFilters (filters : list (string * option string)).

Module AuditLogEntry.
Record t : Type := mk {
  timestamp : datetime;
  actor : string;
  action : AuditAction;
  details : dict string detail_value
}.
End AuditLogEntry.

Module LoginResult.
Record t : Type := mk {
  token : string;
  role : Role;
  must_change_password : bool
}.
End LoginResult.

Module AggregatedStats.
Record t : Type := mk {
  highest : Q;
  lowest : Q;
  average : Q;
  pass_rate : Q
}.
End AggregatedStats.

Module StudentGradeView.
Record t : Type := mk {
  exam_id : string;
  exam_name : string;
  exam_date : date;
  subject_code : string;
  subject_name : string;
  score : Q;
  class_average : Q
}.
End StudentGradeView.

Module StudentGradeResponse.
Record t : Type := mk {
  has_unread : bool;
  grades : list StudentGradeView.t
}.
End StudentGradeResponse.

Module TeacherGradeView.
Record t : Type := mk {
  student_no : string;
  student_name : string;
  class_name : string;
  subject_code : string;
  score : Q;
  published : bool
}.
End TeacherGradeView.

Module OverviewEntry.
Record t : Type := mk {
  exam_id : string;
  exam_name : string;
  subject_code : string;
  subject_name : string;
  stats : AggregatedStats.t
}.
End OverviewEntry.

Module GradeDetailEntry.
Record t : Type := mk {
  exam_id : string;
  exam_name : string;
  subject_code : string;
  subject_name : string;
  student_no : string;
  student_name : string;
  class_name : string;
  score : Q;
  published : bool
}.
End GradeDetailEntry.

(** The dictionary that [teacher_import_grades] returns. *)
Module ImportResult.
Record t : Type := mk { processed : nat; errors : list string }.
End ImportResult.

(** ** [exceptions.py], and the built-in exceptions the program can raise:
    [KeyError] from an unguarded [d[k]], [StopIteration] from [next] *)

Inductive exn : Type :=
| AppError (status_code : Z) (detail : string)
| KeyError
| StopIteration.

(** ** The stores of [data.py] and [auth.py], the clock and the entropy *)

Record World : Type := mkWorld {
  accounts : dict string Account.t;
  students : dict string Student.t;
  subjects : dict string Subject.t;
  teachers : dict string Teacher.t;
  exams : dict string Exam.t;
  grades : dict key3 Grade.t;
  audit_logs : list AuditLogEntry.t;
  _tokens : dict string string;
  clock : nat -> datetime;
  ticks : nat;
  entropy : nat -> nat -> string;
  draws : nat
}.

Definition set_accounts (v : dict string Account.t) (w : World) : World :=
  mkWorld v (students w) (subjects w) (teachers w) (exams w) (grades w)
    (audit_logs w) (_tokens w) (clock w) (ticks w) (entropy w) (draws w).
Definition set_students (v : dict string Student.t) (w : World) : World :=
  mkWorld (accounts w) v (subjects w) (teachers w) (exams w) (grades w)
    (audit_logs w) (_tokens w) (clock w) (ticks w) (entropy w) (draws w).
Definition set_grades (v : dict key3 Grade.t) (w : World) : World :=
  mkWorld (accounts w) (students w) (subjects w) (teachers w) (exams w) v
    (audit_logs w) (_tokens w) (clock w) (ticks w) (entropy w) (draws w).
Definition set_audit_logs (v : list AuditLogEntry.t) (w : World) : World :=
  mkWorld (accounts w) (students w) (subjects w) (teachers w) (exams w)
    (grades w) v (_tokens w) (clock w) (ticks w) (entropy w) (draws w).
Definition set_tokens (v : dict string string) (w : World) : World :=
  mkWorld (accounts w) (students w) (subjects w) (teachers w) (exams w)
    (grades w) (audit_logs w) v (clock w) (ticks w) (entropy w) (draws w).
Definition set_ticks (v : nat) (w : World) : World :=
  mkWorld (accounts w) (students w) (subjects w) (teachers w) (exams w)
    (grades w) (audit_logs w) (_tokens w) (clock w) v (entropy w) (draws w).
Definition set_draws (v : nat) (w : World) : World :=
  mkWorld (accounts w) (students w) (subjects w) (teachers w) (exams w)
    (grades w) (audit_logs w) (_tokens w) (clock w) (ticks w) (entropy w) v.

(** ** The monad of the operations: state and exceptions *)

Definition M (A : Type) : Type := World -> (exn + A) * World.

Definition ret {A : Type} (a : A) : M A := fun w => (inr a, w).

Definition raise {A : Type} (e : exn) : M A := fun w => (inl e, w).

Definition bind {A B : Type} (m : M A) (k : A -> M B) : M B :=
  fun w =>
    match m w with
    | (inl e, w') => (inl e, w')
    | (inr a, w') => k a w'
    end.

Definition get_world : M World := fun w => (inr w, w).

Definition modify (f : World -> World) : M unit := fun w => (inr tt, f w).

(** [d[k]], which raises [KeyError] on a missing key. *)
Definition index {K V : Type} `{KeyEq K} (k : K) (d : dict K V) : M V :=
  match Dict.get k d with
  | Some v => ret v
  | None => raise KeyError
  end.

Declare Scope monad_scope.
Delimit Scope monad_scope with monad.

Notation "x <- m ;; k" := (bind m (fun x => k))
  (at level 61, m at next level, right associativity) : monad_scope.
Notation "' pat <- m ;; k" := (bind m (fun x => match x with pat => k end))
  (at level 61, pat pattern, m at next level, right associativity)
  : monad_scope.
Notation "m ;; k" := (bind m (fun _ => k))
  (at level 61, right associativity) : monad_scope.

Local Open Scope monad_scope.

(** The outcome and the final world of running an operation. *)
Definition outcome {A : Type} (m : M A) (w : World) : exn + A := fst (m w).
Definition after {A : Type} (m : M A) (w : World) : World := snd (m w).

Section Program.

(** ** [security.py]

    [verify_password password stored] and [hash_password password salt]
    are the PBKDF2-HMAC-SHA256 check and digest of [security.py]; the
    program only uses the boolean of the first and stores the string of
    the second. *)
Variable verify_password : string -> string -> bool.
Variable hash_password_salted : string -> string -> string.

(** [os.urandom(n)] and the [secrets.choice] draws of
    [generate_random_password(length)]: the next draw of the entropy. *)
Definition urandom (n : nat) : M string :=
  fun w => (inr (entropy w (draws w) n), set_draws (S (draws w)) w).

Definition generate_random_password (length : nat) : M string :=
  urandom length.

Definition hash_password (password : string) : M string :=
  salt <- urandom 16 ;;
  ret (hash_password_salted password salt).

(** [datetime.now(timezone.utc)]: the next reading of the clock. *)
Definition _now : M datetime :=
  fun w => (inr (clock w (ticks w)), set_ticks (S (ticks w)) w).

(** ** [data.py]: the seed data *)

Definition seed_student (no name class_name : string) : string * Student.t :=
  (no, Student.mk no name class_name "在读" false).

Definition seed_students : dict string Student.t :=
  [ seed_student "S001" "张三" "Class 1";
    seed_student "S002" "李四" "Class 1";
    seed_student "S003" "王五" "Class 1";
    seed_student "S004" "赵六" "Class 2";
    seed_student "S005" "孙七" "Class 2";
    seed_student "S006" "周八" "Class 2" ].

Definition seed_subjects : dict string Subject.t :=
  [ ("CHN", Subject.mk "CHN" "语文");
    ("MTH", Subject.mk "MTH" "数学");
    ("ENG", Subject.mk "ENG" "英语") ].

Definition seed_teachers : dict string Teacher.t :=
  [ ("T100", Teacher.mk "T100" "陈老师" ["CHN"] ["Class 1"; "Class 2"]);
    ("T200", Teacher.mk "T200" "刘老师" ["MTH"] ["Class 1"; "Class 2"]);
    ("T300", Teacher.mk "T300" "吴老师" ["ENG"] ["Class 1"; "Class 2"]) ].

Definition seed_exams : dict string Exam.t :=
  [ ("EX2025M",
     Exam.mk "EX2025M" "2025-上学期-期中考试" "2025-上" 739391
       ["Class 1"; "Class 2"] PUBLISHED) ].

Definition seed_account (username : string) (role : Role)
    (bind_id : option string) (password_hash : string)
  : string * Account.t :=
  (username, Account.mk username role bind_id password_hash None 0 true).

Definition seed_accounts (h : string) : dict string Account.t :=
  [ seed_account "principal" PRINCIPAL None h;
    seed_account "t_chn" TEACHER (Some "T100") h;
    seed_account "t_mth" TEACHER (Some "T200") h;
    seed_account "t_eng" TEACHER (Some "T300") h;
    seed_account "s_s001" STUDENT (Some "S001") h;
    seed_account "s_s002" STUDENT (Some "S002") h;
    seed_account "s_s003" STUDENT (Some "S003") h;
    seed_account "s_s004" STUDENT (Some "S004") h;
    seed_account "s_s005" STUDENT (Some "S005") h;
    seed_account "s_s006" STUDENT (Some "S006") h ].

Definition _grade_seed : dict key3 Q :=
  [ (("EX2025M", "CHN", "S001"), 88 # 1);
    (("EX2025M", "CHN", "S002"), 76 # 1);
    (("EX2025M", "CHN", "S003"), 92 # 1);
    (("EX2025M", "CHN", "S004"), 81 # 1);
    (("EX2025M", "CHN", "S005"), 67 # 1);
    (("EX2025M", "CHN", "S006"), 85 # 1);
    (("EX2025M", "MTH", "S001"), 95 # 1);
    (("EX2025M", "MTH", "S002"), 82 # 1);
    (("EX2025M", "MTH", "S003"), 78 # 1);
    (("EX2025M", "MTH", "S004"), 88 # 1);
    (("EX2025M", "MTH", "S005"), 73 # 1);
    (("EX2025M", "MTH", "S006"), 90 # 1);
    (("EX2025M", "ENG", "S001"), 84 # 1);
    (("EX2025M", "ENG", "S002"), 79 # 1);
    (("EX2025M", "ENG", "S003"), 91 # 1);
    (("EX2025M", "ENG", "S004"), 86 # 1);
    (("EX2025M", "ENG", "S005"), 72 # 1);
    (("EX2025M", "ENG", "S006"), 88 # 1) ].

(** The loop that fills [grades] from [_grade_seed]; [next(...)] over the
    teachers of the subject raises [StopIteration] when there is none. *)
Fixpoint seed_grades (seed : dict key3 Q) : M unit :=
  match seed with
  | [] => ret tt
  | ((exam_id, subject_code, student_no), score) :: seed' =>
      w <- get_world ;;
      match find (fun t => Py.str_in subject_code (Teacher.subjects t))
              (Dict.values (teachers w)) with
      | None => raise StopIteration
      | Some teacher =>
          timestamp <- _now ;;
          modify (fun w =>
            set_grades
              (Dict.set (exam_id, subject_code, student_no)
                 (Grade.mk exam_id subject_code student_no score
                    (Teacher.teacher_id teacher) timestamp timestamp true)
                 (grades w)) w) ;;
          seed_grades seed'
      end
  end.

(** The world before [data.py] is loaded. *)
Definition blank (clock : nat -> datetime) (entropy : nat -> nat -> string)
  : World :=
  mkWorld [] [] [] [] [] [] [] [] clock 0 entropy 0.

(** Loading [data.py]. *)
Definition load_data : M unit :=
  modify (fun w =>
    mkWorld [] seed_students seed_subjects seed_teachers seed_exams []
      [] (_tokens w) (clock w) (ticks w) (entropy w) (draws w)) ;;
  _initial_password_hash <- hash_password "Pass@123" ;;
  modify (set_accounts (seed_accounts _initial_password_hash)) ;;
  seed_grades _grade_seed.

Definition data (clock : nat -> datetime) (entropy : nat -> nat -> string)
  : World :=
  after load_data (blank clock entropy).

(** ** [auth.py] *)

Definition LOCKOUT_THRESHOLD : Z := 5.
Definition LOCKOUT_MINUTES : Z := 15.

(** The account object is shared with the store: a field assignment on it
    is an update of the entry of [accounts] under its key. *)
Definition update_account (key : string) (f : Account.t -> Account.t)
  : M unit :=
  modify (fun w =>
    match Dict.get key (accounts w) with
    | Some a => set_accounts (Dict.set key (f a) (accounts w)) w
    | None => w
    end).

Definition authenticate (username password : string) : M LoginResult.t :=
  w <- get_world ;;
  match Dict.get username (accounts w) with
  | None => raise (AppError 401 "账号或密码错误")
  | Some account =>
      locked <-
        match Account.locked_until account with
        | None => ret false
        | Some until => now <- _now ;; ret (now <? until)
        end ;;
      if locked : bool
      then raise (AppError 423 "账号或密码错误/账号锁定")
      else
        if negb (verify_password password (Account.password_hash account))
        then
          let failed_attempts := Account.failed_attempts account + 1 in
          update_account username
            (Account.set_failed_attempts failed_attempts) ;;
          (if LOCKOUT_THRESHOLD <=? failed_attempts
           then
             now <- _now ;;
             update_account username
               (Account.set_locked_until
                  (Some (now + timedelta_minutes LOCKOUT_MINUTES)))
           else ret tt) ;;
          raise (AppError 401 "账号或密码错误")
        else
          update_account username (Account.set_failed_attempts 0) ;;
          update_account username (Account.set_locked_until None) ;;
          token <- generate_random_password 32 ;;
          modify (fun w =>
            set_tokens
              (Dict.set token (Account.username account) (_tokens w)) w) ;;
          ret (LoginResult.mk token (Account.role account)
                 (Account.force_password_change account))
  end.

(** [get_account]: the account object of the store. *)
Definition get_account (token : string) : M Account.t :=
  w <- get_world ;;
  let username := Dict.get token (_tokens w) in
  if negb (Py.truthy username)
  then raise (AppError 401 "未登录")
  else
    match Dict.get (Py.or_else username "") (accounts w) with
    | None => raise (AppError 401 "未登录")
    | Some account => ret account
    end.

Definition require_role (token : string) (role : Role) : M Account.t :=
  account <- get_account token ;;
  if negb (Role_eqb (Account.role account) role)
  then raise (AppError 403 "权限不足")
  else ret account.

Definition require_teacher_or_principal (token : string) : M Account.t :=
  account <- get_account token ;;
  match Account.role account with
  | TEACHER | PRINCIPAL => ret account
  | STUDENT => raise (AppError 403 "权限不足")
  end.

(** [change_password] receives the account object of the store; the
    argument [account] here is the key under which the store holds it. *)
Definition change_password (account old_password new_password : string)
  : M unit :=
  w <- get_world ;;
  a <- index account (accounts w) ;;
  if negb (verify_password old_password (Account.password_hash a))
  then raise (AppError 400 "旧密码不正确")
  else
    h <- hash_password new_password ;;
    update_account account (Account.set_password_hash h) ;;
    update_account account (Account.set_force_password_change false) ;;
    update_account account (Account.set_failed_attempts 0) ;;
    update_account account (Account.set_locked_until None).

Definition reset_password (username : string) : M string :=
  w <- get_world ;;
  match Dict.get username (accounts w) with
  | None => raise (AppError 404 "账号不存在")
  | Some _ =>
      new_password <- generate_random_password 12 ;;
      h <- hash_password new_password ;;
      update_account username (Account.set_password_hash h) ;;
      update_account username (Account.set_force_password_change true) ;;
      update_account username (Account.set_failed_attempts 0) ;;
      update_account username (Account.set_locked_until None) ;;
      ret new_password
  end.

Definition logout (token : string) : M unit :=
  modify (fun w => set_tokens (Dict.pop token (_tokens w)) w).

(** ** [services.py] *)

Definition PASSING_SCORE : Q := 60 # 1.

Definition _require_exam (exam_id : string) : M Exam.t :=
  w <- get_world ;;
  match Dict.get exam_id (exams w) with
  | None => raise (AppError 404 "考试不存在")
  | Some exam => ret exam
  end.

Definition _require_subject (subject_code : string) : M unit :=
  w <- get_world ;;
  if negb (Dict.mem subject_code (subjects w))
  then raise (AppError 404 "科目不存在")
  else ret tt.

Definition _require_student (student_no : string) : M unit :=
  w <- get_world ;;
  if negb (Dict.mem student_no (students w))
  then raise (AppError 404 "学生不存在")
  else ret tt.

Definition _teacher_for_account (account : Account.t)
  : M (string * list string * list string) :=
  if negb (Role_eqb (Account.role account) TEACHER)
  then raise (AppError 403 "权限不足")
  else
    w <- get_world ;;
    match Dict.get (Py.or_else (Account.bind_id account) "") (teachers w) with
    | None => raise (AppError 403 "教师未绑定")
    | Some teacher =>
        ret (Teacher.teacher_id teacher, Teacher.subjects teacher,
             Teacher.classes teacher)
    end.

Definition _grade_key (exam_id subject_code student_no : string) : key3 :=
  (exam_id, subject_code, student_no).

Definition _record_log (action : AuditAction) (actor : string)
    (details : dict string detail_value) : M unit :=
  timestamp <- _now ;;
  modify (fun w =>
    set_audit_logs
      (audit_logs w ++ [AuditLogEntry.mk timestamp actor action details]) w).

Definition _grades_for_student (student_no : string) (w : World)
  : list Grade.t :=
  filter (fun grade => String.eqb (Grade.student_no grade) student_no)
    (Dict.values (grades w)).

Definition _visible_grades_for_teacher (account : Account.t)
  : M (list Grade.t) :=
  '(_teacher_id, subjects, classes) <- _teacher_for_account account ;;
  w <- get_world ;;
  let student_ids :=
    map Student.student_no
      (filter (fun s => Py.str_in (Student.class_name s) classes)
         (Dict.values (students w))) in
  ret (filter
         (fun grade =>
            Py.str_in (Grade.subject_code grade) subjects
            && Py.str_in (Grade.student_no grade) student_ids)
         (Dict.values (grades w))).

(** A list comprehension whose condition can raise. *)
Fixpoint filterM {A : Type} (p : A -> M bool) (l : list A) : M (list A) :=
  match l with
  | [] => ret []
  | a :: l' =>
      keep <- p a ;;
      rest <- filterM p l' ;;
      ret (if keep : bool then a :: rest else rest)
  end.

(** A list comprehension whose element expression can raise. *)
Fixpoint mapM {A B : Type} (f : A -> M B) (l : list A) : M (list B) :=
  match l with
  | [] => ret []
  | a :: l' =>
      b <- f a ;;
      rest <- mapM f l' ;;
      ret (b :: rest)
  end.

(** The body of the loop of [list_student_grades] that builds the views. *)
Fixpoint student_views (student : Student.t) (relevant_grades : list Grade.t)
  : M (list StudentGradeView.t) :=
  match relevant_grades with
  | [] => ret []
  | grade :: rest =>
      w <- get_world ;;
      match Dict.get (Grade.exam_id grade) (exams w) with
      | None => student_views student rest
      | Some exam =>
          let subject := Dict.get (Grade.subject_code grade) (subjects w) in
          class_grades <-
            filterM
              (fun g =>
                 if String.eqb (Grade.exam_id g) (Grade.exam_id grade)
                    && String.eqb (Grade.subject_code g)
                         (Grade.subject_code grade)
                 then
                   s <- index (Grade.student_no g) (students w) ;;
                   ret (String.eqb (Student.class_name s)
                          (Student.class_name student))
                 else ret false)
              (Dict.values (grades w)) ;;
          let class_scores := map Grade.score class_grades in
          let class_average :=
            match class_scores with
            | [] => Grade.score grade
            | _ :: _ => Py.round (Py.mean class_scores) 2
            end in
          views <- student_views student rest ;;
          ret (StudentGradeView.mk
                 (Grade.exam_id grade)
                 (Exam.exam_name exam)
                 (Exam.exam_date exam)
                 (Grade.subject_code grade)
                 (match subject with
                  | Some subject => Subject.subject_name subject
                  | None => Grade.subject_code grade
                  end)
                 (Grade.score grade)
                 class_average
               :: views)
      end
  end.

Definition student_view_leb (a b : StudentGradeView.t) : bool :=
  Py.pair_leb Z.compare String.leb
    (StudentGradeView.exam_date a, StudentGradeView.subject_code a)
    (StudentGradeView.exam_date b, StudentGradeView.subject_code b).

Definition list_student_grades (account : Account.t)
    (term exam_id : option string) : M StudentGradeResponse.t :=
  if negb (Role_eqb (Account.role account) STUDENT)
  then raise (AppError 403 "权限不足")
  else
    w <- get_world ;;
    let key := Py.or_else (Account.bind_id account) "" in
    match Dict.get key (students w) with
    | None => raise (AppError 404 "学生不存在")
    | Some student =>
        let relevant_grades :=
          filter Grade.published
            (_grades_for_student (Student.student_no student) w) in
        relevant_grades <-
          (if Py.truthy term
           then
             filterM
               (fun grade =>
                  exam <- index (Grade.exam_id grade) (exams w) ;;
                  ret (String.eqb (Exam.term exam) (Py.or_else term "")))
               relevant_grades
           else ret relevant_grades) ;;
        let relevant_grades :=
          if Py.truthy exam_id
          then
            filter
              (fun grade =>
                 String.eqb (Grade.exam_id grade) (Py.or_else exam_id ""))
              relevant_grades
          else relevant_grades in
        views <- student_views student relevant_grades ;;
        let response :=
          StudentGradeResponse.mk
            (Student.has_unread_published_grades student)
            (Py.sorted student_view_leb views) in
        modify (fun w =>
          match Dict.get key (students w) with
          | Some s =>
              set_students
                (Dict.set key
                   (Student.set_has_unread_published_grades false s)
                   (students w)) w
          | None => w
          end) ;;
        ret response
    end.

Definition teacher_update_grade (account : Account.t)
    (exam_id subject_code student_no : string) (score : Q) : M Grade.t :=
  '(teacher_id, subjects, classes) <- _teacher_for_account account ;;
  _require_exam exam_id ;;
  _require_subject subject_code ;;
  _require_student student_no ;;
  if negb (Py.str_in subject_code subjects)
  then raise (AppError 403 "无权操作该科目")
  else
    w <- get_world ;;
    student <- index student_no (students w) ;;
    if negb (Py.str_in (Student.class_name student) classes)
    then raise (AppError 403 "无权操作该班级")
    else
      if Py.Qltb score (0 # 1) || Py.Qltb (100 # 1) score
      then raise (AppError 400 "分数范围错误")
      else
        let key := _grade_key exam_id subject_code student_no in
        timestamp <- _now ;;
        w <- get_world ;;
        let previous := Dict.get key (grades w) in
        let rounded_score := Py.round score 1 in
        match previous with
        | Some previous =>
            let old_score := Grade.score previous in
            let previous :=
              Grade.set_created_by teacher_id
                (Grade.set_updated_at timestamp
                   (Grade.set_score rounded_score previous)) in
            modify (fun w => set_grades (Dict.set key previous (grades w)) w) ;;
            _record_log GRADE_UPDATED teacher_id
              [ ("exam_id", DStr exam_id);
                ("subject_code", DStr subject_code);
                ("student_no", DStr student_no);
                ("old_score", DNum old_score);
                ("new_score", DNum (Grade.score previous)) ] ;;
            ret previous
        | None =>
            let grade :=
              Grade.mk exam_id subject_code student_no rounded_score
                teacher_id timestamp timestamp false in
            modify (fun w => set_grades (Dict.set key grade (grades w)) w) ;;
            _record_log GRADE_CREATED teacher_id
              [ ("exam_id", DStr exam_id);
                ("subject_code", DStr subject_code);
                ("student_no", DStr student_no);
                ("score", DNum (Grade.score grade)) ] ;;
            ret grade
        end.

(** [try: ... except AppError as exc:] around one call: an [AppError] is
    caught and its [detail] handed to the handler, any other exception
    propagates. *)
Definition try_AppError {A : Type} (m : M A) : M (string + A) :=
  fun w =>
    match m w with
    | (inl (AppError _ detail), w') => (inr (inl detail), w')
    | (inl e, w') => (inl e, w')
    | (inr a, w') => (inr (inr a), w')
    end.

(** A row of the imported file after the first [try] block of the loop:
    the text of the exception when a field is missing or the score does
    not parse, the four stripped fields otherwise. *)
Definition import_row : Type := string + (string * string * string * Q).

Fixpoint import_loop (account : Account.t) (idx : nat)
    (rows : list import_row) (processed : nat) (errors : list string)
  : M ImportResult.t :=
  match rows with
  | [] => ret (ImportResult.mk processed errors)
  | inl exc :: rows' =>
      import_loop account (S idx) rows' processed
        (errors ++ ["第 " ++ Py.str_of_nat idx ++ " 行格式错误: " ++ exc])
  | inr (exam_id, subject_code, student_no, score) :: rows' =>
      r <- try_AppError
             (teacher_update_grade account exam_id subject_code student_no
                score) ;;
      match r with
      | inl detail =>
          import_loop account (S idx) rows' processed
            (errors
             ++ ["第 " ++ Py.str_of_nat idx ++ " 行导入失败: " ++ detail])
      | inr _ => import_loop account (S idx) rows' (S processed) errors
      end
  end.

Definition teacher_import_grades (account : Account.t)
    (csv_content : list import_row) : M ImportResult.t :=
  import_loop account 2 csv_content 0 [].

(** The cells of a row handed to the CSV writer. *)
Inductive cell : Type :=
| CStr (s : string)
| CNum (q : Q).

Definition teacher_filter (exam_id class_name : option string)
    (grades : list Grade.t) : M (list Grade.t) :=
  let grades :=
    if Py.truthy exam_id
    then
      filter
        (fun grade =>
           String.eqb (Grade.exam_id grade) (Py.or_else exam_id ""))
        grades
    else grades in
  if Py.truthy class_name
  then
    w <- get_world ;;
    filterM
      (fun grade =>
         s <- index (Grade.student_no grade) (students w) ;;
         ret (String.eqb (Student.class_name s) (Py.or_else class_name "")))
      grades
  else ret grades.

Definition teacher_export_grades (account : Account.t)
    (exam_id class_name : option string) : M (list (list cell)) :=
  grades <- _visible_grades_for_teacher account ;;
  grades <- teacher_filter exam_id class_name grades ;;
  w <- get_world ;;
  let header :=
    [CStr "exam"; CStr "subject"; CStr "student_no"; CStr "student_name";
     CStr "class"; CStr "score"] in
  let rows :=
    map
      (fun grade =>
         let exam := Dict.get (Grade.exam_id grade) (exams w) in
         let subject := Dict.get (Grade.subject_code grade) (subjects w) in
         let student := Dict.get (Grade.student_no grade) (students w) in
         [ CStr (match exam with
                 | Some exam => Exam.exam_name exam
                 | None => Grade.exam_id grade
                 end);
           CStr (match subject with
                 | Some subject => Subject.subject_name subject
                 | None => Grade.subject_code grade
                 end);
           CStr (Grade.student_no grade);
           CStr (match student with
                 | Some student => Student.name student
                 | None => Grade.student_no grade
                 end);
           CStr (match student with
                 | Some student => Student.class_name student
                 | None => ""
                 end);
           CNum (Grade.score grade) ])
      grades in
  _record_log EXPORT
    (Py.or_else (Account.bind_id account) (Account.username account))
    [ ("scope", DStr "teacher");
      ("exam_id", DOptStr exam_id);
      ("class_name", DOptStr class_name) ] ;;
  ret (header :: rows).

Definition teacher_view_leb (sort_by : string) (a b : TeacherGradeView.t)
  : bool :=
  if String.eqb sort_by "score_desc"
  then Qle_bool (TeacherGradeView.score b) (TeacherGradeView.score a)
  else if String.eqb sort_by "score_asc"
  then Qle_bool (TeacherGradeView.score a) (TeacherGradeView.score b)
  else
    Py.pair_leb String.compare String.leb
      (TeacherGradeView.student_no a, TeacherGradeView.subject_code a)
      (TeacherGradeView.student_no b, TeacherGradeView.subject_code b).

Definition teacher_view (grade : Grade.t) : M TeacherGradeView.t :=
  w <- get_world ;;
  s <- index (Grade.student_no grade) (students w) ;;
  ret (TeacherGradeView.mk (Grade.student_no grade) (Student.name s)
         (Student.class_name s) (Grade.subject_code grade)
         (Grade.score grade) (Grade.published grade)).

Definition teacher_list_grades (account : Account.t)
    (exam_id class_name : option string) (sort_by : string)
  : M (list TeacherGradeView.t) :=
  grades <- _visible_grades_for_teacher account ;;
  grades <- teacher_filter exam_id class_name grades ;;
  views <- mapM teacher_view grades ;;
  ret (Py.sorted (teacher_view_leb sort_by) views).

(** The loop of [publish_grades] over [data.grades.values()]: each grade
    object is visited once and changed in place; the result is the
    entries after the loop and the value of [updated]. *)
Fixpoint publish_loop (exam_id subject_code : string) (classes : list string)
    (entries : dict key3 Grade.t) (updated : nat)
  : M (dict key3 Grade.t * nat) :=
  match entries with
  | [] => ret ([], updated)
  | (k, grade) :: entries' =>
      w <- get_world ;;
      let student := Dict.get (Grade.student_no grade) (students w) in
      if String.eqb (Grade.exam_id grade) exam_id
         && String.eqb (Grade.subject_code grade) subject_code
         && match student with
            | Some student => Py.str_in (Student.class_name student) classes
            | None => false
            end
      then
        (if negb (Grade.published grade)
         then
           modify (fun w =>
             match Dict.get (Grade.student_no grade) (students w) with
             | Some s =>
                 set_students
                   (Dict.set (Grade.student_no grade)
                      (Student.set_has_unread_published_grades true s)
                      (students w)) w
             | None => w
             end)
         else ret tt) ;;
        '(rest, updated) <-
          publish_loop exam_id subject_code classes entries' (S updated) ;;
        ret ((k, Grade.set_published true grade) :: rest, updated)
      else
        '(rest, updated) <-
          publish_loop exam_id subject_code classes entries' updated ;;
        ret ((k, grade) :: rest, updated)
  end.

Definition publish_grades (account : Account.t)
    (exam_id subject_code : string) : M nat :=
  '(teacher_id, subjects, classes) <- _teacher_for_account account ;;
  if negb (Py.str_in subject_code subjects)
  then raise (AppError 403 "无权发布该科目")
  else
    _require_exam exam_id ;;
    w <- get_world ;;
    '(entries, updated) <-
      publish_loop exam_id subject_code classes (grades w) 0 ;;
    modify (set_grades entries) ;;
    if Nat.eqb updated 0
    then raise (AppError 404 "未找到成绩记录")
    else
      _record_log GRADE_PUBLISHED teacher_id
        [ ("exam_id", DStr exam_id);
          ("subject_code", DStr subject_code);
          ("count", DInt updated) ] ;;
      ret updated.

Definition _aggregate_scores (scores : list Q) : option AggregatedStats.t :=
  match scores with
  | [] => None
  | first :: rest =>
      let highest := Py.max first rest in
      let lowest := Py.min first rest in
      let avg := Py.round (Py.mean scores) 2 in
      let passing :=
        List.length (filter (fun score => Qle_bool PASSING_SCORE score) scores) in
      let pass_rate :=
        Py.round
          ((inject_Z (Z.of_nat passing)
            / inject_Z (Z.of_nat (List.length scores))) * (100 # 1))%Q 2 in
      Some (AggregatedStats.mk highest lowest avg pass_rate)
  end.

Definition overview_of (w : World) (exam : Exam.t) (subject : Subject.t)
  : list OverviewEntry.t :=
  let scores :=
    map Grade.score
      (filter
         (fun grade =>
            String.eqb (Grade.exam_id grade) (Exam.exam_id exam)
            && String.eqb (Grade.subject_code grade)
                 (Subject.subject_code subject))
         (Dict.values (grades w))) in
  match _aggregate_scores scores with
  | Some stats =>
      [OverviewEntry.mk (Exam.exam_id exam) (Exam.exam_name exam)
         (Subject.subject_code subject) (Subject.subject_name subject)
         stats]
  | None => []
  end.

Definition principal_overview (exam_id : option string)
  : M (list OverviewEntry.t) :=
  w <- get_world ;;
  exams <-
    (if Py.truthy exam_id
     then
       exam <- index (Py.or_else exam_id "") (exams w) ;;
       ret [exam]
     else ret (Dict.values (exams w))) ;;
  ret (flat_map
         (fun exam =>
            flat_map (overview_of w exam) (Dict.values (subjects w)))
         exams).

(** [if f and x != f: continue] for an optional filter [f]. *)
Definition filtered_out (f : option string) (x : string) : bool :=
  Py.truthy f && negb (String.eqb x (Py.or_else f "")).

Definition principal_grade_details (exam_id class_name subject_code : option string)
    (w : World) : list GradeDetailEntry.t :=
  flat_map
    (fun grade =>
       if filtered_out exam_id (Grade.exam_id grade) then []
       else if filtered_out subject_code (Grade.subject_code grade) then []
       else
         match Dict.get (Grade.student_no grade) (students w) with
         | None => []
         | Some student =>
             if filtered_out class_name (Student.class_name student) then []
             else
               let exam := Dict.get (Grade.exam_id grade) (exams w) in
               let subject :=
                 Dict.get (Grade.subject_code grade) (subjects w) in
               [GradeDetailEntry.mk
                  (Grade.exam_id grade)
                  (match exam with
                   | Some exam => Exam.exam_name exam
                   | None => Grade.exam_id grade
                   end)
                  (Grade.subject_code grade)
                  (match subject with
                   | Some subject => Subject.subject_name subject
                   | None => Grade.subject_code grade
                   end)
                  (Grade.student_no grade)
                  (Student.name student)
                  (Student.class_name student)
                  (Grade.score grade)
                  (Grade.published grade)]
         end)
    (Dict.values (grades w)).

(** The keyword arguments [**filters] are the three filters of
    [principal_grade_details]. *)
Definition principal_export_grades (exam_id class_name subject_code : option string)
  : M (list (list cell)) :=
  w <- get_world ;;
  let entries := principal_grade_details exam_id class_name subject_code w in
  let header :=
    [CStr "exam"; CStr "subject"; CStr "student_no"; CStr "student_name";
     CStr "class"; CStr "score"; CStr "published"] in
  let rows :=
    map
      (fun entry =>
         [ CStr (GradeDetailEntry.exam_name entry);
           CStr (GradeDetailEntry.subject_name entry);
           CStr (GradeDetailEntry.student_no entry);
           CStr (GradeDetailEntry.student_name entry);
           CStr (GradeDetailEntry.class_name entry);
           CNum (GradeDetailEntry.score entry);
           CStr (if GradeDetailEntry.published entry then "是" else "否") ])
      entries in
  _record_log EXPORT "principal"
    [ ("scope", DStr "principal");
      ("filters",
       DFilters [ ("exam_id", exam_id); ("subject_code", subject_code);
                  ("class_name", class_name) ]) ] ;;
  ret (header :: rows).

Definition list_audit_logs (account : Account.t)
  : M (list AuditLogEntry.t) :=
  match Account.role account with
  | PRINCIPAL => w <- get_world ;; ret (audit_logs w)
  | TEACHER =>
      '(teacher_id, subjects, _) <- _teacher_for_account account ;;
      w <- get_world ;;
      ret (filter
             (fun log =>
                String.eqb (AuditLogEntry.actor log) teacher_id
                || (match Dict.get "subject_code" (AuditLogEntry.details log) with
                    | Some (DStr subject_code) =>
                        Py.str_in subject_code subjects
                    | _ => false
                    end
                    && is_grade_action (AuditLogEntry.action log)))
             (audit_logs w))
  | STUDENT => raise (AppError 403 "权限不足")
  end.

Definition mark_password_reset (actor username : string) : M unit :=
  _record_log PASSWORD_RESET actor [("username", DStr username)].

(** ** The operations of the interface, as calls *)

Inductive call : Type :=
| Authenticate (username password : string)
| GetAccount (token : string)
| RequireRole (token : string) (role : Role)
| RequireTeacherOrPrincipal (token : string)
| ChangePassword (account old_password new_password : string)
| ResetPassword (username : string)
| Logout (token : string)
| ListStudentGrades (account : Account.t) (term exam_id : option string)
| TeacherUpdateGrade (account : Account.t)
    (exam_id subject_code student_no : string) (score : Q)
| TeacherImportGrades (account : Account.t) (csv_content : list import_row)
| TeacherExportGrades (account : Account.t) (exam_id class_name : option string)
| TeacherListGrades (account : Account.t) (exam_id class_name : option string)
    (sort_by : string)
| PublishGrades (account : Account.t) (exam_id subject_code : string)
| PrincipalOverview (exam_id : option string)
| PrincipalGradeDetails (exam_id class_name subject_code : option string)
| PrincipalExportGrades (exam_id class_name subject_code : option string)
| ListAuditLogs (account : Account.t)
| MarkPasswordReset (actor username : string).

(** The world after a call, whether it returned or raised. *)
Definition step (c : call) (w : World) : World :=
  match c with
  | Authenticate u p => after (authenticate u p) w
  | GetAccount t => after (get_account t) w
  | RequireRole t r => after (require_role t r) w
  | RequireTeacherOrPrincipal t => after (require_teacher_or_principal t) w
  | ChangePassword a o n => after (change_password a o n) w
  | ResetPassword u => after (reset_password u) w
  | Logout t => after (logout t) w
  | ListStudentGrades a t e => after (list_student_grades a t e) w
  | TeacherUpdateGrade a e s n x => after (teacher_update_grade a e s n x) w
  | TeacherImportGrades a rows => after (teacher_import_grades a rows) w
  | TeacherExportGrades a e c => after (teacher_export_grades a e c) w
  | TeacherListGrades a e c s => after (teacher_list_grades a e c s) w
  | PublishGrades a e s => after (publish_grades a e s) w
  | PrincipalOverview e => after (principal_overview e) w
  | PrincipalGradeDetails _ _ _ => w
  | PrincipalExportGrades e c s => after (principal_export_grades e c s) w
  | ListAuditLogs a => after (list_audit_logs a) w
  | MarkPasswordReset a u => after (mark_password_reset a u) w
  end.

Definition run (cs : list call) (w : World) : World :=
  fold_left (fun w c => step c w) cs w.

End Program.

(** ** A concrete instance: the seed data under a toy digest

    The digest of the instance stores the password itself behind a prefix;
    the clock ticks once a second from a fixed start. *)

Definition demo_hash (password salt : string) : string := "pw:" ++ password.

Definition demo_verify (password stored : string) : bool :=
  String.eqb stored ("pw:" ++ password).

Definition demo_clock (n : nat) : datetime :=
  1750000000000000 + Z.of_nat n * 1000000.

Definition demo_entropy (draw length : nat) : string :=
  "draw-" ++ Py.str_of_nat draw.

Definition demo_world : World := data demo_hash demo_clock demo_entropy.

(** ** [security.py]: the format of a stored password hash

    [hash_password] stores [salt.hex() + "$" + digest.hex()], and
    [verify_password] splits the stored string at ["$"], decodes the two
    parts and compares them with the digest of the candidate under the
    decoded salt.  A [bytes] value is a string of 8-bit characters, and a
    [str] is the string of its UTF-8 bytes, so that [encode("utf-8")] is
    the identity; the key derivation [hashlib.pbkdf2_hmac] is a variable.
    The operations above take the two functions as variables, so that they
    can be read with these or with any other pair. *)

Module Security.

(** The outcome of a function that returns or raises [ValueError]. *)
Inductive result (A : Type) : Type :=
| Returns (a : A)
| ValueError.

Arguments Returns {A} a.
Arguments ValueError {A}.

(** [bytes.hex()]: two lower-case digits for each byte. *)
Definition hex_digit (n : N) : ascii :=
  match String.get (N.to_nat n) "0123456789abcdef" with
  | Some c => c
  | None => "0"%char
  end.

Definition hex_of_byte (c : ascii) : string :=
  String (hex_digit (N_of_ascii c / 16))
    (String (hex_digit (N_of_ascii c mod 16)) "").

Fixpoint hex (b : string) : string :=
  match b with
  | EmptyString => ""
  | String c b' => hex_of_byte c ++ hex b'
  end.

(** The value of a hexadecimal digit, in either case. *)
Definition hex_value (c : ascii) : option N :=
  let n := N_of_ascii c in
  (if (48 <=? n) && (n <=? 57) then Some (n - 48)
   else if (97 <=? n) && (n <=? 102) then Some (n - 87)
   else if (65 <=? n) && (n <=? 70) then Some (n - 55)
   else None)%N.

(** ASCII white space, which [bytes.fromhex] skips between bytes. *)
Definition is_space (c : ascii) : bool :=
  let n := N_of_ascii c in
  ((n =? 32) || ((9 <=? n) && (n <=? 13)))%N.

(** [bytes.fromhex(s)]: [None] stands for the [ValueError] raised on a
    character that is not a digit or on a single digit. *)
Fixpoint fromhex (s : string) : option string :=
  match s with
  | EmptyString => Some ""
  | String c s' =>
      if is_space c then fromhex s'
      else
        match s' with
        | EmptyString => None
        | String c' s'' =>
            match hex_value c, hex_value c' with
            | Some top, Some bot =>
                option_map (String (ascii_of_N (16 * top + bot)))
                  (fromhex s'')
            | _, _ => None
            end
        end
  end.

(** [s.split(sep)] for a separator of one character. *)
Fixpoint split (sep : ascii) (s : string) : list string :=
  match s with
  | EmptyString => [""]
  | String c s' =>
      if Ascii.eqb c sep then "" :: split sep s'
      else
        match split sep s' with
        | part :: parts => String c part :: parts
        | [] => [String c ""]
        end
  end.

Section Digest.

(** [hashlib.pbkdf2_hmac(hash_name, password, salt, iterations)] *)
Variable pbkdf2_hmac : string -> string -> string -> Z -> string.

Definition _salt_password (password salt : string) : string :=
  pbkdf2_hmac "sha256" password salt 390000.

(** [hash_password(password, salt)]: [salt or os.urandom(16)] draws a salt
    when the argument is [None] or empty. *)
Definition hash_password (password : string) (salt : option string)
  : M string :=
  salt <-
    match salt with
    | Some s => if String.eqb s "" then urandom 16 else ret s
    | None => urandom 16
    end ;;
  let hashed := _salt_password password salt in
  ret (hex salt ++ "$" ++ hex hashed).

(** [verify_password(password, stored)]: the unpacking of the split is
    inside the [try], the two [fromhex] calls are not. *)
Definition verify_password (password stored : string) : result bool :=
  match split "$" stored with
  | [salt_hex; hash_hex] =>
      match fromhex salt_hex with
      | None => ValueError
      | Some salt =>
          match fromhex hash_hex with
          | None => ValueError
          | Some expected =>
              Returns (String.eqb (_salt_password password salt) expected)
          end
      end
  | _ => Returns false
  end.

End Digest.

End Security.

(** ** Notions used in the statements *)

Definition InvalidCredentials : exn := AppError 401 "账号或密码错误".
Definition AccountLocked : exn := AppError 423 "账号或密码错误/账号锁定".
Definition NoMatchingRecords : exn := AppError 404 "未找到成绩记录".

(** The lock of an account is still in the future at the next reading of
    the clock. *)
Definition is_locked (a : Account.t) (w : World) : bool :=
  match Account.locked_until a with
  | None => false
  | Some until => clock w (ticks w) <? until
  end.

(** Consecutive [authenticate] calls for one user name. *)
Definition attempts (verify_password : string -> string -> bool)
    (username : string) (passwords : list string) (w : World) : World :=
  fold_left (fun w p => after (authenticate verify_password username p) w)
    passwords w.

(** The notification flag of the student stored under a number. *)
Definition has_unread (w : World) (student_no : string) : bool :=
  match Dict.get student_no (students w) with
  | Some s => Student.has_unread_published_grades s
  | None => false
  end.

(** [preserves R m]: the world after [m], returned or raised, is related by
    [R] to the world before. *)
Definition preserves (R : World -> World -> Prop) {A : Type} (m : M A)
  : Prop :=
  forall w, R w (after m w).

(** The stores are keyed by the natural keys of their records. *)
Definition students_keyed (d : dict string Student.t) : Prop :=
  Dict.wf d /\ forall k s, In (k, s) d -> Student.student_no s = k.

Definition ledger_keyed (d : dict key3 Grade.t) : Prop :=
  Dict.wf d
  /\ forall k g,
       In (k, g) d ->
       k = _grade_key (Grade.exam_id g) (Grade.subject_code g)
             (Grade.student_no g).

(** The ledger only grows at its end, keeps one entry per key and stays
    keyed by the fields of its grades, and an entry keeps its creation time
    and, once published, stays published. *)
Definition ledger_le (d d' : dict key3 Grade.t) : Prop :=
  (exists extra, Dict.keys d' = (Dict.keys d ++ extra)%list)
  /\ (Dict.wf d -> Dict.wf d')
  /\ (ledger_keyed d -> ledger_keyed d')
  /\ forall k g,
       Dict.get k d = Some g ->
       exists g',
         Dict.get k d' = Some g'
         /\ Grade.created_at g' = Grade.created_at g
         /\ (Grade.published g = true -> Grade.published g' = true).

(** The students are the same, up to notification flags that were cleared,
    and stay stored under their numbers. *)
Definition students_le (d d' : dict string Student.t) : Prop :=
  (students_keyed d -> students_keyed d')
  /\ forall k,
       match Dict.get k d, Dict.get k d' with
       | Some s, Some s' =>
           s' = s \/ s' = Student.set_has_unread_published_grades false s
       | None, None => True
       | _, _ => False
       end.

(** What every operation keeps: the clock only moves on and the ledger only
    grows. *)
Definition stable (w w' : World) : Prop :=
  clock w' = clock w
  /\ (ticks w <= ticks w')%nat
  /\ ledger_le (grades w) (grades w').

(** What every operation but [publish_grades] keeps. *)
Definition quiet (w w' : World) : Prop :=
  stable w w' /\ students_le (students w) (students w').

(** The world in which [authenticate] verifies the password of an account
    that is not locked: the lock check has read the clock when there was a
    lock. *)
Definition past_lock_check (a : Account.t) (w : World) : World :=
  match Account.locked_until a with
  | None => w
  | Some _ => set_ticks (S (ticks w)) w
  end.

(** The grade that a successful upsert stores and returns: the previous
    grade of the key with its score, [updated_at] and [created_by]
    overwritten, or a new unpublished grade. *)
Definition upserted (teacher : Teacher.t)
    (exam_id subject_code student_no : string) (score : Q)
    (timestamp : datetime) (previous : option Grade.t) : Grade.t :=
  match previous with
  | Some previous =>
      Grade.set_created_by (Teacher.teacher_id teacher)
        (Grade.set_updated_at timestamp
           (Grade.set_score (Py.round score 1) previous))
  | None =>
      Grade.mk exam_id subject_code student_no (Py.round score 1)
        (Teacher.teacher_id teacher) timestamp timestamp false
  end.

(** The audit entry of a successful upsert. *)
Definition upsert_log (teacher : Teacher.t)
    (exam_id subject_code student_no : string) (timestamp : datetime)
    (previous : option Grade.t) (grade : Grade.t) : AuditLogEntry.t :=
  match previous with
  | Some previous =>
      AuditLogEntry.mk timestamp (Teacher.teacher_id teacher) GRADE_UPDATED
        [ ("exam_id", DStr exam_id);
          ("subject_code", DStr subject_code);
          ("student_no", DStr student_no);
          ("old_score", DNum (Grade.score previous));
          ("new_score", DNum (Grade.score grade)) ]
  | None =>
      AuditLogEntry.mk timestamp (Teacher.teacher_id teacher) GRADE_CREATED
        [ ("exam_id", DStr exam_id);
          ("subject_code", DStr subject_code);
          ("student_no", DStr student_no);
          ("score", DNum (Grade.score grade)) ]
  end.

(** The Teacher record that an account is bound to, when the account has
    the teacher role and its binding names a record. *)
Definition teacher_of (account : Account.t) (w : World) : option Teacher.t :=
  if Role_eqb (Account.role account) TEACHER
  then Dict.get (Py.or_else (Account.bind_id account) "") (teachers w)
  else None.

(** An account with the student role, bound to the first seed student. *)
Definition demo_student_account : Account.t :=
  Account.mk "s_s001" STUDENT (Some "S001") "pw:Pass@123" None 0 true.

(** The account of the seed mathematics teacher. *)
Definition demo_teacher_account : Account.t :=
  Account.mk "t_mth" TEACHER (Some "T200") "pw:Pass@123" None 0 true.



(** A grade is in the scope of a publish call: it is a grade of the exam
    and the subject, and its student is stored and of one of the classes. *)
Definition publish_matches (w : World) (exam_id subject_code : string)
    (classes : list string) (grade : Grade.t) : bool :=
  String.eqb (Grade.exam_id grade) exam_id
  && String.eqb (Grade.subject_code grade) subject_code
  && match Dict.get (Grade.student_no grade) (students w) with
     | Some student => Py.str_in (Student.class_name student) classes
     | None => false
     end.

(** The assignment [student.has_unread_published_grades = True] on the
    student stored under a number. *)
Definition mark_unread (student_no : string) (d : dict string Student.t)
  : dict string Student.t :=
  match Dict.get student_no d with
  | Some s =>
      Dict.set student_no (Student.set_has_unread_published_grades true s) d
  | None => d
  end.

(** The grades and the students after the loop of [publish_grades]. *)
Definition published_entries (matches : Grade.t -> bool)
    (entries : dict key3 Grade.t) : dict key3 Grade.t :=
  map (fun entry =>
         (fst entry,
          if matches (snd entry)
          then Grade.set_published true (snd entry)
          else snd entry))
    entries.

Definition notified_students (matches : Grade.t -> bool)
    (entries : dict key3 Grade.t) (d : dict string Student.t)
  : dict string Student.t :=
  fold_left
    (fun d grade =>
       if matches grade && negb (Grade.published grade)
       then mark_unread (Grade.student_no grade) d
       else d)
    (Dict.values entries) d.

(** Some grade of the student, at some place of the ledger, is unpublished
    in [w] and published in [w']. *)
Definition transitioned (w w' : World) (student_no : string) : Prop :=
  exists (i : nat) (g g' : Grade.t),
    nth_error (Dict.values (grades w)) i = Some g
    /\ nth_error (Dict.values (grades w')) i = Some g'
    /\ Grade.student_no g = student_no
    /\ Grade.published g = false
    /\ Grade.published g' = true.

(** The world after the loop of [publish_grades] for a teacher. *)
Definition published_world (w : World) (exam_id subject_code : string)
    (classes : list string) : World :=
  let m := publish_matches w exam_id subject_code classes in
  set_grades (published_entries m (grades w))
    (set_students (notified_students m (grades w) (students w)) w).

(** The number of grades in the scope of a publish call. *)
Definition publish_count (w : World) (exam_id subject_code : string)
    (classes : list string) : nat :=
  List.length
    (filter (publish_matches w exam_id subject_code classes)
       (Dict.values (grades w))).

(** The world is the same: what a read-only computation keeps. *)
Definition unchanged (w w' : World) : Prop := w' = w.

(** The seed world with a second exam that has no grade yet. *)
Definition demo_world_final : World :=
  mkWorld (accounts demo_world) (students demo_world) (subjects demo_world)
    (teachers demo_world)
    (exams demo_world
     ++ [("EX2025N",
          Exam.mk "EX2025N" "2025-上学期-期末考试" "2025-上" 739442
            ["Class 1"; "Class 2"] DRAFT)])%list
    (grades demo_world) (audit_logs demo_world) (_tokens demo_world)
    (clock demo_world) (ticks demo_world) (entropy demo_world)
    (draws demo_world).

(** Calls made between two upserts in the examples. *)
Definition demo_calls : list call :=
  [ PublishGrades demo_teacher_account "EX2025N" "MTH";
    ListStudentGrades demo_student_account None None ].

(** No call of the sequence publishes a grade of the student for the first
    time. *)
Fixpoint no_first_publish (verify_password : string -> string -> bool)
    (hash_password_salted : string -> string -> string)
    (student_no : string) (cs : list call) (w : World) : Prop :=
  match cs with
  | [] => True
  | c :: cs' =>
      ~ transitioned w (step verify_password hash_password_salted c w)
          student_no
      /\ no_first_publish verify_password hash_password_salted student_no cs'
           (step verify_password hash_password_salted c w)
  end.

(** The seed world with the second exam and one unpublished grade in it. *)
Definition demo_world_graded : World :=
  after
    (teacher_update_grade demo_teacher_account "EX2025N" "MTH" "S001" (96 # 1))
    demo_world_final.

(** What the first seed student reads in a world. *)
Definition demo_read (w : World) : StudentGradeResponse.t :=
  match outcome (list_student_grades demo_student_account None None) w with
  | inr r => r
  | inl _ => StudentGradeResponse.mk false []
  end.

(** A grade is in the scope of a teacher: its subject is one of the
    teacher's and its student is stored and of one of the teacher's
    classes. *)
Definition teacher_scope (w : World) (teacher : Teacher.t) (grade : Grade.t)
  : bool :=
  Py.str_in (Grade.subject_code grade) (Teacher.subjects teacher)
  && match Dict.get (Grade.student_no grade) (students w) with
     | Some student =>
         Py.str_in (Student.class_name student) (Teacher.classes teacher)
     | None => false
     end.

(** The row of the teacher listing for a grade whose student is stored. *)
Definition teacher_view_of (w : World) (grade : Grade.t) : TeacherGradeView.t :=
  match Dict.get (Grade.student_no grade) (students w) with
  | Some s =>
      TeacherGradeView.mk (Grade.student_no grade) (Student.name s)
        (Student.class_name s) (Grade.subject_code grade) (Grade.score grade)
        (Grade.published grade)
  | None =>
      TeacherGradeView.mk (Grade.student_no grade) "" ""
        (Grade.subject_code grade) (Grade.score grade) (Grade.published grade)
  end.

(** The students and the ledger of a world are keyed by their natural
    keys. *)
Definition keyed (w : World) : Prop :=
  students_keyed (students w) /\ ledger_keyed (grades w).


(** The errors of the session checks. *)
Definition Unauthenticated : exn := AppError 401 "未登录".
Definition Forbidden : exn := AppError 403 "权限不足".

(** The seed world after five wrong passwords for the first student, and
    the account of that student as it is then. *)
Definition demo_world_locked : World :=
  attempts demo_verify "s_s001" ["a"; "b"; "c"; "d"; "e"] demo_world.

Definition demo_locked_account : Account.t :=
  Account.mk "s_s001" STUDENT (Some "S001") "pw:Pass@123"
    (Some 1750000918000000) 5 true.

(** [same_on f]: the part [f] of the world is the same. *)
Definition same_on {T : Type} (f : World -> T) (w w' : World) : Prop :=
  f w' = f w.

(** The fields of an account and of a student that no operation assigns. *)
Definition account_identity (a : Account.t) : string * Role * option string :=
  (Account.username a, Account.role a, Account.bind_id a).

Definition student_identity (s : Student.t)
  : string * string * string * string :=
  (Student.student_no s, Student.name s, Student.class_name s,
   Student.status s).

(** Two stores have the same keys in the same order, and under each key
    records of the same identity. *)
Definition same_identities {V I : Type} (identity : V -> I)
    (d d' : dict string V) : Prop :=
  Dict.keys d' = Dict.keys d
  /\ forall k,
       option_map identity (Dict.get k d')
       = option_map identity (Dict.get k d).

(** What every operation keeps of the reference data, of the accounts, of
    the students and of the audit log. *)
Definition conserved (w w' : World) : Prop :=
  exams w' = exams w
  /\ subjects w' = subjects w
  /\ teachers w' = teachers w
  /\ same_identities account_identity (accounts w) (accounts w')
  /\ same_identities student_identity (students w) (students w')
  /\ (exists extra, audit_logs w' = (audit_logs w ++ extra)%list)
  /\ clock w' = clock w
  /\ entropy w' = entropy w.

(** The calls that assign nothing, and the calls that assign a store. *)
Definition reads_only (c : call) : bool :=
  match c with
  | GetAccount _ | RequireRole _ _ | RequireTeacherOrPrincipal _
  | TeacherListGrades _ _ _ _ | PrincipalOverview _
  | PrincipalGradeDetails _ _ _ | ListAuditLogs _ => true
  | _ => false
  end.

Definition writes_accounts (c : call) : bool :=
  match c with
  | Authenticate _ _ | ChangePassword _ _ _ | ResetPassword _ => true
  | _ => false
  end.

Definition writes_tokens (c : call) : bool :=
  match c with
  | Authenticate _ _ | Logout _ => true
  | _ => false
  end.

Definition writes_students (c : call) : bool :=
  match c with
  | ListStudentGrades _ _ _ | PublishGrades _ _ _ => true
  | _ => false
  end.

Definition writes_grades (c : call) : bool :=
  match c with
  | TeacherUpdateGrade _ _ _ _ _ | TeacherImportGrades _ _
  | PublishGrades _ _ _ => true
  | _ => false
  end.

Definition writes_audit_logs (c : call) : bool :=
  match c with
  | TeacherUpdateGrade _ _ _ _ _ | TeacherImportGrades _ _
  | PublishGrades _ _ _ | TeacherExportGrades _ _ _
  | PrincipalExportGrades _ _ _ | MarkPasswordReset _ _ => true
  | _ => false
  end.

(** The stores that an operation leaves alone: all but the accounts and
    the sessions for a login, and so on. *)
Definition beside_login (w : World) :=
  (students w, grades w, audit_logs w).

Definition beside_password (w : World) :=
  (students w, grades w, audit_logs w, _tokens w).

Definition beside_logout (w : World) :=
  (accounts w, students w, grades w, audit_logs w).

Definition beside_flag (w : World) :=
  (accounts w, grades w, audit_logs w, _tokens w).

Definition beside_upsert (w : World) := (accounts w, students w, _tokens w).

Definition beside_publish (w : World) := (accounts w, _tokens w).

Definition beside_log (w : World) :=
  (accounts w, students w, grades w, _tokens w).


(** The upsert calls that an import makes: one for each row that parses,
    in the order of the rows. *)
Definition import_calls (account : Account.t) (rows : list import_row)
  : list call :=
  flat_map
    (fun row =>
       match row with
       | inl _ => []
       | inr (exam_id, subject_code, student_no, score) =>
           [TeacherUpdateGrade account exam_id subject_code student_no score]
       end)
    rows.

(** A grade passes the optional exam and class filters of the teacher
    listing and export: a filter that is [None] or the empty string lets
    every grade pass. *)
Definition teacher_filter_passes (w : World)
    (exam_id class_name : option string) (grade : Grade.t) : bool :=
  negb (filtered_out exam_id (Grade.exam_id grade))
  && match Dict.get (Grade.student_no grade) (students w) with
     | Some student => negb (filtered_out class_name (Student.class_name student))
     | None => negb (Py.truthy class_name)
     end.

(** The grades that a teacher listing or export with filters shows. *)
Definition teacher_selection (w : World) (teacher : Teacher.t)
    (exam_id class_name : option string) : list Grade.t :=
  filter (teacher_filter_passes w exam_id class_name)
    (filter (teacher_scope w teacher) (Dict.values (grades w))).

(** The student number and the score in a row of the teacher export. *)
Definition export_row_key (row : list cell) : cell * cell :=
  (nth 2 row (CStr ""), nth 5 row (CStr "")).

(** An entry of the principal details passes the optional filters. *)
Definition detail_passes (exam_id class_name subject_code : option string)
    (entry : GradeDetailEntry.t) : bool :=
  negb (filtered_out exam_id (GradeDetailEntry.exam_id entry))
  && negb (filtered_out subject_code (GradeDetailEntry.subject_code entry))
  && negb (filtered_out class_name (GradeDetailEntry.class_name entry)).

(** The fields of a details entry that come from its grade. *)
Definition detail_grade (entry : GradeDetailEntry.t)
  : string * string * string * Q * bool :=
  (GradeDetailEntry.exam_id entry, GradeDetailEntry.subject_code entry,
   GradeDetailEntry.student_no entry, GradeDetailEntry.score entry,
   GradeDetailEntry.published entry).

(** The account of the seed Chinese teacher, and the seed Teacher records
    of the two accounts. *)
Definition demo_other_teacher_account : Account.t :=
  Account.mk "t_chn" TEACHER (Some "T100") "pw:Pass@123" None 0 true.

Definition demo_teacher : Teacher.t :=
  Teacher.mk "T200" "刘老师" ["MTH"] ["Class 1"; "Class 2"].

Definition demo_other_teacher : Teacher.t :=
  Teacher.mk "T100" "陈老师" ["CHN"] ["Class 1"; "Class 2"].

(** Every grade of the ledger is a grade of a stored exam and of a stored
    student. *)
Definition refers (w : World) : Prop :=
  forall g,
    In g (Dict.values (grades w)) ->
    Dict.mem (Grade.exam_id g) (exams w) = true
    /\ Dict.mem (Grade.student_no g) (students w) = true.

(** The sessions keep one entry per token. *)
Definition sessions_wf (w w' : World) : Prop :=
  Dict.wf (_tokens w) -> Dict.wf (_tokens w').

(** The accounts are stored under their own user names, none of them
    empty. *)
Definition accounts_keyed (d : dict string Account.t) : Prop :=
  forall k a, Dict.get k d = Some a -> Account.username a = k /\ k <> "".

(** Every session names a stored account. *)
Definition sessions_resolve (w : World) : Prop :=
  forall t u,
    Dict.get t (_tokens w) = Some u -> Dict.mem u (accounts w) = true.

(** * Properties *)

Local Open Scope monad_scope.

(** ** Dictionaries *)

#[export] Instance KeyEqLaws_string : KeyEqLaws string.
Proof. constructor. exact String.eqb_eq. Qed.

#[export] Instance KeyEqLaws_key3 : KeyEqLaws key3.
Proof.
  constructor. intros [[a1 a2] a3] [[b1 b2] b3]; simpl.
  rewrite !andb_true_iff, !String.eqb_eq.
  split; [intros [[-> ->] ->]; reflexivity | intros [= -> -> ->]; auto].
Qed.

Section DictFacts.
Context {K V : Type} `{KeyEqLaws K}.
Implicit Types (k : K) (v : V) (d : dict K V).

Lemma keqb_refl k : keqb k k = true.
Proof. apply keqb_eq; reflexivity. Qed.

Lemma keqb_neq k k' : k <> k' -> keqb k k' = false.
Proof.
  intros Hne; destruct (keqb k k') eqn:E; [|reflexivity].
  apply keqb_eq in E; contradiction.
Qed.

Lemma get_set_same k v d : Dict.get k (Dict.set k v d) = Some v.
Proof.
  induction d as [|[k' v'] d IH]; simpl.
  - rewrite keqb_refl; reflexivity.
  - destruct (keqb k k') eqn:E; simpl; rewrite E; auto.
Qed.

Lemma get_set_other k k' v d :
  k' <> k -> Dict.get k' (Dict.set k v d) = Dict.get k' d.
Proof.
  intros Hne; induction d as [|[k0 v0] d IH]; simpl.
  - rewrite (keqb_neq _ _ Hne); reflexivity.
  - destruct (keqb k k0) eqn:E; simpl.
    + apply keqb_eq in E; subst k0. rewrite (keqb_neq _ _ Hne); reflexivity.
    + rewrite IH; reflexivity.
Qed.

Lemma get_None_notin k d : Dict.get k d = None <-> ~ In k (Dict.keys d).
Proof.
  induction d as [|[k0 v0] d IH]; simpl.
  - tauto.
  - destruct (keqb k k0) eqn:E.
    + apply keqb_eq in E; subst.
      split; [discriminate | intros Hn; exfalso; auto].
    + rewrite IH; split; [|tauto].
      intros Hn [->|Hin]; [rewrite keqb_refl in E; discriminate | auto].
Qed.

Lemma keys_set_present k v v0 d :
  Dict.get k d = Some v0 -> Dict.keys (Dict.set k v d) = Dict.keys d.
Proof.
  induction d as [|[k1 v1] d IH]; simpl; [discriminate|].
  destruct (keqb k k1) eqn:E; simpl; [reflexivity|].
  intros Hg; rewrite (IH Hg); reflexivity.
Qed.

Lemma set_absent k v d :
  Dict.get k d = None -> Dict.set k v d = (d ++ [(k, v)])%list.
Proof.
  induction d as [|[k1 v1] d IH]; simpl; [reflexivity|].
  destruct (keqb k k1) eqn:E; [discriminate|].
  intros Hg; rewrite (IH Hg); reflexivity.
Qed.

Lemma keys_set_cases k v d :
  Dict.keys (Dict.set k v d) = Dict.keys d
  \/ (Dict.get k d = None
      /\ Dict.keys (Dict.set k v d) = (Dict.keys d ++ [k])%list).
Proof.
  destruct (Dict.get k d) eqn:E.
  - left; eapply keys_set_present; eauto.
  - right; split; auto. rewrite (set_absent _ _ _ E).
    unfold Dict.keys; rewrite map_app; reflexivity.
Qed.

Lemma wf_app_new k (l : list K) : NoDup l -> ~ In k l -> NoDup (l ++ [k]).
Proof.
  intros Hnd Hn. apply NoDup_app; auto.
  - constructor; [intros []|constructor].
  - intros a Ha [<-|[]]; auto.
Qed.

Lemma wf_set k v d : Dict.wf d -> Dict.wf (Dict.set k v d).
Proof.
  unfold Dict.wf; intros Hwf.
  destruct (keys_set_cases k v d) as [-> | [Hn ->]]; auto.
  apply wf_app_new; auto. apply get_None_notin; auto.
Qed.

Lemma get_In k v d : Dict.get k d = Some v -> In (k, v) d.
Proof.
  induction d as [|[k1 v1] d IH]; simpl; [discriminate|].
  destruct (keqb k k1) eqn:E; auto.
  apply keqb_eq in E; subst; intros [= ->]; auto.
Qed.

Lemma In_get k v d : Dict.wf d -> In (k, v) d -> Dict.get k d = Some v.
Proof.
  unfold Dict.wf; induction d as [|[k1 v1] d IH]; simpl; [tauto|].
  intros Hnd [[= -> ->]|Hin].
  - rewrite keqb_refl; reflexivity.
  - inversion Hnd as [|? ? Hnotin Hnd']; subst.
    destruct (keqb k k1) eqn:E; auto.
    apply keqb_eq in E; subst. exfalso; apply Hnotin.
    change k1 with (fst (k1, v)); apply in_map; exact Hin.
Qed.

Lemma In_set k k0 v v0 d :
  In (k, v) (Dict.set k0 v0 d) -> (k = k0 /\ v = v0) \/ In (k, v) d.
Proof.
  induction d as [|[k1 v1] d IH]; simpl.
  - intros [[= <- <-]|[]]; auto.
  - destruct (keqb k0 k1) eqn:E.
    + apply keqb_eq in E; subst k1.
      intros [[= <- <-]|Hin]; auto.
    + intros [Heq|Hin]; [auto|]. destruct (IH Hin); auto.
Qed.

End DictFacts.

(** ** Account lockout ([auth.py]) *)

Section AuthFacts.
Variable verify_password : string -> string -> bool.

Lemma authenticate_unknown (u p : string) (w : World) :
  Dict.get u (accounts w) = None ->
  authenticate verify_password u p w = (inl InvalidCredentials, w).
Proof.
  intros Hg. unfold authenticate, bind, get_world; simpl.
  rewrite Hg; reflexivity.
Qed.

Lemma authenticate_locked (u p : string) (a : Account.t) (w : World) :
  Dict.get u (accounts w) = Some a ->
  is_locked a w = true ->
  authenticate verify_password u p w
  = (inl AccountLocked, set_ticks (S (ticks w)) w).
Proof.
  intros Hg Hl. unfold authenticate, bind, get_world; simpl. rewrite Hg.
  unfold is_locked in Hl. destruct (Account.locked_until a); [|discriminate].
  unfold _now, ret, bind; simpl. rewrite Hl. reflexivity.
Qed.

Lemma authenticate_wrong (u p : string) (a : Account.t) (w : World) :
  Dict.get u (accounts w) = Some a ->
  is_locked a w = false ->
  verify_password p (Account.password_hash a) = false ->
  let w' := after (authenticate verify_password u p) w in
  let w0 := past_lock_check a w in
  outcome (authenticate verify_password u p) w = inl InvalidCredentials
  /\ clock w' = clock w
  /\ exists a',
       Dict.get u (accounts w') = Some a'
       /\ Account.failed_attempts a' = Account.failed_attempts a + 1
       /\ Account.password_hash a' = Account.password_hash a
       /\ (Account.failed_attempts a + 1 < 5 ->
           Account.locked_until a' = Account.locked_until a
           /\ ticks w' = ticks w0)
       /\ (5 <= Account.failed_attempts a + 1 ->
           Account.locked_until a'
           = Some (clock w (ticks w0) + timedelta_minutes 15)
           /\ ticks w' = S (ticks w0)).
Proof.
  intros Hg Hl Hv.
  assert (Hpre : exists w0,
             w0 = past_lock_check a w
             /\ accounts w0 = accounts w /\ clock w0 = clock w
             /\ after (authenticate verify_password u p) w
                = after
                    (update_account u
                       (Account.set_failed_attempts
                          (Account.failed_attempts a + 1)) ;;
                     (if LOCKOUT_THRESHOLD <=? Account.failed_attempts a + 1
                      then
                        now <- _now ;;
                        update_account u
                          (Account.set_locked_until
                             (Some (now + timedelta_minutes LOCKOUT_MINUTES)))
                      else ret tt) ;;
                     raise (A := LoginResult.t) InvalidCredentials) w0
             /\ outcome (authenticate verify_password u p) w
                = outcome
                    (update_account u
                       (Account.set_failed_attempts
                          (Account.failed_attempts a + 1)) ;;
                     (if LOCKOUT_THRESHOLD <=? Account.failed_attempts a + 1
                      then
                        now <- _now ;;
                        update_account u
                          (Account.set_locked_until
                             (Some (now + timedelta_minutes LOCKOUT_MINUTES)))
                      else ret tt) ;;
                     raise (A := LoginResult.t) InvalidCredentials) w0).
  { exists (past_lock_check a w). split; [reflexivity|].
    unfold past_lock_check, is_locked in *.
    unfold outcome, after, authenticate.
    cbv beta iota zeta delta [bind get_world ret _now fst snd].
    rewrite Hg; cbv beta iota.
    destruct (Account.locked_until a) as [until|];
      rewrite ?Hl, Hv; cbv beta iota delta [negb];
      repeat split; reflexivity. }
  destruct Hpre as (w0 & -> & Ha0 & Hc0 & -> & ->).
  set (w0 := past_lock_check a w) in *.
  assert (Hg0 : Dict.get u (accounts w0) = Some a) by (rewrite Ha0; exact Hg).
  unfold outcome, after, LOCKOUT_THRESHOLD, LOCKOUT_MINUTES.
  destruct (5 <=? Account.failed_attempts a + 1) eqn:E;
    cbv beta iota zeta delta [bind ret raise modify _now update_account fst snd];
    rewrite Hg0; simpl; rewrite ?get_set_same; simpl.
  - split; [reflexivity|]. split; [exact Hc0|].
    eexists; split; [first [apply get_set_same | reflexivity]|]; simpl.
    apply Z.leb_le in E. rewrite Hc0. repeat split; try reflexivity; lia.
  - split; [reflexivity|]. split; [exact Hc0|].
    eexists; split; [first [apply get_set_same | reflexivity]|]; simpl.
    apply Z.leb_gt in E. repeat split; auto; lia.
Qed.

Lemma authenticate_right (u p : string) (a : Account.t) (w : World) :
  Dict.get u (accounts w) = Some a ->
  is_locked a w = false ->
  verify_password p (Account.password_hash a) = true ->
  let w' := after (authenticate verify_password u p) w in
  (exists token,
     outcome (authenticate verify_password u p) w
     = inr (LoginResult.mk token (Account.role a)
              (Account.force_password_change a))
     /\ Dict.get token (_tokens w') = Some (Account.username a))
  /\ exists a',
       Dict.get u (accounts w') = Some a'
       /\ Account.failed_attempts a' = 0
       /\ Account.locked_until a' = None
       /\ Account.password_hash a' = Account.password_hash a.
Proof.
  intros Hg Hl Hv.
  unfold outcome, after, authenticate, is_locked in *.
  cbv beta iota zeta delta
    [bind get_world ret _now modify update_account generate_random_password
     urandom fst snd].
  rewrite Hg; cbv beta iota.
  destruct (Account.locked_until a) as [until|];
    rewrite ?Hl, Hv; cbv beta iota delta [negb];
    simpl; rewrite Hg; simpl; rewrite get_set_same; simpl;
    (split;
     [ eexists; split; [reflexivity | apply get_set_same]
     | eexists; split; [apply get_set_same | simpl; auto] ]).
Qed.

(** After [n < 5] wrong passwords on a fresh account the counter is [n],
    the account is not locked, and the clock was not read. *)
Lemma attempts_below_threshold (u : string) (a : Account.t) (w : World)
    (ps : list string) :
  Dict.get u (accounts w) = Some a ->
  Account.failed_attempts a = 0 ->
  Account.locked_until a = None ->
  Forall (fun p => verify_password p (Account.password_hash a) = false) ps ->
  (Z.of_nat (List.length ps) < 5) ->
  let w' := attempts verify_password u ps w in
  clock w' = clock w /\ ticks w' = ticks w
  /\ exists a',
       Dict.get u (accounts w') = Some a'
       /\ Account.failed_attempts a' = Z.of_nat (List.length ps)
       /\ Account.locked_until a' = None
       /\ Account.password_hash a' = Account.password_hash a.
Proof.
  intros Hg Hf Hl. induction ps as [|p ps IH] using rev_ind; intros Hall Hlen.
  - simpl. repeat split; auto. exists a; rewrite Hf; auto.
  - apply Forall_app in Hall as [Hall Hp]. inversion Hp as [|? ? Hv _]; subst.
    rewrite length_app in Hlen; simpl in Hlen.
    destruct (IH Hall ltac:(lia)) as (Hc & Ht & a' & Hg' & Hf' & Hl' & Hh').
    unfold attempts in *. rewrite fold_left_app; simpl.
    set (wn := fold_left _ ps w) in *.
    rewrite <- Hh' in Hv.
    destruct (authenticate_wrong u p a' wn Hg') as (_ & Hc2 & a2 & Hg2 & Hf2 & Hh2 & Hlt & _);
      [unfold is_locked; rewrite Hl'; reflexivity | exact Hv |].
    destruct Hlt as [Hl2 Ht2]; [rewrite Hf'; lia|].
    unfold past_lock_check in Ht2; rewrite Hl' in Ht2.
    repeat split; try congruence.
    exists a2; repeat split; try congruence.
    rewrite Hf2, Hf', length_app; simpl; lia.
Qed.

End AuthFacts.

Lemma firstn_snoc {A : Type} (l : list A) (n : nat) (d : A) :
  (n < List.length l)%nat ->
  firstn (S n) l = (firstn n l ++ [nth n l d])%list.
Proof.
  revert n; induction l as [|x l IH]; intros n Hn; [simpl in Hn; lia|].
  destruct n as [|n]; [reflexivity|].
  simpl in Hn. change (firstn (S (S n)) (x :: l)) with (x :: firstn (S n) l).
  rewrite (IH n) by lia. reflexivity.
Qed.

(** C3.  On an account with no failure recorded and no lock, five
    consecutive [authenticate] calls with wrong passwords each fail with
    [InvalidCredentials] and each add one to [failed_attempts]; the fifth
    sets [locked_until] to its reading of the clock plus 15 minutes; a sixth
    call made while that time is in the future fails with [AccountLocked]
    whatever password it carries, the right one included, because the lock
    is checked before the password.  A call that verifies on an account that
    is not locked returns a result, resets [failed_attempts] to 0 and clears
    [locked_until]. *)
Theorem lockout_after_five_failures
    (verify_password : string -> string -> bool)
    (u : string) (a : Account.t) (w : World) (ps : list string) :
  Dict.get u (accounts w) = Some a ->
  Account.failed_attempts a = 0 ->
  Account.locked_until a = None ->
  List.length ps = 5%nat ->
  Forall (fun p => verify_password p (Account.password_hash a) = false) ps ->
  let w5 := attempts verify_password u ps w in
  let until := clock w (ticks w) + timedelta_minutes LOCKOUT_MINUTES in
  (forall n : nat, (n < 5)%nat ->
     let wn := attempts verify_password u (firstn n ps) w in
     let wn' := attempts verify_password u (firstn (S n) ps) w in
     outcome (authenticate verify_password u (nth n ps "")) wn
     = inl InvalidCredentials
     /\ exists an an',
          Dict.get u (accounts wn) = Some an
          /\ Dict.get u (accounts wn') = Some an'
          /\ Account.failed_attempts an = Z.of_nat n
          /\ Account.failed_attempts an' = Z.of_nat n + 1)
  /\ (exists a5,
        Dict.get u (accounts w5) = Some a5
        /\ Account.failed_attempts a5 = 5
        /\ Account.locked_until a5 = Some until)
  /\ (forall p6 : string,
        clock w5 (ticks w5) < until ->
        outcome (authenticate verify_password u p6) w5 = inl AccountLocked)
  /\ (forall (w0 : World) (u0 p0 : string) (a0 : Account.t),
        Dict.get u0 (accounts w0) = Some a0 ->
        is_locked a0 w0 = false ->
        verify_password p0 (Account.password_hash a0) = true ->
        (exists r, outcome (authenticate verify_password u0 p0) w0 = inr r)
        /\ exists a',
             Dict.get u0 (accounts (after (authenticate verify_password u0 p0) w0))
             = Some a'
             /\ Account.failed_attempts a' = 0
             /\ Account.locked_until a' = None).
Proof.
  intros Hg Hf Hl Hlen Hall w5 until.
  assert (Hstep : forall n : nat, (n < 5)%nat ->
            let wn := attempts verify_password u (firstn n ps) w in
            let wn' := attempts verify_password u (firstn (S n) ps) w in
            wn' = after (authenticate verify_password u (nth n ps "")) wn
            /\ clock wn = clock w /\ ticks wn = ticks w
            /\ verify_password (nth n ps "") (Account.password_hash a) = false
            /\ exists an,
                 Dict.get u (accounts wn) = Some an
                 /\ Account.failed_attempts an = Z.of_nat n
                 /\ Account.locked_until an = None
                 /\ Account.password_hash an = Account.password_hash a).
  { intros n Hn wn wn'.
    split.
    { unfold wn', wn, attempts.
      rewrite (firstn_snoc ps n "") by lia.
      rewrite fold_left_app; reflexivity. }
    destruct (attempts_below_threshold verify_password u a w (firstn n ps)
                Hg Hf Hl) as (Hc & Ht & an & Hgn & Hfn & Hln & Hhn).
    { apply Forall_forall; intros p Hp.
      rewrite Forall_forall in Hall. apply Hall.
      rewrite <- (firstn_skipn n ps). apply in_or_app; left; exact Hp. }
    { rewrite length_firstn; lia. }
    split; [exact Hc|]. split; [exact Ht|].
    split.
    { rewrite Forall_forall in Hall. apply Hall. apply nth_In; lia. }
    exists an. rewrite Hfn, length_firstn.
    repeat split; auto. f_equal; lia. }
  split; [|split; [|split]].
  - intros n Hn wn wn'.
    destruct (Hstep n Hn) as (Hw' & Hc & Ht & Hv & an & Hgn & Hfn & Hln & Hhn).
    fold wn in Hw', Hgn, Hc, Ht. fold wn' in Hw'.
    rewrite <- Hhn in Hv.
    destruct (authenticate_wrong verify_password u (nth n ps "") an wn Hgn) as
      (Ho & _ & an' & Hg' & Hf' & _);
      [unfold is_locked; rewrite Hln; reflexivity | exact Hv |].
    split; [exact Ho|].
    exists an, an'. rewrite Hw'. repeat split; auto. rewrite Hf', Hfn; reflexivity.
  - destruct (Hstep 4%nat ltac:(lia)) as
      (Hw' & Hc & Ht & Hv & an & Hgn & Hfn & Hln & Hhn).
    assert (Hw5 : w5 = attempts verify_password u (firstn 5 ps) w).
    { unfold w5. rewrite firstn_all2 by lia. reflexivity. }
    rewrite <- Hhn in Hv.
    destruct (authenticate_wrong verify_password u (nth 4 ps "") an _ Hgn) as
      (_ & _ & an' & Hg' & Hf' & _ & _ & Hlock);
      [unfold is_locked; rewrite Hln; reflexivity | exact Hv |].
    destruct Hlock as [Hl5 _]; [rewrite Hfn; simpl; lia|].
    exists an'. rewrite Hw5, Hw'. split; [exact Hg'|].
    split; [rewrite Hf', Hfn; reflexivity|].
    rewrite Hl5. unfold past_lock_check; rewrite Hln, Hc, Ht. reflexivity.
  - intros p6 Hlt.
    destruct (Hstep 4%nat ltac:(lia)) as
      (Hw' & Hc & Ht & Hv & an & Hgn & Hfn & Hln & Hhn).
    assert (Hw5 : w5 = attempts verify_password u (firstn 5 ps) w).
    { unfold w5. rewrite firstn_all2 by lia. reflexivity. }
    rewrite <- Hhn in Hv.
    destruct (authenticate_wrong verify_password u (nth 4 ps "") an _ Hgn) as
      (_ & _ & an' & Hg' & Hf' & _ & _ & Hlock);
      [unfold is_locked; rewrite Hln; reflexivity | exact Hv |].
    destruct Hlock as [Hl5 _]; [rewrite Hfn; simpl; lia|].
    rewrite <- Hw', <- Hw5 in Hg'.
    unfold outcome.
    rewrite (authenticate_locked verify_password u p6 an' w5 Hg'); [reflexivity|].
    unfold is_locked. rewrite Hl5.
    unfold past_lock_check; rewrite Hln, Hc, Ht.
    apply Z.ltb_lt. exact Hlt.
  - intros w0 u0 p0 a0 Hg0 Hl0 Hv0.
    destruct (authenticate_right verify_password u0 p0 a0 w0 Hg0 Hl0 Hv0) as
      ((token & Ho & _) & a' & Hg' & Hf' & Hl' & _).
    split; [eexists; exact Ho|].
    exists a'; auto.
Qed.

Lemma lockout_after_five_failures_witness :
  outcome (authenticate demo_verify "s_s003" "Pass@123")
    (attempts demo_verify "s_s003"
       ["wrong"; "wrong"; "wrong"; "wrong"; "wrong"] demo_world)
  = inl AccountLocked.
Proof.
  destruct (lockout_after_five_failures demo_verify "s_s003"
              (Account.mk "s_s003" STUDENT (Some "S003") "pw:Pass@123" None 0
                 true)
              demo_world ["wrong"; "wrong"; "wrong"; "wrong"; "wrong"])
    as (_ & _ & H & _).
  - reflexivity.
  - reflexivity.
  - reflexivity.
  - reflexivity.
  - repeat constructor.
  - apply H. vm_compute. reflexivity.
Defined.

(** C9.  An [authenticate] call for a user name that is not in the store
    and a call for a known account that is not locked, with a password
    that does not verify, raise the same error: the same kind and the same
    message, [InvalidCredentials] with the one generic text. *)
Theorem credential_errors_indistinguishable
    (verify_password : string -> string -> bool)
    (w1 w2 : World) (u1 p1 u2 p2 : string) (a : Account.t) :
  Dict.get u1 (accounts w1) = None ->
  Dict.get u2 (accounts w2) = Some a ->
  is_locked a w2 = false ->
  verify_password p2 (Account.password_hash a) = false ->
  outcome (authenticate verify_password u1 p1) w1
  = outcome (authenticate verify_password u2 p2) w2
  /\ outcome (authenticate verify_password u1 p1) w1
     = inl (AppError 401 "账号或密码错误").
Proof.
  intros Hn Hg Hl Hv.
  destruct (authenticate_wrong verify_password u2 p2 a w2 Hg Hl Hv) as [Ho _].
  unfold outcome in *.
  rewrite (authenticate_unknown verify_password u1 p1 w1 Hn), Ho.
  split; reflexivity.
Qed.

Lemma credential_errors_indistinguishable_witness :
  outcome (authenticate demo_verify "nobody" "Pass@123") demo_world
  = outcome (authenticate demo_verify "s_s001" "guess") demo_world.
Proof.
  apply (credential_errors_indistinguishable demo_verify demo_world demo_world
           "nobody" "Pass@123" "s_s001" "guess"
           (Account.mk "s_s001" STUDENT (Some "S001") "pw:Pass@123" None 0
              true));
    reflexivity.
Defined.

(** ** What an operation leaves in place *)

Section Preservation.
Variable R : World -> World -> Prop.
Hypothesis R_refl : forall w, R w w.
Hypothesis R_trans : forall w1 w2 w3, R w1 w2 -> R w2 w3 -> R w1 w3.

Lemma preserves_ret {A : Type} (a : A) : preserves R (ret a).
Proof. intros w; apply R_refl. Qed.

Lemma preserves_raise {A : Type} (e : exn) : preserves R (raise (A := A) e).
Proof. intros w; apply R_refl. Qed.

Lemma preserves_get_world : preserves R get_world.
Proof. intros w; apply R_refl. Qed.

Lemma preserves_bind {A B : Type} (m : M A) (k : A -> M B) :
  preserves R m -> (forall a, preserves R (k a)) -> preserves R (bind m k).
Proof.
  intros Hm Hk w. unfold after, bind.
  specialize (Hm w); unfold after in Hm.
  destruct (m w) as [[e|a] w1]; simpl in *; [exact Hm|].
  eapply R_trans; [exact Hm|]. apply (Hk a w1).
Qed.

Lemma preserves_modify (f : World -> World) :
  (forall w, R w (f w)) -> preserves R (modify f).
Proof. intros Hf w; apply Hf. Qed.

Lemma preserves_index {K V : Type} `{KeyEq K} (k : K) (d : dict K V) :
  preserves R (index k d).
Proof.
  unfold index; destruct (Dict.get k d);
    [apply preserves_ret | apply preserves_raise].
Qed.

Lemma preserves_filterM {A : Type} (p : A -> M bool) (l : list A) :
  (forall a, preserves R (p a)) -> preserves R (filterM p l).
Proof.
  intros Hp; induction l as [|a l IH]; simpl.
  - apply preserves_ret.
  - apply preserves_bind; [apply Hp|]. intros keep.
    apply preserves_bind; [exact IH|]. intros rest. apply preserves_ret.
Qed.

Lemma preserves_mapM {A B : Type} (f : A -> M B) (l : list A) :
  (forall a, preserves R (f a)) -> preserves R (mapM f l).
Proof.
  intros Hf; induction l as [|a l IH]; simpl.
  - apply preserves_ret.
  - apply preserves_bind; [apply Hf|]. intros b.
    apply preserves_bind; [exact IH|]. intros rest. apply preserves_ret.
Qed.

Lemma preserves_try {A : Type} (m : M A) :
  preserves R m -> preserves R (try_AppError m).
Proof.
  intros Hm w. specialize (Hm w). unfold after, try_AppError in *.
  destruct (m w) as [[[c d| |]|a] w1]; simpl in *; exact Hm.
Qed.

End Preservation.

(** ** The ledger and the students across the operations *)

Lemma ledger_le_refl (d : dict key3 Grade.t) : ledger_le d d.
Proof.
  split; [exists []; rewrite app_nil_r; reflexivity|].
  split; [auto|]. split; [auto|]. intros k g Hg; exists g; auto.
Qed.

Lemma ledger_le_trans (d1 d2 d3 : dict key3 Grade.t) :
  ledger_le d1 d2 -> ledger_le d2 d3 -> ledger_le d1 d3.
Proof.
  intros ([e1 Hk1] & Hw1 & Hy1 & Hg1) ([e2 Hk2] & Hw2 & Hy2 & Hg2).
  split; [exists (e1 ++ e2)%list; rewrite Hk2, Hk1, app_assoc; reflexivity|].
  split; [auto|]. split; [auto|]. intros k g Hg.
  destruct (Hg1 k g Hg) as (g' & Hg' & Hc' & Hp').
  destruct (Hg2 k g' Hg') as (g'' & Hg'' & Hc'' & Hp'').
  exists g''; repeat split; auto; congruence.
Qed.

Lemma students_le_refl (d : dict string Student.t) : students_le d d.
Proof. split; [auto|]. intros k; destruct (Dict.get k d); auto. Qed.

Lemma students_le_trans (d1 d2 d3 : dict string Student.t) :
  students_le d1 d2 -> students_le d2 d3 -> students_le d1 d3.
Proof.
  intros [Hk12 H12] [Hk23 H23]. split; [auto|].
  intros k. specialize (H12 k); specialize (H23 k).
  destruct (Dict.get k d1) as [s1|], (Dict.get k d2) as [s2|],
    (Dict.get k d3) as [s3|]; try tauto.
  destruct H12 as [->| ->], H23 as [->| ->]; auto.
Qed.

Lemma stable_refl (w : World) : stable w w.
Proof. split; [reflexivity|]. split; [lia | apply ledger_le_refl]. Qed.

Lemma stable_trans (w1 w2 w3 : World) :
  stable w1 w2 -> stable w2 w3 -> stable w1 w3.
Proof.
  intros (Hc1 & Ht1 & Hl1) (Hc2 & Ht2 & Hl2).
  split; [congruence|]. split; [lia | eapply ledger_le_trans; eauto].
Qed.

Lemma quiet_refl (w : World) : quiet w w.
Proof. split; [apply stable_refl | apply students_le_refl]. Qed.

Lemma quiet_trans (w1 w2 w3 : World) :
  quiet w1 w2 -> quiet w2 w3 -> quiet w1 w3.
Proof.
  intros [Hs1 Hd1] [Hs2 Hd2].
  split; [eapply stable_trans | eapply students_le_trans]; eauto.
Qed.

(** An update that touches neither the ledger nor the students, and leaves
    the clock alone or advances its counter. *)
Lemma quiet_frame (w w' : World) :
  clock w' = clock w -> (ticks w <= ticks w')%nat ->
  grades w' = grades w -> students w' = students w ->
  quiet w w'.
Proof.
  intros Hc Ht Hg Hs. split; [split; [|split]; auto|].
  - rewrite Hg; apply ledger_le_refl.
  - rewrite Hs; apply students_le_refl.
Qed.

Lemma students_keyed_set (key : string) (s s' : Student.t)
    (d : dict string Student.t) :
  Dict.get key d = Some s ->
  Student.student_no s' = Student.student_no s ->
  students_keyed d -> students_keyed (Dict.set key s' d).
Proof.
  intros Hg Hno [Hwf Hkey]. split.
  - unfold Dict.wf. rewrite (keys_set_present _ _ _ _ Hg). exact Hwf.
  - intros k s0 Hin. apply In_set in Hin as [[-> ->]|Hin]; [|auto].
    rewrite Hno. apply Hkey. apply get_In; exact Hg.
Qed.

Lemma students_le_clear (key : string) (s : Student.t)
    (d : dict string Student.t) :
  Dict.get key d = Some s ->
  students_le d
    (Dict.set key (Student.set_has_unread_published_grades false s) d).
Proof.
  intros Hg. split; [apply (students_keyed_set key s); auto|].
  intros k. destruct (String.eqb_spec k key) as [->|Hne].
  - rewrite Hg, get_set_same; auto.
  - rewrite get_set_other by exact Hne. destruct (Dict.get k d); auto.
Qed.

Lemma preserves_now : preserves quiet _now.
Proof. intros w; apply quiet_frame; simpl; auto. Qed.

Lemma preserves_urandom (n : nat) : preserves quiet (urandom n).
Proof. intros w; apply quiet_frame; simpl; auto. Qed.

Create HintDb quiet.

(** Decomposition of an operation into the updates of the world that it
    performs. *)
Ltac quiet_leaf :=
  intros;
  repeat match goal with
         | |- context [match ?x with _ => _ end] => destruct x eqn:?
         end;
  first
    [ apply quiet_refl
    | apply quiet_frame; simpl; auto; fail
    | split; [split; [|split]; simpl; auto using ledger_le_refl|];
      simpl; apply students_le_clear; assumption ].

Ltac quiet_step :=
  lazymatch goal with
  | |- preserves quiet (bind _ _) =>
      apply (preserves_bind quiet quiet_trans); [|intro]
  | |- preserves quiet (ret _) => apply (preserves_ret quiet quiet_refl)
  | |- preserves quiet (raise _) => apply (preserves_raise quiet quiet_refl)
  | |- preserves quiet get_world =>
      apply (preserves_get_world quiet quiet_refl)
  | |- preserves quiet (index _ _) => apply (preserves_index quiet quiet_refl)
  | |- preserves quiet _now => apply preserves_now
  | |- preserves quiet (urandom _) => apply preserves_urandom
  | |- preserves quiet (filterM _ _) =>
      apply (preserves_filterM quiet quiet_refl quiet_trans); intro
  | |- preserves quiet (mapM _ _) =>
      apply (preserves_mapM quiet quiet_refl quiet_trans); intro
  | |- preserves quiet (try_AppError _) => apply (preserves_try quiet)
  | |- preserves quiet (modify _) =>
      apply (preserves_modify quiet); quiet_leaf
  | |- preserves quiet (match ?x with _ => _ end) => destruct x
  | |- preserves quiet (let _ := _ in _) => cbv zeta
  | |- preserves quiet _ => first [assumption | solve [auto with quiet]]
  end.

Ltac quiet_auto :=
  unfold generate_random_password, hash_password, update_account, _record_log,
    _require_exam, _require_subject, _require_student, _teacher_for_account;
  repeat quiet_step.

Section QuietOperations.
Variable verify_password : string -> string -> bool.
Variable hash_password_salted : string -> string -> string.

Lemma quiet_authenticate (u p : string) :
  preserves quiet (authenticate verify_password u p).
Proof. unfold authenticate; quiet_auto. Qed.

Lemma quiet_get_account (t : string) : preserves quiet (get_account t).
Proof. unfold get_account; quiet_auto. Qed.

Lemma quiet_require_role (t : string) (r : Role) :
  preserves quiet (require_role t r).
Proof. unfold require_role, get_account; quiet_auto. Qed.

Lemma quiet_require_teacher_or_principal (t : string) :
  preserves quiet (require_teacher_or_principal t).
Proof. unfold require_teacher_or_principal, get_account; quiet_auto. Qed.

Lemma quiet_change_password (a o n : string) :
  preserves quiet (change_password verify_password hash_password_salted a o n).
Proof. unfold change_password; quiet_auto. Qed.

Lemma quiet_reset_password (u : string) :
  preserves quiet (reset_password hash_password_salted u).
Proof. unfold reset_password; quiet_auto. Qed.

Lemma quiet_logout (t : string) : preserves quiet (logout t).
Proof. unfold logout; quiet_auto. Qed.

End QuietOperations.

Lemma quiet_student_views (student : Student.t) (gs : list Grade.t) :
  preserves quiet (student_views student gs).
Proof. induction gs as [|g gs IH]; simpl; quiet_auto. Qed.

#[local] Hint Resolve quiet_student_views : quiet.

Lemma quiet_list_student_grades (account : Account.t)
    (term exam_id : option string) :
  preserves quiet (list_student_grades account term exam_id).
Proof. unfold list_student_grades; quiet_auto. Qed.

Lemma quiet_visible_grades_for_teacher (account : Account.t) :
  preserves quiet (_visible_grades_for_teacher account).
Proof. unfold _visible_grades_for_teacher; quiet_auto. Qed.

Lemma quiet_teacher_filter (e c : option string) (gs : list Grade.t) :
  preserves quiet (teacher_filter e c gs).
Proof. unfold teacher_filter; quiet_auto. Qed.

#[local] Hint Resolve quiet_visible_grades_for_teacher quiet_teacher_filter
  : quiet.

Lemma quiet_teacher_export_grades (account : Account.t)
    (e c : option string) :
  preserves quiet (teacher_export_grades account e c).
Proof. unfold teacher_export_grades; quiet_auto. Qed.

Lemma quiet_teacher_list_grades (account : Account.t)
    (e c : option string) (sort_by : string) :
  preserves quiet (teacher_list_grades account e c sort_by).
Proof. unfold teacher_list_grades, teacher_view; quiet_auto. Qed.

Lemma quiet_principal_overview (e : option string) :
  preserves quiet (principal_overview e).
Proof. unfold principal_overview; quiet_auto. Qed.

Lemma quiet_principal_export_grades (e c s : option string) :
  preserves quiet (principal_export_grades e c s).
Proof. unfold principal_export_grades; quiet_auto. Qed.

Lemma quiet_list_audit_logs (account : Account.t) :
  preserves quiet (list_audit_logs account).
Proof. unfold list_audit_logs; quiet_auto. Qed.

Lemma quiet_mark_password_reset (actor username : string) :
  preserves quiet (mark_password_reset actor username).
Proof. unfold mark_password_reset; quiet_auto. Qed.

(** ** The grade upsert ([teacher_update_grade]) *)

Lemma teacher_for_account_run (account : Account.t) (w : World) :
  _teacher_for_account account w
  = if negb (Role_eqb (Account.role account) TEACHER)
    then (inl (AppError 403 "权限不足"), w)
    else
      match Dict.get (Py.or_else (Account.bind_id account) "") (teachers w) with
      | None => (inl (AppError 403 "教师未绑定"), w)
      | Some teacher =>
          (inr (Teacher.teacher_id teacher, Teacher.subjects teacher,
                Teacher.classes teacher), w)
      end.
Proof.
  unfold _teacher_for_account.
  destruct (negb (Role_eqb (Account.role account) TEACHER)); [reflexivity|].
  unfold bind, get_world; simpl.
  destruct (Dict.get _ (teachers w)); reflexivity.
Qed.

Lemma teacher_update_grade_run (account : Account.t)
    (exam_id subject_code student_no : string) (score : Q) (w : World) :
  teacher_update_grade account exam_id subject_code student_no score w
  = if negb (Role_eqb (Account.role account) TEACHER)
    then (inl (AppError 403 "权限不足"), w)
    else
      match Dict.get (Py.or_else (Account.bind_id account) "") (teachers w) with
      | None => (inl (AppError 403 "教师未绑定"), w)
      | Some teacher =>
          match Dict.get exam_id (exams w) with
          | None => (inl (AppError 404 "考试不存在"), w)
          | Some _ =>
              match Dict.get subject_code (subjects w) with
              | None => (inl (AppError 404 "科目不存在"), w)
              | Some _ =>
                  match Dict.get student_no (students w) with
                  | None => (inl (AppError 404 "学生不存在"), w)
                  | Some student =>
                      if negb (Py.str_in subject_code
                                 (Teacher.subjects teacher))
                      then (inl (AppError 403 "无权操作该科目"), w)
                      else if negb (Py.str_in (Student.class_name student)
                                      (Teacher.classes teacher))
                      then (inl (AppError 403 "无权操作该班级"), w)
                      else if Py.Qltb score (0 # 1) || Py.Qltb (100 # 1) score
                      then (inl (AppError 400 "分数范围错误"), w)
                      else
                        let key := _grade_key exam_id subject_code student_no in
                        let timestamp := clock w (ticks w) in
                        let grade := upserted teacher exam_id subject_code
                                       student_no score timestamp
                                       (Dict.get key (grades w)) in
                        (inr grade,
                         set_audit_logs
                           (audit_logs w
                            ++ [upsert_log teacher exam_id subject_code
                                  student_no (clock w (S (ticks w)))
                                  (Dict.get key (grades w)) grade])
                           (set_ticks (S (S (ticks w)))
                              (set_grades (Dict.set key grade (grades w)) w)))
                  end
              end
          end
      end.
Proof.
  unfold teacher_update_grade.
  unfold bind at 1. rewrite teacher_for_account_run.
  destruct (negb (Role_eqb (Account.role account) TEACHER)); [reflexivity|].
  destruct (Dict.get _ (teachers w)) as [teacher|]; [|reflexivity].
  cbv beta iota zeta delta
    [bind ret raise get_world modify _now index _require_exam
     _require_subject _require_student _record_log Dict.mem].
  destruct (Dict.get exam_id (exams w)); [|reflexivity].
  destruct (Dict.get subject_code (subjects w)); [|reflexivity].
  cbv beta iota delta [negb].
  destruct (Dict.get student_no (students w)) as [student|] eqn:Hs;
    [|reflexivity].
  cbv beta iota delta [negb].
  destruct (Py.str_in subject_code (Teacher.subjects teacher)); [|reflexivity].
  cbv beta iota. rewrite Hs. cbv beta iota.
  destruct (Py.str_in (Student.class_name student) (Teacher.classes teacher));
    [|reflexivity].
  cbv beta iota.
  destruct (Py.Qltb score (0 # 1) || Py.Qltb (100 # 1) score); [reflexivity|].
  cbv beta iota. unfold upserted, upsert_log.
  change (grades (set_ticks (S (ticks w)) w)) with (grades w).
  destruct (Dict.get (_grade_key exam_id subject_code student_no) (grades w));
    reflexivity.
Qed.

(** ** Rounding *)











(** ** The principal overview and the aggregation *)

Lemma truthy_Some (exam_id : option string) :
  Py.truthy exam_id = true <-> exists e, exam_id = Some e /\ e <> "".
Proof.
  destruct exam_id as [e|]; simpl.
  - rewrite negb_true_iff. split.
    + intros He. exists e; split; [reflexivity|].
      intros ->. discriminate He.
    + intros (e' & [= <-] & Hne).
      destruct (String.eqb_spec e ""); [contradiction | reflexivity].
  - split; [discriminate | intros (e & [=] & _)].
Qed.

Lemma or_else_truthy (e : string) : e <> "" -> Py.or_else (Some e) "" = e.
Proof.
  intros Hne; simpl. destruct (String.eqb_spec e ""); [contradiction|reflexivity].
Qed.

(** C10, as stated, fails: the empty string is an argument that is not
    [None] and is not a key of the exam store, and the overview treats it as
    no filter and returns. *)
Lemma principal_overview_empty_id_counterexample :
  ~ (forall (exam_id : string) (w : World),
       Dict.get exam_id (exams w) = None ->
       outcome (principal_overview (Some exam_id)) w = inl KeyError).
Proof.
  intros H. specialize (H "" demo_world eq_refl).
  vm_compute in H. discriminate H.
Qed.

(** C10, amended.  For every argument that is a non-empty string and is not
    a key of the exam store, the principal overview raises [KeyError], not
    the [AppError] by which the other operations signal NotFound; for every
    other argument ([None], the empty string, or the key of an exam) it
    returns a list; in both cases the world is left as it was. *)
Theorem principal_overview_key_error (exam_id : option string) (w : World) :
  (outcome (principal_overview exam_id) w = inl KeyError
   <-> exists e, exam_id = Some e /\ e <> "" /\ Dict.get e (exams w) = None)
  /\ (outcome (principal_overview exam_id) w <> inl KeyError ->
      exists entries, outcome (principal_overview exam_id) w = inr entries)
  /\ after (principal_overview exam_id) w = w.
Proof.
  unfold outcome, after, principal_overview.
  cbv beta iota zeta delta [bind get_world ret raise index fst snd].
  destruct (Py.truthy exam_id) eqn:Ht.
  - apply truthy_Some in Ht as (e & -> & Hne).
    rewrite (or_else_truthy e Hne).
    destruct (Dict.get e (exams w)) as [exam|] eqn:Hg; cbv beta iota.
    + split; [|split; [intros _; eexists; reflexivity | reflexivity]].
      split; [discriminate|].
      intros (e' & [= <-] & _ & Hn). congruence.
    + split; [|split; [intros Hn; exfalso; apply Hn; reflexivity | reflexivity]].
      split; [|reflexivity].
      intros _. exists e; auto.
  - cbv beta iota.
    split; [|split; [intros _; eexists; reflexivity | reflexivity]].
    split; [discriminate|].
    intros (e & -> & Hne & _).
    assert (Py.truthy (Some e) = true) by (apply truthy_Some; eauto).
    congruence.
Qed.

Lemma principal_overview_key_error_witness :
  outcome (principal_overview (Some "EX2099")) demo_world = inl KeyError.
Proof.
  apply (principal_overview_key_error (Some "EX2099") demo_world).
  exists "EX2099". split; [reflexivity|].
  split; [discriminate | vm_compute; reflexivity].
Defined.









(** ** Publishing ([publish_grades]) *)

Lemma world_eta (w : World) : set_students (students w) w = w.
Proof. destruct w; reflexivity. Qed.

Lemma get_mark_unread (sno k : string) (d : dict string Student.t) :
  Dict.get k (mark_unread sno d)
  = if String.eqb k sno
    then option_map (Student.set_has_unread_published_grades true)
           (Dict.get k d)
    else Dict.get k d.
Proof.
  unfold mark_unread. destruct (String.eqb_spec k sno) as [->|Hne].
  - destruct (Dict.get sno d) as [s|] eqn:E; simpl.
    + apply get_set_same.
    + exact E.
  - destruct (Dict.get sno d) as [s|]; [|reflexivity].
    apply get_set_other; exact Hne.
Qed.

Lemma class_name_mark_unread (sno k : string) (d : dict string Student.t) :
  option_map Student.class_name (Dict.get k (mark_unread sno d))
  = option_map Student.class_name (Dict.get k d).
Proof.
  rewrite get_mark_unread.
  destruct (String.eqb k sno); [|reflexivity].
  destruct (Dict.get k d); reflexivity.
Qed.

Lemma publish_matches_ext (w w' : World) (e s : string) (classes : list string)
    (g : Grade.t) :
  (forall k,
     option_map Student.class_name (Dict.get k (students w'))
     = option_map Student.class_name (Dict.get k (students w))) ->
  publish_matches w' e s classes g = publish_matches w e s classes g.
Proof.
  intros H. unfold publish_matches. f_equal.
  specialize (H (Grade.student_no g)).
  destruct (Dict.get _ (students w')), (Dict.get _ (students w));
    simpl in H; congruence.
Qed.

Lemma publish_loop_run (e s : string) (classes : list string)
    (m : Grade.t -> bool) (entries : dict key3 Grade.t) :
  forall (n : nat) (w : World),
    (forall g, publish_matches w e s classes g = m g) ->
    publish_loop e s classes entries n w
    = (inr (published_entries m entries,
            (n + List.length (filter m (Dict.values entries)))%nat),
       set_students (notified_students m entries (students w)) w).
Proof.
  unfold published_entries, notified_students.
  induction entries as [|[k g] entries IH]; intros n w Hm.
  - simpl. unfold ret. rewrite world_eta, Nat.add_0_r. reflexivity.
  - cbn [publish_loop]. unfold bind at 1, get_world.
    change (String.eqb (Grade.exam_id g) e
            && String.eqb (Grade.subject_code g) s
            && match Dict.get (Grade.student_no g) (students w) with
               | Some student => Py.str_in (Student.class_name student) classes
               | None => false
               end)
      with (publish_matches w e s classes g).
    rewrite Hm. cbn [Dict.values map filter fold_left fst snd].
    destruct (m g) eqn:Hg.
    + destruct (Grade.published g) eqn:Hp; cbn [negb andb].
      * unfold bind, ret. rewrite (IH (S n) w Hm).
        cbn [List.length]. rewrite Nat.add_succ_comm. reflexivity.
      * unfold bind, ret, modify.
        assert (Hw1 : match Dict.get (Grade.student_no g) (students w) with
                      | Some s0 =>
                          set_students
                            (Dict.set (Grade.student_no g)
                               (Student.set_has_unread_published_grades true s0)
                               (students w)) w
                      | None => w
                      end
                      = set_students
                          (mark_unread (Grade.student_no g) (students w)) w).
        { unfold mark_unread.
          destruct (Dict.get (Grade.student_no g) (students w));
            [reflexivity | symmetry; apply world_eta]. }
        rewrite Hw1.
        rewrite (IH (S n)
                   (set_students
                      (mark_unread (Grade.student_no g) (students w)) w)).
        -- cbn [List.length]. rewrite Nat.add_succ_comm.
           destruct w; reflexivity.
        -- intros g0. rewrite <- Hm. apply publish_matches_ext.
           intros k0. cbn [students set_students].
           apply class_name_mark_unread.
    + cbn [andb]. unfold bind, ret. rewrite (IH n w Hm). reflexivity.
Qed.

Lemma publish_grades_run (account : Account.t) (e s : string) (w : World) :
  publish_grades account e s w
  = if negb (Role_eqb (Account.role account) TEACHER)
    then (inl (AppError 403 "权限不足"), w)
    else
      match Dict.get (Py.or_else (Account.bind_id account) "") (teachers w) with
      | None => (inl (AppError 403 "教师未绑定"), w)
      | Some teacher =>
          if negb (Py.str_in s (Teacher.subjects teacher))
          then (inl (AppError 403 "无权发布该科目"), w)
          else
            match Dict.get e (exams w) with
            | None => (inl (AppError 404 "考试不存在"), w)
            | Some _ =>
                let classes := Teacher.classes teacher in
                let w1 := published_world w e s classes in
                let updated := publish_count w e s classes in
                if Nat.eqb updated 0
                then (inl NoMatchingRecords, w1)
                else
                  (inr updated,
                   set_audit_logs
                     (audit_logs w1
                      ++ [AuditLogEntry.mk (clock w (ticks w))
                            (Teacher.teacher_id teacher) GRADE_PUBLISHED
                            [ ("exam_id", DStr e);
                              ("subject_code", DStr s);
                              ("count", DInt updated) ]])
                     (set_ticks (S (ticks w)) w1))
            end
      end.
Proof.
  unfold publish_grades.
  unfold bind at 1. rewrite teacher_for_account_run.
  destruct (negb (Role_eqb (Account.role account) TEACHER)); [reflexivity|].
  destruct (Dict.get _ (teachers w)) as [teacher|]; [|reflexivity].
  cbv beta iota.
  destruct (negb (Py.str_in s (Teacher.subjects teacher))); [reflexivity|].
  unfold _require_exam.
  cbv beta iota zeta delta [bind get_world ret raise].
  destruct (Dict.get e (exams w)); [|reflexivity].
  cbv beta iota.
  rewrite (publish_loop_run e s (Teacher.classes teacher)
             (publish_matches w e s (Teacher.classes teacher)) (grades w) 0 w)
    by reflexivity.
  cbv beta iota. unfold modify, _record_log, bind, _now, publish_count,
    published_world.
  cbn [Nat.add].
  destruct (Nat.eqb _ 0); reflexivity.
Qed.

Lemma str_in_In (x : string) (xs : list string) :
  Py.str_in x xs = true <-> In x xs.
Proof.
  unfold Py.str_in. rewrite existsb_exists. split.
  - intros (y & Hin & Heq). apply String.eqb_eq in Heq; subst; exact Hin.
  - intros Hin. exists x; split; [exact Hin | apply String.eqb_refl].
Qed.

Lemma publish_matches_iff (w : World) (e s : string) (classes : list string)
    (g : Grade.t) :
  publish_matches w e s classes g = true <->
  Grade.exam_id g = e /\ Grade.subject_code g = s
  /\ exists student,
       Dict.get (Grade.student_no g) (students w) = Some student
       /\ In (Student.class_name student) classes.
Proof.
  unfold publish_matches. rewrite !andb_true_iff, !String.eqb_eq.
  destruct (Dict.get (Grade.student_no g) (students w)) as [st|].
  - rewrite str_in_In. split.
    + intros [[He Hs] Hc]. repeat split; auto. exists st; auto.
    + intros (He & Hs & st' & [= <-] & Hc). auto.
  - split; [intros [_ [=]] | intros (_ & _ & st' & [=] & _)].
Qed.

(** C4.  For a teacher actor scoped to the subject and an existing exam,
    publish returns the number of grades of the exam and the subject whose
    student is stored and of one of the teacher's classes, whether they
    were published before or not, and it fails with NoMatchingRecords
    exactly when that number is zero; so a call where every grade in scope
    was already published returns the positive count. *)
Theorem publish_returns_scope_count (account : Account.t) (e s : string)
    (w : World) (teacher : Teacher.t) :
  teacher_of account w = Some teacher ->
  Py.str_in s (Teacher.subjects teacher) = true ->
  Dict.get e (exams w) <> None ->
  let n := publish_count w e s (Teacher.classes teacher) in
  let r := outcome (publish_grades account e s) w in
  (forall g,
     publish_matches w e s (Teacher.classes teacher) g = true <->
     Grade.exam_id g = e /\ Grade.subject_code g = s
     /\ exists student,
          Dict.get (Grade.student_no g) (students w) = Some student
          /\ In (Student.class_name student) (Teacher.classes teacher))
  /\ (n <> 0%nat -> r = inr n)
  /\ (r = inl NoMatchingRecords <-> n = 0%nat)
  /\ ((forall g,
         In g (Dict.values (grades w)) ->
         publish_matches w e s (Teacher.classes teacher) g = true ->
         Grade.published g = true) ->
      n <> 0%nat -> r = inr n).
Proof.
  intros Ht Hs He n r.
  assert (Hr : r = if Nat.eqb n 0 then inl NoMatchingRecords else inr n).
  { subst r n. unfold outcome, teacher_of in *. rewrite publish_grades_run.
    destruct (Role_eqb (Account.role account) TEACHER); [|discriminate Ht].
    cbn [negb]. rewrite Ht, Hs. cbn [negb].
    destruct (Dict.get e (exams w)); [|congruence].
    cbv zeta. destruct (Nat.eqb _ 0); reflexivity. }
  split; [intros g; apply publish_matches_iff|].
  destruct (Nat.eqb_spec n 0) as [H0|Hn0]; rewrite Hr.
  - split; [congruence|]. split; [tauto | congruence].
  - split; [reflexivity|].
    split; [split; [discriminate | congruence] | reflexivity].
Qed.

Lemma publish_returns_scope_count_witness :
  outcome (publish_grades demo_teacher_account "EX2025M" "MTH") demo_world
  = inr 6%nat.
Proof.
  destruct (publish_returns_scope_count demo_teacher_account "EX2025M" "MTH"
              demo_world
              (Teacher.mk "T200" "刘老师" ["MTH"] ["Class 1"; "Class 2"])
              ltac:(vm_compute; reflexivity) ltac:(vm_compute; reflexivity)
              ltac:(vm_compute; discriminate))
    as (_ & H & _).
  etransitivity; [apply H | vm_compute; reflexivity].
  vm_compute. discriminate.
Defined.

(** ** Read-only computations and the student listing *)

Lemma unchanged_refl (w : World) : unchanged w w.
Proof. reflexivity. Qed.

Lemma unchanged_trans (w1 w2 w3 : World) :
  unchanged w1 w2 -> unchanged w2 w3 -> unchanged w1 w3.
Proof. unfold unchanged; congruence. Qed.

Ltac unchanged_step :=
  lazymatch goal with
  | |- preserves unchanged (bind _ _) =>
      apply (preserves_bind unchanged unchanged_trans); [|intro]
  | |- preserves unchanged (ret _) =>
      apply (preserves_ret unchanged unchanged_refl)
  | |- preserves unchanged (raise _) =>
      apply (preserves_raise unchanged unchanged_refl)
  | |- preserves unchanged get_world =>
      apply (preserves_get_world unchanged unchanged_refl)
  | |- preserves unchanged (index _ _) =>
      apply (preserves_index unchanged unchanged_refl)
  | |- preserves unchanged (filterM _ _) =>
      apply (preserves_filterM unchanged unchanged_refl unchanged_trans); intro
  | |- preserves unchanged (mapM _ _) =>
      apply (preserves_mapM unchanged unchanged_refl unchanged_trans); intro
  | |- preserves unchanged (match ?x with _ => _ end) => destruct x
  | |- preserves unchanged (let _ := _ in _) => cbv zeta
  | |- preserves unchanged _ => assumption
  end.

Lemma bind_inr {A B : Type} (m : M A) (k : A -> M B) (w : World) (b : B) :
  outcome (bind m k) w = inr b ->
  exists a,
    outcome m w = inr a
    /\ outcome (k a) (after m w) = inr b
    /\ after (bind m k) w = after (k a) (after m w).
Proof.
  unfold outcome, after, bind.
  destruct (m w) as [[e|a] w1]; simpl; [discriminate|].
  intros H; exists a; auto.
Qed.

Lemma filterM_sublist {A : Type} (p : A -> M bool) (l l' : list A) (w : World) :
  (forall a, preserves unchanged (p a)) ->
  outcome (filterM p l) w = inr l' ->
  forall x, In x l' -> In x l.
Proof.
  intros Hp. revert l'; induction l as [|a l IH]; intros l' H x Hx.
  - cbn in H. injection H as <-. exact Hx.
  - cbn [filterM] in H.
    apply bind_inr in H as (keep & _ & H & _). rewrite (Hp a w) in H.
    apply bind_inr in H as (rest & Hrest & H & _).
    cbn in H. injection H as <-.
    destruct keep.
    + destruct Hx as [<-|Hx]; [left; reflexivity|].
      right; eapply IH; eauto.
    + right; eapply IH; eauto.
Qed.

Lemma unchanged_student_views (student : Student.t) (gs : list Grade.t) :
  preserves unchanged (student_views student gs).
Proof. induction gs as [|g gs IH]; simpl; repeat unchanged_step. Qed.

Lemma student_views_source (student : Student.t) (gs : list Grade.t)
    (w : World) (views : list StudentGradeView.t) :
  outcome (student_views student gs) w = inr views ->
  forall v,
    In v views ->
    exists g,
      In g gs
      /\ StudentGradeView.exam_id v = Grade.exam_id g
      /\ StudentGradeView.subject_code v = Grade.subject_code g
      /\ StudentGradeView.score v = Grade.score g.
Proof.
  revert views; induction gs as [|g gs IH]; intros views H v Hv.
  - cbn in H. injection H as <-. destruct Hv.
  - cbn [student_views] in H.
    apply bind_inr in H as (w0 & _ & H & _). cbn [after get_world snd] in H.
    destruct (Dict.get (Grade.exam_id g) (exams w0)) as [exam|].
    + apply bind_inr in H as (cg & _ & H & _).
      match type of H with
      | outcome _ (after ?m w) = _ =>
          assert (Hw : after m w = w);
          [ apply (preserves_filterM unchanged unchanged_refl unchanged_trans);
            intro; repeat unchanged_step
          | rewrite Hw in H ]
      end.
      apply bind_inr in H as (vs & Hvs & H & _).
      cbn in H. injection H as <-.
      destruct Hv as [<-|Hv].
      * exists g. cbn. auto.
      * destruct (IH vs Hvs v Hv) as (g' & Hin & Hrest).
        exists g'; split; [right; exact Hin | exact Hrest].
    + destruct (IH views H v Hv) as (g' & Hin & Hrest).
      exists g'; split; [right; exact Hin | exact Hrest].
Qed.

Lemma insert_perm {A : Type} (leb : A -> A -> bool) (a : A) (l : list A) :
  Permutation (Py.insert leb a l) (a :: l).
Proof.
  induction l as [|b l IH]; simpl; [reflexivity|].
  destruct (leb a b); [reflexivity|].
  rewrite IH. apply perm_swap.
Qed.

Lemma sorted_perm {A : Type} (leb : A -> A -> bool) (l : list A) :
  Permutation (Py.sorted leb l) l.
Proof.
  induction l as [|a l IH]; simpl; [reflexivity|].
  rewrite insert_perm. apply perm_skip; exact IH.
Qed.

Lemma list_student_grades_ok (account : Account.t)
    (term exam_id : option string) (w : World) (r : StudentGradeResponse.t) :
  outcome (list_student_grades account term exam_id) w = inr r ->
  let key := Py.or_else (Account.bind_id account) "" in
  exists student relevant views,
    Account.role account = STUDENT
    /\ Dict.get key (students w) = Some student
    /\ (forall g,
          In g relevant ->
          In g (Dict.values (grades w))
          /\ Grade.published g = true
          /\ Grade.student_no g = Student.student_no student)
    /\ outcome (student_views student relevant) w = inr views
    /\ r = StudentGradeResponse.mk
             (Student.has_unread_published_grades student)
             (Py.sorted student_view_leb views)
    /\ after (list_student_grades account term exam_id) w
       = set_students
           (Dict.set key
              (Student.set_has_unread_published_grades false student)
              (students w)) w.
Proof.
  intros H key. unfold list_student_grades in *. fold key in H |- *.
  destruct (Account.role account) eqn:Hrole; cbn [Role_eqb negb] in *;
    try discriminate H.
  apply bind_inr in H as (w0 & Hw0 & H & Ha).
  rewrite Ha; clear Ha.
  cbn in Hw0; injection Hw0 as <-. cbn [after get_world snd] in *.
  destruct (Dict.get key (students w)) as [student|] eqn:Hst;
    [|discriminate H].
  apply bind_inr in H as (rel & Hrel & H & Ha). rewrite Ha; clear Ha.
  set (base := filter Grade.published
                 (_grades_for_student (Student.student_no student) w)) in *.
  assert (Hbase : forall g, In g base ->
            In g (Dict.values (grades w))
            /\ Grade.published g = true
            /\ Grade.student_no g = Student.student_no student).
  { intros g Hg. unfold base, _grades_for_student in Hg.
    apply filter_In in Hg as [Hg Hp]. apply filter_In in Hg as [Hg Hs].
    apply String.eqb_eq in Hs. auto. }
  assert (Hw1 : after
                  (if Py.truthy term
                   then
                     filterM
                       (fun grade =>
                          exam <- index (Grade.exam_id grade) (exams w) ;;
                          ret (String.eqb (Exam.term exam)
                                 (Py.or_else term ""))) base
                   else ret base) w = w).
  { destruct (Py.truthy term); [|reflexivity].
    apply (preserves_filterM unchanged unchanged_refl unchanged_trans).
    intro; repeat unchanged_step. }
  rewrite Hw1 in *.
  assert (Hrelin : forall g, In g rel -> In g base).
  { destruct (Py.truthy term).
    - intros g Hg.
      eapply (filterM_sublist _ base rel w); [|exact Hrel|exact Hg].
      intro; cbv beta; repeat unchanged_step.
    - cbn in Hrel. injection Hrel as <-. auto. }
  cbv zeta in H |- *.
  apply bind_inr in H as (views & Hviews & H & Ha). rewrite Ha; clear Ha.
  rewrite (unchanged_student_views student _ w) in *.
  apply bind_inr in H as ([] & _ & H & Ha). rewrite Ha; clear Ha.
  cbn in H. injection H as <-.
  exists student. eexists. exists views.
  split; [reflexivity|]. split; [reflexivity|].
  split; [|split; [exact Hviews|split; [reflexivity|]]].
  - intros g Hg. apply Hbase.
    destruct (Py.truthy exam_id); [apply filter_In in Hg as [Hg _]|]; auto.
  - cbn. rewrite Hst. reflexivity.
Qed.

(** ** The ledger across the upsert, the import and the publish *)

Lemma ledger_le_upsert (teacher : Teacher.t) (e s n : string) (x : Q)
    (ts : datetime) (d : dict key3 Grade.t) :
  let key := _grade_key e s n in
  ledger_le d (Dict.set key (upserted teacher e s n x ts (Dict.get key d)) d).
Proof.
  intros key. split; [|split; [|split]].
  - destruct (keys_set_cases key
                (upserted teacher e s n x ts (Dict.get key d)) d)
      as [->|[_ ->]]; [exists []; rewrite app_nil_r|eexists]; reflexivity.
  - apply wf_set.
  - intros [Hwf Hkey]. split; [apply wf_set; exact Hwf|].
    intros k g Hin. apply In_set in Hin as [[-> ->]|Hin]; [|auto].
    destruct (Dict.get key d) as [prev|] eqn:Hprev; cbn; [|reflexivity].
    apply Hkey. apply get_In; exact Hprev.
  - intros k g Hg.
    assert (Hdec : k = key \/ k <> key).
    { destruct (keqb k key) eqn:E; [left; apply keqb_eq; exact E|].
      right; intros ->. rewrite keqb_refl in E; discriminate. }
    destruct Hdec as [->|Hne].
    + rewrite get_set_same, Hg. eexists; split; [reflexivity|].
      cbn; auto.
    + rewrite get_set_other by exact Hne. exists g; auto.
Qed.

Lemma quiet_teacher_update_grade (account : Account.t) (e s n : string)
    (x : Q) :
  preserves quiet (teacher_update_grade account e s n x).
Proof.
  intros w. unfold after. rewrite teacher_update_grade_run.
  repeat match goal with
         | |- context [if ?b then _ else _] => destruct b
         | |- context [match ?o with Some _ => _ | None => _ end] =>
             destruct o
         end;
    try apply quiet_refl.
  cbn [snd]. split; [split; [|split]|].
  - reflexivity.
  - cbn. lia.
  - cbn [grades set_audit_logs set_ticks set_grades].
    apply ledger_le_upsert.
  - cbn. apply students_le_refl.
Qed.

#[local] Hint Resolve quiet_teacher_update_grade : quiet.

Lemma quiet_import_loop (account : Account.t) (rows : list import_row) :
  forall (idx processed : nat) (errors : list string),
    preserves quiet (import_loop account idx rows processed errors).
Proof.
  induction rows as [|[exc|[[[e s] n] x]] rows IH]; intros idx processed errors;
    cbn [import_loop]; [quiet_auto | apply IH |].
  quiet_step; [quiet_auto|]. destruct a; apply IH.
Qed.

Lemma quiet_teacher_import_grades (account : Account.t)
    (rows : list import_row) :
  preserves quiet (teacher_import_grades account rows).
Proof. apply quiet_import_loop. Qed.

Lemma get_published_entries (m : Grade.t -> bool) (k : key3)
    (d : dict key3 Grade.t) :
  Dict.get k (published_entries m d)
  = option_map (fun g => if m g then Grade.set_published true g else g)
      (Dict.get k d).
Proof.
  unfold published_entries.
  induction d as [|[k0 g0] d IH]; cbn; [reflexivity|].
  destruct (key3_eqb k k0); [reflexivity | exact IH].
Qed.

Lemma keys_published_entries (m : Grade.t -> bool) (d : dict key3 Grade.t) :
  Dict.keys (published_entries m d) = Dict.keys d.
Proof.
  unfold published_entries, Dict.keys. rewrite map_map. reflexivity.
Qed.

Lemma ledger_le_published (m : Grade.t -> bool) (d : dict key3 Grade.t) :
  ledger_le d (published_entries m d).
Proof.
  split; [|split; [|split]].
  - exists []. rewrite keys_published_entries, app_nil_r; reflexivity.
  - unfold Dict.wf. rewrite keys_published_entries; auto.
  - intros [Hwf Hkey]. split.
    + unfold Dict.wf. rewrite keys_published_entries; exact Hwf.
    + intros k g Hin. unfold published_entries in Hin.
      apply in_map_iff in Hin as ([k0 g0] & [= <- <-] & Hin). cbn.
      rewrite (Hkey k0 g0 Hin). destruct (m g0); reflexivity.
  - intros k g Hg. rewrite get_published_entries, Hg. cbn.
    eexists; split; [reflexivity|].
    destruct (m g); cbn; auto.
Qed.

Lemma stable_publish_grades (account : Account.t) (e s : string) :
  preserves stable (publish_grades account e s).
Proof.
  intros w. unfold after. rewrite publish_grades_run.
  repeat match goal with
         | |- context [if ?b then _ else _] => destruct b
         | |- context [match ?o with Some _ => _ | None => _ end] =>
             destruct o
         end;
    try apply stable_refl.
  - cbv zeta. destruct (Nat.eqb _ 0); cbn [snd];
      (split; [reflexivity|]; split; [cbn; lia|]);
      cbn; apply ledger_le_published.
Qed.

Lemma quiet_stable (w w' : World) : quiet w w' -> stable w w'.
Proof. intros [H _]; exact H. Qed.

Section Steps.
Variable verify_password : string -> string -> bool.
Variable hash_password_salted : string -> string -> string.

(** Every call but a publish keeps the ledger and the students quiet. *)
Lemma quiet_step_call (c : call) (w : World) :
  (forall a e s, c <> PublishGrades a e s) ->
  quiet w (step verify_password hash_password_salted c w).
Proof.
  intros Hnp. destruct c; cbn [step];
    try (apply quiet_refl);
    try (exfalso; eapply Hnp; reflexivity).
  - apply quiet_authenticate.
  - apply quiet_get_account.
  - apply quiet_require_role.
  - apply quiet_require_teacher_or_principal.
  - apply quiet_change_password.
  - apply quiet_reset_password.
  - apply quiet_logout.
  - apply quiet_list_student_grades.
  - apply quiet_teacher_update_grade.
  - apply quiet_teacher_import_grades.
  - apply quiet_teacher_export_grades.
  - apply quiet_teacher_list_grades.
  - apply quiet_principal_overview.
  - apply quiet_principal_export_grades.
  - apply quiet_list_audit_logs.
  - apply quiet_mark_password_reset.
Qed.

Lemma stable_step (c : call) (w : World) :
  stable w (step verify_password hash_password_salted c w).
Proof.
  destruct c;
    try (apply quiet_stable, quiet_step_call; intros; discriminate).
  apply stable_publish_grades.
Qed.

Lemma stable_run (cs : list call) (w : World) :
  stable w (run verify_password hash_password_salted cs w).
Proof.
  unfold run. revert w; induction cs as [|c cs IH]; intros w; cbn.
  - apply stable_refl.
  - eapply stable_trans; [apply stable_step | apply IH].
Qed.

End Steps.

(** ** The stores stay keyed by their natural keys *)

Lemma students_keyed_mark_unread (sno : string) (d : dict string Student.t) :
  students_keyed d -> students_keyed (mark_unread sno d).
Proof.
  intros Hk. unfold mark_unread.
  destruct (Dict.get sno d) as [s|] eqn:Hg; [|exact Hk].
  apply (students_keyed_set sno s); auto.
Qed.

Lemma students_keyed_notified (m : Grade.t -> bool)
    (entries : dict key3 Grade.t) (d : dict string Student.t) :
  students_keyed d -> students_keyed (notified_students m entries d).
Proof.
  unfold notified_students. generalize (Dict.values entries) as gs.
  intros gs; revert d. induction gs as [|g gs IH]; intros d Hk; [exact Hk|].
  cbn [fold_left]. apply IH.
  destruct (m g && negb (Grade.published g));
    [apply students_keyed_mark_unread|]; exact Hk.
Qed.

Lemma students_keyed_publish_grades (account : Account.t) (e s : string)
    (w : World) :
  students_keyed (students w) ->
  students_keyed (students (after (publish_grades account e s) w)).
Proof.
  intros Hk. unfold after. rewrite publish_grades_run.
  repeat match goal with
         | |- context [if ?b then _ else _] => destruct b
         | |- context [match ?o with Some _ => _ | None => _ end] =>
             destruct o
         end;
    cbn [snd]; try exact Hk.
  cbv zeta. destruct (Nat.eqb _ 0); cbn;
    apply students_keyed_notified; exact Hk.
Qed.

Section Keyed.
Variable verify_password : string -> string -> bool.
Variable hash_password_salted : string -> string -> string.

Lemma keyed_step (c : call) (w : World) :
  keyed w -> keyed (step verify_password hash_password_salted c w).
Proof.
  intros [Hs Hl]. split.
  - destruct c;
      try (apply (quiet_step_call verify_password hash_password_salted);
           [intros; discriminate | exact Hs]).
    apply students_keyed_publish_grades; exact Hs.
  - destruct (stable_step verify_password hash_password_salted c w)
      as (_ & _ & _ & _ & Hkeep & _). auto.
Qed.

Lemma keyed_run (cs : list call) (w : World) :
  keyed w -> keyed (run verify_password hash_password_salted cs w).
Proof.
  unfold run. revert w; induction cs as [|c cs IH]; intros w Hk; [exact Hk|].
  cbn [fold_left]. apply IH, keyed_step, Hk.
Qed.

Lemma ledger_keyed_set (g : Grade.t) (d : dict key3 Grade.t) :
  ledger_keyed d ->
  ledger_keyed
    (Dict.set
       (_grade_key (Grade.exam_id g) (Grade.subject_code g)
          (Grade.student_no g)) g d).
Proof.
  intros [Hwf Hkey]. split; [apply wf_set; exact Hwf|].
  intros k0 g0 Hin. apply In_set in Hin as [[-> ->]|Hin]; auto.
Qed.

Lemma seed_grades_cons (e s n : string) (x : Q) (seed : dict key3 Q)
    (w : World) :
  seed_grades ((_grade_key e s n, x) :: seed) w
  = match find (fun t => Py.str_in s (Teacher.subjects t))
            (Dict.values (teachers w)) with
    | None => (inl StopIteration, w)
    | Some teacher =>
        seed_grades seed
          (set_grades
             (Dict.set (_grade_key e s n)
                (Grade.mk e s n x (Teacher.teacher_id teacher)
                   (clock w (ticks w)) (clock w (ticks w)) true)
                (grades w))
             (set_ticks (S (ticks w)) w))
    end.
Proof.
  cbn [seed_grades _grade_key]. unfold bind at 1, get_world.
  destruct (find _ (Dict.values (teachers w))); reflexivity.
Qed.

Lemma seed_grades_keyed (seed : dict key3 Q) :
  forall w : World,
    students (after (seed_grades seed) w) = students w
    /\ (ledger_keyed (grades w) ->
        ledger_keyed (grades (after (seed_grades seed) w))).
Proof.
  induction seed as [|[[[e s] n] x] seed IH]; intros w.
  - split; [reflexivity | auto].
  - unfold after.
    change (e, s, n) with (_grade_key e s n). rewrite seed_grades_cons.
    destruct (find _ (Dict.values (teachers w))) as [teacher|];
      [|split; [reflexivity | auto]].
    match goal with
    | |- context [seed_grades seed ?w1] =>
        destruct (IH w1) as [Hs Hl]; unfold after in Hs, Hl
    end.
    split; [rewrite Hs; reflexivity|].
    intros Hk. apply Hl. cbn [grades set_grades set_ticks].
    apply (ledger_keyed_set
             (Grade.mk e s n x (Teacher.teacher_id teacher)
                (clock w (ticks w)) (clock w (ticks w)) true)).
    exact Hk.
Qed.

Lemma after_bind_modify {A : Type} (f : World -> World) (k : unit -> M A)
    (w : World) :
  after (bind (modify f) k) w = after (k tt) (f w).
Proof. reflexivity. Qed.

Lemma after_bind_hash_password {A : Type} (password : string)
    (k : string -> M A) (w : World) :
  after (bind (hash_password hash_password_salted password) k) w
  = after (k (hash_password_salted password (entropy w (draws w) 16)))
      (set_draws (S (draws w)) w).
Proof. reflexivity. Qed.

Lemma keyed_data (clock : nat -> datetime) (entropy : nat -> nat -> string) :
  keyed (data hash_password_salted clock entropy).
Proof.
  unfold data, load_data.
  rewrite after_bind_modify, after_bind_hash_password, after_bind_modify.
  match goal with
  | |- keyed (after (seed_grades _ ) ?w1) =>
      destruct (seed_grades_keyed _grade_seed w1) as [Hs Hl]
  end.
  split.
  - rewrite Hs. cbn [students set_accounts set_draws blank].
    split.
    + unfold Dict.wf, seed_students, seed_student. cbn.
      repeat constructor; cbn; intuition discriminate.
    + intros k s Hin. unfold seed_students, seed_student in Hin. cbn in Hin.
      repeat (destruct Hin as [[= <- <-]|Hin]; [reflexivity|]).
      destruct Hin.
  - apply Hl. cbn [grades set_accounts set_draws blank].
    split; [constructor | intros k g []].
Qed.

(** Every world reached from the seed data by calls of the interface is
    keyed. *)
Lemma keyed_reachable (clock : nat -> datetime)
    (entropy : nat -> nat -> string) (cs : list call) :
  keyed
    (run verify_password hash_password_salted cs
       (data hash_password_salted clock entropy)).
Proof. apply keyed_run, keyed_data. Qed.

End Keyed.

(** ** The grade life cycle *)

Lemma teacher_update_grade_ok (account : Account.t) (e s n : string) (x : Q)
    (w : World) (g : Grade.t) :
  outcome (teacher_update_grade account e s n x) w = inr g ->
  let key := _grade_key e s n in
  let w' := after (teacher_update_grade account e s n x) w in
  exists teacher,
    g = upserted teacher e s n x (clock w (ticks w)) (Dict.get key (grades w))
    /\ grades w' = Dict.set key g (grades w)
    /\ clock w' = clock w
    /\ ticks w' = S (S (ticks w))
    /\ students w' = students w.
Proof.
  unfold outcome, after. rewrite teacher_update_grade_run.
  repeat match goal with
         | |- context [if ?b then _ else _] => destruct b
         | |- context [match ?o with Some _ => _ | None => _ end] =>
             destruct o
         end;
    cbn [fst snd]; try discriminate.
  cbv zeta. intros [= <-]. eexists. split; [reflexivity|].
  cbn. auto.
Qed.

Lemma key3_eqb_eq (a b : key3) : key3_eqb a b = true <-> a = b.
Proof. exact (keqb_eq (K := key3) a b). Qed.

Lemma filter_key_once (key : key3) (l : list key3) :
  NoDup l -> In key l -> List.length (filter (key3_eqb key) l) = 1%nat.
Proof.
  induction l as [|k l IH]; intros Hnd Hin; [destruct Hin|].
  inversion Hnd as [|? ? Hk Hnd']; subst. cbn [filter].
  destruct (key3_eqb key k) eqn:E.
  - apply key3_eqb_eq in E; subst k. cbn [List.length]. f_equal.
    assert (Hnone : filter (key3_eqb key) l = []).
    { clear -Hk. induction l as [|k' l IHl]; [reflexivity|]. cbn.
      destruct (key3_eqb key k') eqn:E'.
      - apply key3_eqb_eq in E'; subst. exfalso; apply Hk; left; auto.
      - apply IHl. intros H; apply Hk; right; exact H. }
    rewrite Hnone; reflexivity.
  - apply IH; [exact Hnd'|].
    destruct Hin as [->|Hin]; [|exact Hin].
    assert (key3_eqb key key = true) by (apply key3_eqb_eq; reflexivity).
    congruence.
Qed.

Lemma get_Some_in_keys {V : Type} (k : key3) (v : V) (d : dict key3 V) :
  Dict.get k d = Some v -> In k (Dict.keys d).
Proof.
  intros Hg. apply get_In in Hg.
  change k with (fst (k, v)). apply in_map; exact Hg.
Qed.

(** C1.  When the first upsert at a key creates the grade, the grade is
    appended to the ledger with [created_at] and [updated_at] set to the
    time of the call; whatever calls of the interface come in between, a
    later upsert at the key adds no entry: it returns the grade stored at
    the key, whose [created_at] is that of the first call and whose
    [updated_at] is the time of the later call, later than the first by a
    clock that moves forward; the ledger keeps one entry for the key.  In
    any world, an upsert at a key that has a grade updates it in place. *)
Theorem upsert_single_grade_per_key
    (verify_password : string -> string -> bool)
    (hash_password_salted : string -> string -> string)
    (a1 a2 : Account.t) (e s n : string) (x1 x2 : Q) (cs : list call)
    (w : World) (g1 g2 : Grade.t) :
  let key := _grade_key e s n in
  let w1 := after (teacher_update_grade a1 e s n x1) w in
  let w2 := run verify_password hash_password_salted cs w1 in
  let w3 := after (teacher_update_grade a2 e s n x2) w2 in
  Dict.get key (grades w) = None ->
  outcome (teacher_update_grade a1 e s n x1) w = inr g1 ->
  outcome (teacher_update_grade a2 e s n x2) w2 = inr g2 ->
  (grades w1 = (grades w ++ [(key, g1)])%list
   /\ Grade.created_at g1 = clock w (ticks w)
   /\ Grade.updated_at g1 = clock w (ticks w)
   /\ Grade.published g1 = false)
  /\ (Dict.keys (grades w3) = Dict.keys (grades w2)
      /\ Dict.get key (grades w3) = Some g2
      /\ Grade.created_at g2 = Grade.created_at g1
      /\ Grade.updated_at g2 = clock w2 (ticks w2))
  /\ (Dict.wf (grades w) ->
      Dict.wf (grades w3)
      /\ List.length (filter (key3_eqb key) (Dict.keys (grades w3))) = 1%nat)
  /\ ((forall i j : nat, (i < j)%nat -> clock w i < clock w j) ->
      Grade.updated_at g1 < Grade.updated_at g2)
  /\ (forall (w0 : World) (a : Account.t) (x : Q) (g0 g : Grade.t),
        Dict.get key (grades w0) = Some g0 ->
        outcome (teacher_update_grade a e s n x) w0 = inr g ->
        let w0' := after (teacher_update_grade a e s n x) w0 in
        Dict.keys (grades w0') = Dict.keys (grades w0)
        /\ Dict.get key (grades w0') = Some g
        /\ Grade.created_at g = Grade.created_at g0
        /\ Grade.published g = Grade.published g0
        /\ Grade.updated_at g = clock w0 (ticks w0)).
Proof.
  intros key w1 w2 w3 Hnone H1 H2.
  assert (Hplace : forall (w0 : World) (a : Account.t) (x : Q) (g0 g : Grade.t),
            Dict.get key (grades w0) = Some g0 ->
            outcome (teacher_update_grade a e s n x) w0 = inr g ->
            let w0' := after (teacher_update_grade a e s n x) w0 in
            Dict.keys (grades w0') = Dict.keys (grades w0)
            /\ Dict.get key (grades w0') = Some g
            /\ Grade.created_at g = Grade.created_at g0
            /\ Grade.published g = Grade.published g0
            /\ Grade.updated_at g = clock w0 (ticks w0)).
  { intros w0 a x g0 g Hg0 Hok w0'.
    destruct (teacher_update_grade_ok a e s n x w0 g Hok)
      as (t & Hg & Hgr & _).
    fold key in Hg, Hgr. fold w0' in Hgr. rewrite Hg0 in Hg.
    rewrite Hgr. split; [eapply keys_set_present; eauto|].
    split; [apply get_set_same|]. subst g; cbn; auto. }
  destruct (teacher_update_grade_ok a1 e s n x1 w g1 H1)
    as (t1 & Hg1 & Hgr1 & Hc1 & Ht1 & _).
  fold key in Hg1, Hgr1. fold w1 in Hgr1, Hc1, Ht1. rewrite Hnone in Hg1.
  pose proof (stable_run verify_password hash_password_salted cs w1)
    as (Hc2 & Ht2 & Hl2).
  fold w2 in Hc2, Ht2, Hl2.
  assert (Hget1 : Dict.get key (grades w1) = Some g1)
    by (rewrite Hgr1; apply get_set_same).
  destruct Hl2 as (_ & Hwf2 & _ & Hkeep).
  destruct (Hkeep key g1 Hget1) as (g' & Hget2 & Hcr2 & _).
  destruct (Hplace w2 a2 x2 g' g2 Hget2 H2) as (Hk3 & Hget3 & Hcr3 & _ & Hup3).
  fold w3 in Hk3, Hget3.
  split; [|split; [|split; [|split]]].
  - rewrite Hgr1. split; [apply set_absent; exact Hnone|].
    subst g1; cbn; auto.
  - repeat split; auto. congruence.
  - intros Hwf.
    assert (Hwf3 : Dict.wf (grades w3)).
    { unfold Dict.wf. rewrite Hk3. apply Hwf2.
      rewrite Hgr1. apply wf_set; exact Hwf. }
    split; [exact Hwf3|].
    apply filter_key_once; [exact Hwf3|].
    eapply get_Some_in_keys; eauto.
  - intros Hmono. rewrite Hup3. subst g1; cbn [upserted Grade.updated_at].
    rewrite Hc2, Hc1. apply Hmono. lia.
  - exact Hplace.
Qed.

Lemma upsert_single_grade_per_key_witness :
  let g1 :=
    Grade.mk "EX2025N" "MTH" "S001" (96 # 1) "T200" 1750000018000000
      1750000018000000 false in
  let g2 :=
    Grade.mk "EX2025N" "MTH" "S001" (97 # 1) "T200" 1750000018000000
      1750000021000000 true in
  let w2 :=
    run demo_verify demo_hash demo_calls
      (after
         (teacher_update_grade demo_teacher_account "EX2025N" "MTH" "S001"
            (96 # 1)) demo_world_final) in
  let w3 :=
    after
      (teacher_update_grade demo_teacher_account "EX2025N" "MTH" "S001"
         (97 # 1)) w2 in
  Dict.keys (grades w3) = Dict.keys (grades w2)
  /\ Dict.get (_grade_key "EX2025N" "MTH" "S001") (grades w3) = Some g2
  /\ Grade.created_at g2 = Grade.created_at g1
  /\ Grade.updated_at g2 = clock w2 (ticks w2).
Proof.
  intros g1 g2 w2 w3.
  exact (proj1 (proj2
    (upsert_single_grade_per_key demo_verify demo_hash
       demo_teacher_account demo_teacher_account "EX2025N" "MTH" "S001"
       (96 # 1) (97 # 1) demo_calls demo_world_final g1 g2
       ltac:(vm_compute; reflexivity) ltac:(vm_compute; reflexivity)
       ltac:(vm_compute; reflexivity)))).
Defined.

(** C2.  Publish is monotonic: whatever the world, a grade that is
    published stays at its key and stays published across every call of the
    interface (authentication and session calls, the upsert, the bulk
    import, publish, every listing and export) whether the call returns or
    raises, and so across every sequence of calls. *)
Theorem publish_monotonic
    (verify_password : string -> string -> bool)
    (hash_password_salted : string -> string -> string)
    (cs : list call) (w : World) (k : key3) (g : Grade.t) :
  Dict.get k (grades w) = Some g ->
  Grade.published g = true ->
  (forall c : call,
     exists g',
       Dict.get k (grades (step verify_password hash_password_salted c w))
       = Some g'
       /\ Grade.published g' = true)
  /\ exists g',
       Dict.get k (grades (run verify_password hash_password_salted cs w))
       = Some g'
       /\ Grade.published g' = true.
Proof.
  intros Hg Hp. split.
  - intros c.
    destruct (stable_step verify_password hash_password_salted c w)
      as (_ & _ & _ & _ & _ & Hkeep).
    destruct (Hkeep k g Hg) as (g' & Hg' & _ & Hp').
    exists g'; auto.
  - destruct (stable_run verify_password hash_password_salted cs w)
      as (_ & _ & _ & _ & _ & Hkeep).
    destruct (Hkeep k g Hg) as (g' & Hg' & _ & Hp').
    exists g'; auto.
Qed.

Lemma publish_monotonic_witness :
  exists g',
    Dict.get (_grade_key "EX2025M" "MTH" "S001")
      (grades
         (run demo_verify demo_hash
            [ TeacherUpdateGrade demo_teacher_account "EX2025M" "MTH" "S001"
                (96 # 1);
              TeacherImportGrades demo_teacher_account
                [inr ("EX2025M", "MTH", "S001", 59 # 1); inl "bad row"];
              PublishGrades demo_teacher_account "EX2025M" "MTH" ]
            demo_world))
    = Some g'
    /\ Grade.published g' = true.
Proof.
  exact (proj2
    (publish_monotonic demo_verify demo_hash
       [ TeacherUpdateGrade demo_teacher_account "EX2025M" "MTH" "S001"
           (96 # 1);
         TeacherImportGrades demo_teacher_account
           [inr ("EX2025M", "MTH", "S001", 59 # 1); inl "bad row"];
         PublishGrades demo_teacher_account "EX2025M" "MTH" ]
       demo_world (_grade_key "EX2025M" "MTH" "S001")
       (Grade.mk "EX2025M" "MTH" "S001" (95 # 1) "T200" 1750000006000000
          1750000006000000 true)
       ltac:(vm_compute; reflexivity) ltac:(vm_compute; reflexivity))).
Defined.

(** ** The notification flag *)

Lemma has_unread_notified (p : Grade.t -> bool) (gs : list Grade.t) :
  forall (d : dict string Student.t) (k : string),
    match
      Dict.get k
        (fold_left
           (fun d g => if p g then mark_unread (Grade.student_no g) d else d)
           gs d)
    with
    | Some s' =>
        exists s,
          Dict.get k d = Some s
          /\ Student.has_unread_published_grades s'
             = Student.has_unread_published_grades s
               || existsb
                    (fun g => p g && String.eqb (Grade.student_no g) k) gs
    | None => Dict.get k d = None
    end.
Proof.
  induction gs as [|g gs IH]; intros d k; cbn [fold_left existsb].
  - destruct (Dict.get k d) as [s|]; [|reflexivity].
    exists s; rewrite orb_false_r; auto.
  - specialize (IH (if p g then mark_unread (Grade.student_no g) d else d) k).
    match type of IH with
    | match ?x with _ => _ end => destruct x as [s'|]
    end.
    + destruct IH as (s1 & Hs1 & Hflag).
      destruct (p g); cbn [andb].
      * rewrite get_mark_unread in Hs1. rewrite (String.eqb_sym _ k).
        destruct (String.eqb k (Grade.student_no g)).
        -- destruct (Dict.get k d) as [s|]; [|discriminate Hs1].
           injection Hs1 as <-. exists s; split; [reflexivity|].
           rewrite Hflag. cbn. rewrite orb_true_r. reflexivity.
        -- exists s1; auto.
      * exists s1; auto.
    + destruct (p g); [|exact IH].
      rewrite get_mark_unread in IH.
      destruct (String.eqb k (Grade.student_no g)); [|exact IH].
      destruct (Dict.get k d); [discriminate IH | reflexivity].
Qed.

Lemma values_published_entries (m : Grade.t -> bool) (d : dict key3 Grade.t) :
  Dict.values (published_entries m d)
  = map (fun g => if m g then Grade.set_published true g else g)
      (Dict.values d).
Proof.
  unfold published_entries, Dict.values. rewrite !map_map. reflexivity.
Qed.

Lemma transitioned_published (w w' : World) (e s : string)
    (classes : list string) (k : string) :
  grades w' = published_entries (publish_matches w e s classes) (grades w) ->
  transitioned w w' k <->
  existsb
    (fun g =>
       publish_matches w e s classes g && negb (Grade.published g)
       && String.eqb (Grade.student_no g) k)
    (Dict.values (grades w)) = true.
Proof.
  intros Hg. unfold transitioned. rewrite Hg, values_published_entries.
  rewrite existsb_exists. split.
  - intros (i & g & g' & Hi & Hi' & Hk & Hp & Hp').
    rewrite nth_error_map, Hi in Hi'. cbn in Hi'. injection Hi' as <-.
    exists g. split; [eapply nth_error_In; eauto|].
    destruct (publish_matches w e s classes g); [|congruence].
    rewrite Hp, Hk, String.eqb_refl. reflexivity.
  - intros (g & Hin & Hc).
    apply andb_true_iff in Hc as [Hc Hk].
    apply andb_true_iff in Hc as [Hm Hp].
    apply String.eqb_eq in Hk. apply negb_true_iff in Hp.
    apply In_nth_error in Hin as [i Hi].
    exists i, g. eexists. split; [exact Hi|].
    split; [rewrite nth_error_map, Hi; reflexivity|].
    rewrite Hm. cbn. auto.
Qed.

Lemma not_transitioned_same (w w' : World) (k : string) :
  grades w' = grades w -> ~ transitioned w w' k.
Proof.
  intros Hg (i & g & g' & Hi & Hi' & _ & Hp & Hp').
  rewrite Hg in Hi'. congruence.
Qed.

Lemma has_unread_published_world (w : World) (e s : string)
    (classes : list string) (k : string) :
  has_unread (published_world w e s classes) k
  = has_unread w k
    || existsb
         (fun g =>
            publish_matches w e s classes g && negb (Grade.published g)
            && String.eqb (Grade.student_no g) k)
         (Dict.values (grades w)).
Proof.
  unfold has_unread, published_world, notified_students.
  cbn [students set_grades set_students].
  pose proof (has_unread_notified
                (fun g => publish_matches w e s classes g
                          && negb (Grade.published g))
                (Dict.values (grades w)) (students w) k) as H.
  cbv beta in H.
  match type of H with
  | match ?x with _ => _ end => destruct x as [s'|]
  end.
  - destruct H as (s0 & -> & ->). reflexivity.
  - rewrite H. cbn. symmetry. apply not_true_is_false. intros Hex.
    apply existsb_exists in Hex as (g & _ & Hc).
    apply andb_true_iff in Hc as [Hc Hk].
    apply andb_true_iff in Hc as [Hm _].
    apply String.eqb_eq in Hk. subst k.
    apply publish_matches_iff in Hm as (_ & _ & st & Hst & _).
    congruence.
Qed.

Lemma publish_sets_flag (account : Account.t) (e s : string) (w : World)
    (k : string) :
  let w' := after (publish_grades account e s) w in
  has_unread w' k = true <-> has_unread w k = true \/ transitioned w w' k.
Proof.
  intros w'. subst w'. unfold after. rewrite publish_grades_run.
  assert (Hsame : has_unread w k = true <->
                  has_unread w k = true \/ transitioned w w k).
  { split; [auto|]. intros [H|H]; [exact H|].
    exfalso; eapply not_transitioned_same; eauto. }
  repeat match goal with
         | |- context [if ?b then _ else _] => destruct b
         | |- context [match ?o with Some _ => _ | None => _ end] =>
             destruct o as [teacher|]
         end;
    cbn [snd]; try exact Hsame.
  cbv zeta.
  assert (Hw1 : has_unread (published_world w e s (Teacher.classes teacher)) k
                = true <->
                has_unread w k = true
                \/ transitioned w
                     (published_world w e s (Teacher.classes teacher)) k).
  { rewrite has_unread_published_world, orb_true_iff.
    rewrite (transitioned_published w _ e s (Teacher.classes teacher) k)
      by reflexivity.
    reflexivity. }
  destruct (Nat.eqb _ 0); cbn [snd]; [exact Hw1|].
  unfold has_unread, transitioned in *.
  cbn [students grades set_audit_logs set_ticks]. exact Hw1.
Qed.

Lemma students_le_flag (w w' : World) (k : string) :
  students_le (students w) (students w') ->
  has_unread w' k = true -> has_unread w k = true.
Proof.
  intros [_ Hle]. specialize (Hle k). unfold has_unread.
  destruct (Dict.get k (students w)) as [s|],
    (Dict.get k (students w')) as [s'|]; try tauto; try discriminate.
  destruct Hle as [->| ->]; [auto|]. cbn. discriminate.
Qed.

Section Notification.
Variable verify_password : string -> string -> bool.
Variable hash_password_salted : string -> string -> string.

(** A call sets the flag of a student only by publishing one of the
    student's grades for the first time. *)
Lemma flag_set_only_by_first_publish (c : call) (w : World) (k : string) :
  has_unread (step verify_password hash_password_salted c w) k = true ->
  has_unread w k = true
  \/ transitioned w (step verify_password hash_password_salted c w) k.
Proof.
  intros H.
  assert (Hq : (forall a e s, c <> PublishGrades a e s) ->
               has_unread w k = true).
  { intros Hnp. eapply students_le_flag; [|exact H].
    apply (quiet_step_call verify_password hash_password_salted c w Hnp). }
  destruct c; try (left; apply Hq; intros; discriminate).
  cbn [step] in *. apply publish_sets_flag. exact H.
Qed.

Lemma no_first_publish_keeps_clear (k : string) (cs : list call) :
  forall w : World,
    no_first_publish verify_password hash_password_salted k cs w ->
    has_unread w k = false ->
    has_unread (run verify_password hash_password_salted cs w) k = false.
Proof.
  unfold run. induction cs as [|c cs IH]; intros w Hno Hclear; [exact Hclear|].
  cbn [fold_left]. destruct Hno as [Hnt Hno]. apply IH; [exact Hno|].
  apply not_true_is_false. intros Hset.
  destruct (flag_set_only_by_first_publish c w k Hset); [congruence|tauto].
Qed.

End Notification.

Lemma list_student_grades_flag (account : Account.t)
    (term exam_id : option string) (w : World) (r : StudentGradeResponse.t) :
  outcome (list_student_grades account term exam_id) w = inr r ->
  let key := Py.or_else (Account.bind_id account) "" in
  StudentGradeResponse.has_unread r = has_unread w key
  /\ has_unread (after (list_student_grades account term exam_id) w) key
     = false.
Proof.
  intros H key.
  destruct (list_student_grades_ok account term exam_id w r H)
    as (student & rel & views & _ & Hst & _ & _ & -> & ->).
  fold key in Hst |- *. unfold has_unread. cbn [students set_students].
  rewrite Hst, get_set_same. cbn. auto.
Qed.

(** C5.  A publish call leaves the flag of a student set exactly when the
    flag was set before or some grade of the student goes from unpublished
    to published in that call (so a publish that touches only grades of
    the student that were already published does not set it).  A grade
    listing of a student that returns carries the flag as it was and leaves
    it cleared.  After a listing, a second listing that follows calls none
    of which publishes a grade of the student for the first time carries
    the flag cleared; a second listing that follows a publish call in which
    a grade of the student goes from unpublished to published carries the
    flag set. *)
Theorem notification_flag
    (verify_password : string -> string -> bool)
    (hash_password_salted : string -> string -> string) :
  (forall (teacher : Account.t) (e s : string) (w : World) (k : string),
     let w' := after (publish_grades teacher e s) w in
     has_unread w' k = true <-> has_unread w k = true \/ transitioned w w' k)
  /\ (forall (account : Account.t) (term exam_id : option string) (w : World)
        (r : StudentGradeResponse.t),
        outcome (list_student_grades account term exam_id) w = inr r ->
        let key := Py.or_else (Account.bind_id account) "" in
        StudentGradeResponse.has_unread r = has_unread w key
        /\ has_unread (after (list_student_grades account term exam_id) w) key
           = false)
  /\ (forall (account : Account.t) (t1 e1 t2 e2 : option string)
        (cs : list call) (w : World) (r1 r2 : StudentGradeResponse.t),
        let key := Py.or_else (Account.bind_id account) "" in
        let w1 := after (list_student_grades account t1 e1) w in
        let w2 := run verify_password hash_password_salted cs w1 in
        outcome (list_student_grades account t1 e1) w = inr r1 ->
        no_first_publish verify_password hash_password_salted key cs w1 ->
        outcome (list_student_grades account t2 e2) w2 = inr r2 ->
        StudentGradeResponse.has_unread r2 = false)
  /\ (forall (account teacher : Account.t) (t1 e1 t2 e2 : option string)
        (e s : string) (w : World) (r1 r2 : StudentGradeResponse.t),
        let key := Py.or_else (Account.bind_id account) "" in
        let w1 := after (list_student_grades account t1 e1) w in
        let w2 := after (publish_grades teacher e s) w1 in
        outcome (list_student_grades account t1 e1) w = inr r1 ->
        transitioned w1 w2 key ->
        outcome (list_student_grades account t2 e2) w2 = inr r2 ->
        StudentGradeResponse.has_unread r2 = true).
Proof.
  split; [intros; apply publish_sets_flag|].
  split; [intros; apply list_student_grades_flag; assumption|].
  split.
  - intros account t1 e1 t2 e2 cs w r1 r2 key w1 w2 H1 Hno H2.
    destruct (list_student_grades_flag account t1 e1 w r1 H1) as [_ Hclear].
    destruct (list_student_grades_flag account t2 e2 w2 r2 H2) as [-> _].
    apply (no_first_publish_keeps_clear verify_password hash_password_salted);
      assumption.
  - intros account teacher t1 e1 t2 e2 e s w r1 r2 key w1 w2 H1 Htr H2.
    destruct (list_student_grades_flag account t2 e2 w2 r2 H2) as [-> _].
    apply publish_sets_flag. right. exact Htr.
Qed.

Lemma notification_flag_witness :
  let w1 :=
    after (list_student_grades demo_student_account None None)
      demo_world_graded in
  let w2 := after (publish_grades demo_teacher_account "EX2025N" "MTH") w1 in
  StudentGradeResponse.has_unread (demo_read w2) = true.
Proof.
  intros w1 w2.
  apply (proj2 (proj2 (proj2 (notification_flag demo_verify demo_hash)))
           demo_student_account demo_teacher_account None None None None
           "EX2025N" "MTH" demo_world_graded (demo_read demo_world_graded)
           (demo_read w2)).
  - vm_compute. reflexivity.
  - exists 18%nat.
    exists (Grade.mk "EX2025N" "MTH" "S001" (96 # 1) "T200" 1750000018000000
              1750000018000000 false).
    exists (Grade.mk "EX2025N" "MTH" "S001" (96 # 1) "T200" 1750000018000000
              1750000018000000 true).
    repeat split; vm_compute; reflexivity.
  - vm_compute. reflexivity.
Defined.

(** ** Visibility *)

Lemma student_ids_scope (w : World) (classes : list string) (sno : string) :
  students_keyed (students w) ->
  Py.str_in sno
    (map Student.student_no
       (filter (fun s => Py.str_in (Student.class_name s) classes)
          (Dict.values (students w))))
  = match Dict.get sno (students w) with
    | Some student => Py.str_in (Student.class_name student) classes
    | None => false
    end.
Proof.
  intros [Hwf Hkey].
  apply eq_true_iff_eq. rewrite str_in_In, in_map_iff. split.
  - intros (st & Hno & Hin). apply filter_In in Hin as [Hin Hc].
    apply in_map_iff in Hin as ([k st'] & Hsnd & Hin). cbn in Hsnd; subst st'.
    pose proof (Hkey k st Hin) as Hk. rewrite Hno in Hk. subst k.
    rewrite (In_get _ _ _ Hwf Hin). exact Hc.
  - destruct (Dict.get sno (students w)) as [st|] eqn:Hg; [|discriminate].
    intros Hc. apply get_In in Hg. exists st.
    split; [apply (Hkey sno st Hg)|].
    apply filter_In. split; [|exact Hc].
    apply in_map_iff. exists (sno, st); auto.
Qed.

Lemma visible_grades_run (account : Account.t) (w : World)
    (teacher : Teacher.t) :
  teacher_of account w = Some teacher ->
  students_keyed (students w) ->
  _visible_grades_for_teacher account w
  = (inr (filter (teacher_scope w teacher) (Dict.values (grades w))), w).
Proof.
  intros Ht Hk. unfold _visible_grades_for_teacher, teacher_of in *.
  unfold bind at 1. rewrite teacher_for_account_run.
  destruct (Role_eqb (Account.role account) TEACHER); [|discriminate Ht].
  cbn [negb]. rewrite Ht. cbn. unfold ret. f_equal. f_equal.
  apply filter_ext. intros g. unfold teacher_scope. f_equal.
  apply (student_ids_scope w (Teacher.classes teacher) (Grade.student_no g) Hk).
Qed.

Lemma teacher_views_run (w : World) (teacher : Teacher.t) (gs : list Grade.t) :
  (forall g, In g gs -> teacher_scope w teacher g = true) ->
  mapM teacher_view gs w = (inr (map (teacher_view_of w) gs), w).
Proof.
  induction gs as [|g gs IH]; intros Hs; [reflexivity|].
  cbn [mapM map]. unfold bind at 1, teacher_view at 1.
  unfold bind at 1, get_world, index.
  assert (Hg : teacher_scope w teacher g = true) by (apply Hs; left; auto).
  unfold teacher_scope in Hg. apply andb_true_iff in Hg as [_ Hg].
  unfold teacher_view_of at 1.
  destruct (Dict.get (Grade.student_no g) (students w)) as [st|];
    [|discriminate Hg].
  cbn. unfold bind. rewrite IH by (intros g' Hg'; apply Hs; right; exact Hg').
  reflexivity.
Qed.

Lemma teacher_list_grades_run (account : Account.t) (sort_by : string)
    (w : World) (teacher : Teacher.t) :
  teacher_of account w = Some teacher ->
  students_keyed (students w) ->
  teacher_list_grades account None None sort_by w
  = (inr (Py.sorted (teacher_view_leb sort_by)
            (map (teacher_view_of w)
               (filter (teacher_scope w teacher) (Dict.values (grades w))))),
     w).
Proof.
  intros Ht Hk. unfold teacher_list_grades.
  unfold bind at 1. rewrite (visible_grades_run account w teacher Ht Hk).
  unfold teacher_filter. cbn [Py.truthy]. cbv iota.
  unfold bind at 1, ret at 1.
  unfold bind at 1.
  rewrite (teacher_views_run w teacher)
    by (intros g Hg; apply filter_In in Hg as [_ Hg]; exact Hg).
  reflexivity.
Qed.

Lemma ledger_keyed_unique (d : dict key3 Grade.t) (g g' : Grade.t) :
  ledger_keyed d ->
  In g (Dict.values d) -> In g' (Dict.values d) ->
  Grade.exam_id g = Grade.exam_id g' ->
  Grade.subject_code g = Grade.subject_code g' ->
  Grade.student_no g = Grade.student_no g' ->
  g = g'.
Proof.
  intros [Hwf Hkey] Hin Hin' He Hs Hn.
  apply in_map_iff in Hin as ([k g0] & Heq & Hin). cbn in Heq; subst g0.
  apply in_map_iff in Hin' as ([k' g0] & Heq & Hin'). cbn in Heq; subst g0.
  pose proof (Hkey k g Hin) as Hk. pose proof (Hkey k' g' Hin') as Hk'.
  rewrite He, Hs, Hn in Hk. rewrite <- Hk' in Hk. subst k'.
  pose proof (In_get _ _ _ Hwf Hin) as H1.
  pose proof (In_get _ _ _ Hwf Hin') as H2.
  congruence.
Qed.

(** C7.  For a teacher account bound to a Teacher record, in a world whose
    students are stored under their numbers, the grades visible to the
    teacher are exactly the grades of the ledger whose subject is one of the
    teacher's and whose student is of one of the teacher's classes, whatever
    their published state, and the teacher grade listing without filters
    returns the rows of exactly these grades, in the order asked.  A
    student grade listing that returns has only rows of grades of the
    ledger that are published and carry the student's own number; in a
    ledger keyed by the fields of its grades no row is the row of an
    unpublished grade of the student.  Every world reached from the seed
    data by calls of the interface has its students stored under their
    numbers and its ledger keyed by the fields of its grades. *)
Theorem visibility_partition :
  (forall (account : Account.t) (sort_by : string) (w : World)
      (teacher : Teacher.t),
      teacher_of account w = Some teacher ->
      students_keyed (students w) ->
      let visible :=
        filter (teacher_scope w teacher) (Dict.values (grades w)) in
      (forall g,
         In g visible <->
         In g (Dict.values (grades w))
         /\ In (Grade.subject_code g) (Teacher.subjects teacher)
         /\ exists student,
              Dict.get (Grade.student_no g) (students w) = Some student
              /\ In (Student.class_name student) (Teacher.classes teacher))
      /\ (forall g b,
            teacher_scope w teacher (Grade.set_published b g)
            = teacher_scope w teacher g)
      /\ outcome (_visible_grades_for_teacher account) w = inr visible
      /\ exists views,
           outcome (teacher_list_grades account None None sort_by) w
           = inr views
           /\ Permutation views (map (teacher_view_of w) visible))
  /\ (forall (account : Account.t) (term exam_id : option string) (w : World)
        (r : StudentGradeResponse.t),
        outcome (list_student_grades account term exam_id) w = inr r ->
        exists student,
          Dict.get (Py.or_else (Account.bind_id account) "") (students w)
          = Some student
          /\ (forall v,
                In v (StudentGradeResponse.grades r) ->
                exists g,
                  In g (Dict.values (grades w))
                  /\ Grade.published g = true
                  /\ Grade.student_no g = Student.student_no student
                  /\ StudentGradeView.exam_id v = Grade.exam_id g
                  /\ StudentGradeView.subject_code v = Grade.subject_code g
                  /\ StudentGradeView.score v = Grade.score g)
          /\ (ledger_keyed (grades w) ->
              forall g,
                In g (Dict.values (grades w)) ->
                Grade.student_no g = Student.student_no student ->
                Grade.published g = false ->
                forall v,
                  In v (StudentGradeResponse.grades r) ->
                  ~ (StudentGradeView.exam_id v = Grade.exam_id g
                     /\ StudentGradeView.subject_code v
                        = Grade.subject_code g)))
  /\ (forall (verify_password : string -> string -> bool)
        (hash_password_salted : string -> string -> string)
        (clock : nat -> datetime) (entropy : nat -> nat -> string)
        (cs : list call),
        let w :=
          run verify_password hash_password_salted cs
            (data hash_password_salted clock entropy) in
        students_keyed (students w) /\ ledger_keyed (grades w)).
Proof.
  split; [|split; [|intros; apply keyed_reachable]].
  - intros account sort_by w teacher Ht Hk visible.
    split; [|split; [|split]].
    + intros g. unfold visible. rewrite filter_In. unfold teacher_scope.
      rewrite andb_true_iff, str_in_In.
      destruct (Dict.get (Grade.student_no g) (students w)) as [st|].
      * rewrite str_in_In. split.
        -- intros (Hin & Hs & Hc). repeat split; auto. exists st; auto.
        -- intros (Hin & Hs & st' & [= <-] & Hc). auto.
      * split; [intros (_ & _ & [=]) | intros (_ & _ & st' & [=] & _)].
    + intros g b. reflexivity.
    + unfold outcome. rewrite (visible_grades_run account w teacher Ht Hk).
      reflexivity.
    + unfold outcome.
      rewrite (teacher_list_grades_run account sort_by w teacher Ht Hk).
      eexists. split; [reflexivity|]. apply sorted_perm.
  - intros account term exam_id w r H.
    destruct (list_student_grades_ok account term exam_id w r H)
      as (student & rel & views & _ & Hst & Hrel & Hviews & -> & _).
    exists student. split; [exact Hst|].
    assert (Hsrc : forall v,
              In v (Py.sorted student_view_leb views) ->
              exists g,
                In g (Dict.values (grades w))
                /\ Grade.published g = true
                /\ Grade.student_no g = Student.student_no student
                /\ StudentGradeView.exam_id v = Grade.exam_id g
                /\ StudentGradeView.subject_code v = Grade.subject_code g
                /\ StudentGradeView.score v = Grade.score g).
    { intros v Hv.
      apply (Permutation_in _ (sorted_perm student_view_leb views)) in Hv.
      destruct (student_views_source student rel w views Hviews v Hv)
        as (g & Hg & He & Hs & Hsc).
      destruct (Hrel g Hg) as (Hin & Hp & Hn).
      exists g. repeat split; auto. }
    split; [exact Hsrc|].
    intros Hkeyed g Hin Hn Hp v Hv [He Hs].
    destruct (Hsrc v Hv) as (g' & Hin' & Hp' & Hn' & He' & Hs' & _).
    assert (g = g').
    { apply (ledger_keyed_unique (grades w)); auto; congruence. }
    subst g'. congruence.
Qed.

Lemma visibility_partition_witness :
  exists views,
    outcome (teacher_list_grades demo_teacher_account None None "score_desc")
      demo_world
    = inr views
    /\ Permutation views
         (map (teacher_view_of demo_world)
            (filter
               (teacher_scope demo_world
                  (Teacher.mk "T200" "刘老师" ["MTH"] ["Class 1"; "Class 2"]))
               (Dict.values (grades demo_world)))).
Proof.
  assert (Hs : students demo_world = seed_students)
    by (vm_compute; reflexivity).
  assert (Hk : students_keyed (students demo_world)).
  { rewrite Hs. split.
    - unfold Dict.wf, seed_students, seed_student. cbn.
      repeat constructor; cbn; intuition discriminate.
    - intros k s Hin. unfold seed_students, seed_student in Hin. cbn in Hin.
      repeat (destruct Hin as [[= <- <-]|Hin]; [reflexivity|]).
      destruct Hin. }
  exact (proj2 (proj2 (proj2
    (proj1 visibility_partition demo_teacher_account "score_desc" demo_world
       (Teacher.mk "T200" "刘老师" ["MTH"] ["Class 1"; "Class 2"])
       ltac:(vm_compute; reflexivity) Hk)))).
Defined.

(** * Further properties of the operations *)

(** ** Sessions and passwords ([auth.py]) *)

Section DictPop.
Context {K V : Type} `{KeyEqLaws K}.

Lemma set_set_same (k : K) (v v' : V) (d : dict K V) :
  Dict.set k v (Dict.set k v' d) = Dict.set k v d.
Proof.
  induction d as [|[k0 v0] d IH]; cbn.
  - rewrite keqb_refl. reflexivity.
  - destruct (keqb k k0) eqn:E; cbn; rewrite E; [reflexivity|].
    rewrite IH. reflexivity.
Qed.

Lemma pop_absent (k : K) (d : dict K V) :
  Dict.get k d = None -> Dict.pop k d = d.
Proof.
  induction d as [|[k0 v0] d IH]; cbn; [reflexivity|].
  destruct (keqb k k0); [discriminate|]. intros Hg. rewrite IH; auto.
Qed.

Lemma get_pop_other (k k' : K) (d : dict K V) :
  k' <> k -> Dict.get k' (Dict.pop k d) = Dict.get k' d.
Proof.
  intros Hne. induction d as [|[k0 v0] d IH]; cbn; [reflexivity|].
  destruct (keqb k k0) eqn:E.
  - apply keqb_eq in E; subst k0. rewrite (keqb_neq k' k Hne). reflexivity.
  - cbn. rewrite IH. reflexivity.
Qed.

Lemma get_pop_same (k : K) (d : dict K V) :
  Dict.wf d -> Dict.get k (Dict.pop k d) = None.
Proof.
  unfold Dict.wf. induction d as [|[k0 v0] d IH]; cbn; [reflexivity|].
  intros Hnd. inversion Hnd as [|? ? Hnotin Hnd']; subst.
  destruct (keqb k k0) eqn:E.
  - apply keqb_eq in E; subst k0. apply get_None_notin. exact Hnotin.
  - cbn. rewrite E. apply IH; exact Hnd'.
Qed.

Lemma wf_pop (k : K) (d : dict K V) : Dict.wf d -> Dict.wf (Dict.pop k d).
Proof.
  unfold Dict.wf. induction d as [|[k0 v0] d IH]; cbn; [auto|].
  intros Hnd. inversion Hnd as [|? ? Hnotin Hnd']; subst.
  destruct (keqb k k0); [exact Hnd'|].
  cbn. constructor; [|apply IH; exact Hnd'].
  intros Hin. apply Hnotin.
  clear - Hin. induction d as [|[k1 v1] d IH]; cbn in *; [exact Hin|].
  destruct (keqb k k1); cbn in *; [right; exact Hin|].
  destruct Hin as [->|Hin]; [left; reflexivity | right; apply IH; exact Hin].
Qed.

End DictPop.

Lemma update_account_run (key : string) (f : Account.t -> Account.t)
    (a : Account.t) (w : World) :
  Dict.get key (accounts w) = Some a ->
  update_account key f w
  = (inr tt, set_accounts (Dict.set key (f a) (accounts w)) w).
Proof. intros Hg. unfold update_account, modify. rewrite Hg. reflexivity. Qed.

Section AuthRuns.
Variable verify_password : string -> string -> bool.
Variable hash_password_salted : string -> string -> string.

(** The successful path of [authenticate]. *)
Lemma authenticate_right_run (u p : string) (a : Account.t) (w : World) :
  Dict.get u (accounts w) = Some a ->
  is_locked a w = false ->
  verify_password p (Account.password_hash a) = true ->
  authenticate verify_password u p w
  = (inr (LoginResult.mk (entropy w (draws w) 32) (Account.role a)
            (Account.force_password_change a)),
     set_tokens
       (Dict.set (entropy w (draws w) 32) (Account.username a) (_tokens w))
       (set_draws (S (draws w))
          (set_accounts
             (Dict.set u
                (Account.set_locked_until None
                   (Account.set_failed_attempts 0 a))
                (accounts w))
             (past_lock_check a w)))).
Proof.
  intros Hg Hl Hv.
  unfold authenticate, is_locked, past_lock_check in *.
  cbv beta iota zeta delta [bind get_world ret _now].
  rewrite Hg; cbv beta iota.
  destruct (Account.locked_until a) as [until|] eqn:Hlu;
    rewrite ?Hl, Hv; cbv beta iota delta [negb];
    (rewrite update_account_run
       with (a := a) by exact Hg);
    cbv beta iota;
    (rewrite update_account_run
       with (a := Account.set_failed_attempts 0 a)
       by (cbn; apply get_set_same));
    cbv beta iota delta [generate_random_password urandom modify];
    cbn [accounts set_accounts set_ticks set_draws entropy draws _tokens];
    rewrite set_set_same; reflexivity.
Qed.

Lemma bind_get_world {A : Type} (k : World -> M A) (w : World) :
  bind get_world k w = k w w.
Proof. reflexivity. Qed.

Lemma bind_urandom {A : Type} (n : nat) (k : string -> M A) (w : World) :
  bind (urandom n) k w
  = k (entropy w (draws w) n) (set_draws (S (draws w)) w).
Proof. reflexivity. Qed.

Lemma bind_hash_password {A : Type} (password : string) (k : string -> M A)
    (w : World) :
  bind (hash_password hash_password_salted password) k w
  = k (hash_password_salted password (entropy w (draws w) 16))
      (set_draws (S (draws w)) w).
Proof. reflexivity. Qed.

Lemma bind_update_account {A : Type} (key : string)
    (f : Account.t -> Account.t) (a : Account.t) (k : unit -> M A)
    (w : World) :
  Dict.get key (accounts w) = Some a ->
  bind (update_account key f) k w
  = k tt (set_accounts (Dict.set key (f a) (accounts w)) w).
Proof.
  intros Hg. unfold bind. rewrite (update_account_run key f a w Hg).
  reflexivity.
Qed.

(** The first three of the four assignments of [reset_password] and
    [change_password]. *)
Lemma password_updates_run {A : Type} (key h : string) (force : bool)
    (a : Account.t) (m : M A) (w : World) :
  Dict.get key (accounts w) = Some a ->
  (update_account key (Account.set_password_hash h) ;;
   update_account key (Account.set_force_password_change force) ;;
   update_account key (Account.set_failed_attempts 0) ;;
   m) w
  = m (set_accounts
         (Dict.set key
            (Account.set_failed_attempts 0
               (Account.set_force_password_change force
                  (Account.set_password_hash h a)))
            (accounts w)) w).
Proof.
  intros Hg.
  rewrite (bind_update_account _ _ a) by exact Hg.
  rewrite (bind_update_account _ _ (Account.set_password_hash h a))
    by (cbn; apply get_set_same).
  rewrite (bind_update_account _ _
             (Account.set_force_password_change force
                (Account.set_password_hash h a)))
    by (cbn; apply get_set_same).
  cbn [accounts set_accounts]. rewrite !set_set_same.
  destruct w; reflexivity.
Qed.

Lemma reset_password_run (u : string) (a : Account.t) (w : World) :
  Dict.get u (accounts w) = Some a ->
  reset_password hash_password_salted u w
  = (inr (entropy w (draws w) 12),
     set_accounts
       (Dict.set u
          (Account.set_locked_until None
             (Account.set_failed_attempts 0
                (Account.set_force_password_change true
                   (Account.set_password_hash
                      (hash_password_salted (entropy w (draws w) 12)
                         (entropy w (S (draws w)) 16))
                      a))))
          (accounts w))
       (set_draws (S (S (draws w))) w)).
Proof.
  intros Hg. unfold reset_password.
  rewrite bind_get_world, Hg.
  unfold generate_random_password.
  rewrite bind_urandom, bind_hash_password.
  rewrite (password_updates_run u _ true a) by exact Hg.
  erewrite bind_update_account by (cbn; apply get_set_same).
  cbn [accounts set_accounts]. rewrite set_set_same.
  destruct w; reflexivity.
Qed.

Lemma change_password_run (key old new : string) (a : Account.t) (w : World) :
  Dict.get key (accounts w) = Some a ->
  change_password verify_password hash_password_salted key old new w
  = if verify_password old (Account.password_hash a)
    then
      (inr tt,
       set_accounts
         (Dict.set key
            (Account.set_locked_until None
               (Account.set_failed_attempts 0
                  (Account.set_force_password_change false
                     (Account.set_password_hash
                        (hash_password_salted new (entropy w (draws w) 16))
                        a))))
            (accounts w))
         (set_draws (S (draws w)) w))
    else (inl (AppError 400 "旧密码不正确"), w).
Proof.
  intros Hg. unfold change_password.
  rewrite bind_get_world. unfold index. rewrite Hg.
  unfold bind at 1, ret at 1.
  destruct (verify_password old (Account.password_hash a));
    cbv beta iota delta [negb]; [|reflexivity].
  rewrite bind_hash_password.
  rewrite (password_updates_run key _ false a) by exact Hg.
  erewrite update_account_run by (cbn; apply get_set_same).
  cbn [accounts set_accounts]. rewrite set_set_same.
  destruct w; reflexivity.
Qed.

End AuthRuns.

Lemma get_account_run (token : string) (w : World) :
  get_account token w
  = (match Dict.get token (_tokens w) with
     | None => inl Unauthenticated
     | Some username =>
         if String.eqb username "" then inl Unauthenticated
         else
           match Dict.get username (accounts w) with
           | None => inl Unauthenticated
           | Some account => inr account
           end
     end, w).
Proof.
  unfold get_account. rewrite bind_get_world.
  destruct (Dict.get token (_tokens w)) as [username|]; cbn; [|reflexivity].
  destruct (String.eqb username ""); cbn; [reflexivity|].
  destruct (Dict.get username (accounts w)); reflexivity.
Qed.

(** X1.  A successful login opens a session for the account.  When the
    account is stored under its own, non-empty user name, is not locked
    and the password verifies, [authenticate] returns the next draw of the
    entropy as the token, and in the world it leaves [get_account] on that
    token returns the stored account, with its failure counter at 0 and no
    lock; [require_role] on the token returns the same account for the
    role of the account and raises 403 for any other role, and
    [require_teacher_or_principal] raises 403 exactly for a student. *)
Theorem login_opens_session
    (verify_password : string -> string -> bool)
    (u p : string) (a : Account.t) (w : World) :
  Dict.get u (accounts w) = Some a ->
  Account.username a = u ->
  u <> "" ->
  is_locked a w = false ->
  verify_password p (Account.password_hash a) = true ->
  let token := entropy w (draws w) 32 in
  let w' := after (authenticate verify_password u p) w in
  let a' := Account.set_locked_until None (Account.set_failed_attempts 0 a) in
  outcome (authenticate verify_password u p) w
  = inr (LoginResult.mk token (Account.role a)
           (Account.force_password_change a))
  /\ get_account token w' = (inr a', w')
  /\ (forall r : Role,
        require_role token r w'
        = (if Role_eqb (Account.role a) r then inr a' else inl Forbidden, w'))
  /\ require_teacher_or_principal token w'
     = (match Account.role a with
        | STUDENT => inl Forbidden
        | _ => inr a'
        end, w').
Proof.
  intros Hg Hu Hne Hl Hv token w' a'.
  pose proof (authenticate_right_run verify_password u p a w Hg Hl Hv) as Hrun.
  assert (Hacc : get_account token w' = (inr a', w')).
  { rewrite get_account_run. unfold w', after. rewrite Hrun.
    cbn [snd _tokens accounts set_tokens set_draws set_accounts].
    fold token. rewrite get_set_same, Hu.
    destruct (String.eqb_spec u "") as [E|_]; [contradiction|].
    unfold past_lock_check.
    destruct (Account.locked_until a);
      cbn [accounts set_ticks]; rewrite get_set_same; reflexivity. }
  split; [unfold outcome; rewrite Hrun; reflexivity|].
  split; [exact Hacc|]. split.
  - intros r. unfold require_role, bind. rewrite Hacc.
    change (Account.role a') with (Account.role a).
    destruct (Role_eqb (Account.role a) r); reflexivity.
  - unfold require_teacher_or_principal, bind. rewrite Hacc.
    change (Account.role a') with (Account.role a).
    destruct (Account.role a); reflexivity.
Qed.

Lemma login_opens_session_witness :
  exists token a',
    outcome (authenticate demo_verify "t_mth" "Pass@123") demo_world
    = inr (LoginResult.mk token TEACHER true)
    /\ outcome (require_role token TEACHER)
         (after (authenticate demo_verify "t_mth" "Pass@123") demo_world)
       = inr a'
    /\ outcome (require_role token PRINCIPAL)
         (after (authenticate demo_verify "t_mth" "Pass@123") demo_world)
       = inl Forbidden.
Proof.
  destruct (login_opens_session demo_verify "t_mth" "Pass@123"
              demo_teacher_account demo_world
              ltac:(vm_compute; reflexivity) ltac:(reflexivity)
              ltac:(discriminate) ltac:(vm_compute; reflexivity)
              ltac:(vm_compute; reflexivity))
    as (Hlogin & _ & Hrole & _).
  eexists; eexists. split; [exact Hlogin|]. split.
  - unfold outcome. rewrite (Hrole TEACHER). reflexivity.
  - unfold outcome. rewrite (Hrole PRINCIPAL). reflexivity.
Defined.

(** X2.  [logout] closes the session of its token and no other.  In a
    token store with one entry per token, after [logout] the token is
    refused by [get_account] with 401; every other token resolves as
    before; and a token that opens no session leaves the world as it
    is. *)
Theorem logout_closes_session (token : string) (w : World) :
  Dict.wf (_tokens w) ->
  let w' := after (logout token) w in
  outcome (logout token) w = inr tt
  /\ outcome (get_account token) w' = inl Unauthenticated
  /\ (forall t, t <> token ->
        outcome (get_account t) w' = outcome (get_account t) w)
  /\ (Dict.get token (_tokens w) = None -> w' = w)
  /\ Dict.wf (_tokens w').
Proof.
  intros Hwf w'. split; [reflexivity|].
  unfold w', after, logout, modify; cbn [snd]. split; [|split; [|split]].
  - unfold outcome. rewrite get_account_run. cbn [fst _tokens set_tokens].
    rewrite get_pop_same by exact Hwf. reflexivity.
  - intros t Hne. unfold outcome. rewrite !get_account_run.
    cbn [fst _tokens set_tokens accounts].
    rewrite get_pop_other by exact Hne. reflexivity.
  - intros Hnone. rewrite pop_absent by exact Hnone. destruct w; reflexivity.
  - cbn [_tokens set_tokens]. apply wf_pop; exact Hwf.
Qed.

Lemma logout_closes_session_witness :
  let w1 := after (authenticate demo_verify "t_mth" "Pass@123") demo_world in
  let token := entropy demo_world (draws demo_world) 32 in
  Dict.get token (_tokens w1) = Some "t_mth"
  /\ outcome (get_account token) (after (logout token) w1)
     = inl Unauthenticated.
Proof.
  intros w1 token. split; [vm_compute; reflexivity|].
  apply (logout_closes_session token w1).
  vm_compute. repeat constructor. intros [].
Defined.

(** X3.  [change_password] checks the old password first: when it does not
    verify, the call raises 400 and changes nothing.  When it verifies, and
    a password verifies against every hash made from it, the call returns,
    touches no other account and no session, and leaves the account
    unlocked: a login with the new password then succeeds at once,
    whatever the failure counter and the lock were, and no longer asks for
    a password change. *)
Theorem change_password_then_login
    (verify_password : string -> string -> bool)
    (hash_password_salted : string -> string -> string)
    (key old new : string) (a : Account.t) (w : World) :
  (forall p salt, verify_password p (hash_password_salted p salt) = true) ->
  Dict.get key (accounts w) = Some a ->
  let change :=
    change_password verify_password hash_password_salted key old new in
  let w' := after change w in
  if verify_password old (Account.password_hash a)
  then
    outcome change w = inr tt
    /\ (forall k, k <> key ->
          Dict.get k (accounts w') = Dict.get k (accounts w))
    /\ _tokens w' = _tokens w
    /\ (exists a',
          Dict.get key (accounts w') = Some a'
          /\ Account.failed_attempts a' = 0
          /\ Account.locked_until a' = None
          /\ Account.force_password_change a' = false
          /\ Account.role a' = Account.role a
          /\ Account.bind_id a' = Account.bind_id a)
    /\ exists token,
         outcome (authenticate verify_password key new) w'
         = inr (LoginResult.mk token (Account.role a) false)
  else change w = (inl (AppError 400 "旧密码不正确"), w).
Proof.
  intros Hround Hg change w'. unfold w', change, outcome, after.
  rewrite (change_password_run verify_password hash_password_salted
             key old new a w Hg).
  destruct (verify_password old (Account.password_hash a)); [|reflexivity].
  cbn [fst snd accounts _tokens set_accounts set_draws].
  split; [reflexivity|]. split; [|split; [reflexivity|split]].
  - intros k Hne. apply get_set_other; exact Hne.
  - eexists. split; [apply get_set_same|]. cbn. auto.
  - eexists.
    rewrite (authenticate_right_run verify_password key new
               (Account.set_locked_until None
                  (Account.set_failed_attempts 0
                     (Account.set_force_password_change false
                        (Account.set_password_hash
                           (hash_password_salted new (entropy w (draws w) 16))
                           a)))));
      [reflexivity | cbn; apply get_set_same | reflexivity | apply Hround].
Qed.

Lemma change_password_then_login_witness :
  outcome (change_password demo_verify demo_hash "s_s001" "Pass@123" "Nova#42")
    demo_world
  = inr tt
  /\ exists token,
       outcome (authenticate demo_verify "s_s001" "Nova#42")
         (after
            (change_password demo_verify demo_hash "s_s001" "Pass@123"
               "Nova#42") demo_world)
       = inr (LoginResult.mk token STUDENT false).
Proof.
  pose proof (change_password_then_login demo_verify demo_hash
                "s_s001" "Pass@123" "Nova#42" demo_student_account demo_world
                (fun p salt => String.eqb_refl ("pw:" ++ p))
                ltac:(vm_compute; reflexivity)) as H.
  cbv zeta in H.
  replace (demo_verify "Pass@123" (Account.password_hash demo_student_account))
    with true in H by (vm_compute; reflexivity).
  destruct H as (Hout & _ & _ & _ & Hlogin).
  split; [exact Hout | exact Hlogin].
Defined.

(** X4.  [reset_password] raises 404 for a user name that has no account
    and changes nothing then.  For an account it returns the next draw of
    the entropy as the new password, touches no other account and revokes
    no session; when a password verifies against every hash made from it,
    a login with the returned password succeeds at once, whatever the
    failure counter and the lock of the account were, and asks for a
    password change. *)
Theorem reset_password_then_login
    (verify_password : string -> string -> bool)
    (hash_password_salted : string -> string -> string)
    (u : string) (w : World) :
  (forall p salt, verify_password p (hash_password_salted p salt) = true) ->
  let reset := reset_password hash_password_salted u in
  let w' := after reset w in
  match Dict.get u (accounts w) with
  | None => reset w = (inl (AppError 404 "账号不存在"), w)
  | Some a =>
      let new_password := entropy w (draws w) 12 in
      outcome reset w = inr new_password
      /\ (forall k, k <> u ->
            Dict.get k (accounts w') = Dict.get k (accounts w))
      /\ _tokens w' = _tokens w
      /\ exists token,
           outcome (authenticate verify_password u new_password) w'
           = inr (LoginResult.mk token (Account.role a) true)
  end.
Proof.
  intros Hround reset w'.
  destruct (Dict.get u (accounts w)) as [a|] eqn:Hg.
  - unfold w', reset, outcome, after.
    rewrite (reset_password_run hash_password_salted u a w Hg).
    cbn [fst snd accounts _tokens set_accounts set_draws].
    split; [reflexivity|]. split; [|split; [reflexivity|]].
    + intros k Hne. apply get_set_other; exact Hne.
    + eexists.
      rewrite (authenticate_right_run verify_password u
                 (entropy w (draws w) 12)
                 (Account.set_locked_until None
                    (Account.set_failed_attempts 0
                       (Account.set_force_password_change true
                          (Account.set_password_hash
                             (hash_password_salted (entropy w (draws w) 12)
                                (entropy w (S (draws w)) 16))
                             a)))));
        [reflexivity | cbn; apply get_set_same | reflexivity | apply Hround].
  - unfold reset, reset_password. rewrite bind_get_world, Hg. reflexivity.
Qed.

Lemma reset_password_then_login_witness :
  let w6 := after (reset_password demo_hash "s_s001") demo_world_locked in
  outcome (authenticate demo_verify "s_s001" "Pass@123") demo_world_locked
  = inl AccountLocked
  /\ exists token,
       outcome
         (authenticate demo_verify "s_s001"
            (entropy demo_world_locked (draws demo_world_locked) 12)) w6
       = inr (LoginResult.mk token STUDENT true).
Proof.
  split; [vm_compute; reflexivity|].
  pose proof (reset_password_then_login demo_verify demo_hash "s_s001"
                demo_world_locked
                (fun p salt => String.eqb_refl ("pw:" ++ p))) as H.
  cbv zeta in H.
  assert (Hg : Dict.get "s_s001" (accounts demo_world_locked)
               = Some demo_locked_account) by (vm_compute; reflexivity).
  rewrite Hg in H.
  destruct H as (_ & _ & _ & Hlogin). exact Hlogin.
Defined.

(** X5.  A lock outlives its expiry in the failure counter.  While the
    lock of an account is in the future, [authenticate] raises 423 for
    every password and leaves accounts and sessions as they are: the
    attempt is not counted and the lock is not extended.  Once the lock has
    expired the counter is still at or above the threshold, so that a
    single wrong password locks the account again, for 15 minutes from the
    clock reading of that call. *)
Theorem lock_is_sticky
    (verify_password : string -> string -> bool)
    (u p : string) (a : Account.t) (w : World) :
  Dict.get u (accounts w) = Some a ->
  LOCKOUT_THRESHOLD <= Account.failed_attempts a ->
  let w' := after (authenticate verify_password u p) w in
  (is_locked a w = true ->
   outcome (authenticate verify_password u p) w = inl AccountLocked
   /\ accounts w' = accounts w /\ _tokens w' = _tokens w)
  /\ (is_locked a w = false ->
      verify_password p (Account.password_hash a) = false ->
      outcome (authenticate verify_password u p) w = inl InvalidCredentials
      /\ exists a',
           Dict.get u (accounts w') = Some a'
           /\ Account.failed_attempts a' = Account.failed_attempts a + 1
           /\ Account.locked_until a'
              = Some (clock w (ticks (past_lock_check a w))
                      + timedelta_minutes LOCKOUT_MINUTES)).
Proof.
  intros Hg Hth w'. unfold LOCKOUT_THRESHOLD in Hth. split.
  - intros Hl. unfold w', outcome, after.
    rewrite (authenticate_locked verify_password u p a w Hg Hl).
    repeat split.
  - intros Hl Hv.
    destruct (authenticate_wrong verify_password u p a w Hg Hl Hv)
      as (Hout & _ & a' & Hg' & Hf' & _ & _ & Hlock).
    split; [exact Hout|]. exists a'.
    destruct Hlock as [Hlu _]; [lia|]. auto.
Qed.

Lemma lock_is_sticky_witness :
  outcome (authenticate demo_verify "s_s001" "Pass@123") demo_world_locked
  = inl AccountLocked
  /\ accounts
       (after (authenticate demo_verify "s_s001" "Pass@123") demo_world_locked)
     = accounts demo_world_locked.
Proof.
  destruct (lock_is_sticky demo_verify "s_s001" "Pass@123"
              demo_locked_account demo_world_locked
              ltac:(vm_compute; reflexivity)
              ltac:(vm_compute; discriminate))
    as [Hlocked _].
  destruct (Hlocked ltac:(vm_compute; reflexivity)) as (Hout & Hacc & _).
  split; assumption.
Defined.

(** ** The stores that an operation assigns *)

Lemma same_on_refl {T : Type} (f : World -> T) (w : World) : same_on f w w.
Proof. reflexivity. Qed.

Lemma same_on_trans {T : Type} (f : World -> T) (w1 w2 w3 : World) :
  same_on f w1 w2 -> same_on f w2 w3 -> same_on f w1 w3.
Proof. unfold same_on; congruence. Qed.

(** One step of the decomposition of an operation into its updates, for a
    relation [R] with proofs of reflexivity and transitivity and a tactic
    for the updates. *)
Ltac pres_step R Rrefl Rtrans leaf :=
  lazymatch goal with
  | |- preserves _ (bind _ _) => apply (preserves_bind R Rtrans); [|intro]
  | |- preserves _ (ret _) => apply (preserves_ret R Rrefl)
  | |- preserves _ (raise _) => apply (preserves_raise R Rrefl)
  | |- preserves _ get_world => apply (preserves_get_world R Rrefl)
  | |- preserves _ (index _ _) => apply (preserves_index R Rrefl)
  | |- preserves _ (filterM _ _) =>
      apply (preserves_filterM R Rrefl Rtrans); intro
  | |- preserves _ (mapM _ _) =>
      apply (preserves_mapM R Rrefl Rtrans); intro
  | |- preserves _ (try_AppError _) => apply (preserves_try R)
  | |- preserves _ (modify _) => apply (preserves_modify R); leaf
  | |- preserves _ _now => intro; leaf
  | |- preserves _ (urandom _) => intro; leaf
  | |- preserves _ (match ?x with _ => _ end) => destruct x
  | |- preserves _ (let _ := _ in _) => cbv zeta
  | |- preserves _ _ => assumption
  end.

Ltac same_leaf :=
  intros;
  repeat match goal with
         | |- context [match ?x with _ => _ end] => destruct x
         end;
  reflexivity.

Ltac same_on_auto f :=
  unfold generate_random_password, hash_password, update_account, _record_log,
    _require_exam, _require_subject, _require_student, _teacher_for_account;
  repeat pres_step (same_on f) (same_on_refl f) (same_on_trans f) same_leaf.

Section Frames.
Variable verify_password : string -> string -> bool.
Variable hash_password_salted : string -> string -> string.

Lemma frame_authenticate (u p : string) :
  preserves (same_on beside_login) (authenticate verify_password u p).
Proof. unfold authenticate; same_on_auto beside_login. Qed.

Lemma frame_change_password (a o n : string) :
  preserves (same_on beside_password)
    (change_password verify_password hash_password_salted a o n).
Proof. unfold change_password; same_on_auto beside_password. Qed.

Lemma frame_reset_password (u : string) :
  preserves (same_on beside_password) (reset_password hash_password_salted u).
Proof. unfold reset_password; same_on_auto beside_password. Qed.

Lemma frame_logout (t : string) :
  preserves (same_on beside_logout) (logout t).
Proof. unfold logout; same_on_auto beside_logout. Qed.


Lemma frame_student_views (student : Student.t) (gs : list Grade.t) :
  preserves (same_on beside_flag) (student_views student gs).
Proof. induction gs as [|g gs IH]; simpl; same_on_auto beside_flag. Qed.

Lemma frame_list_student_grades (account : Account.t)
    (term exam_id : option string) :
  preserves (same_on beside_flag) (list_student_grades account term exam_id).
Proof.
  pose proof frame_student_views.
  unfold list_student_grades; same_on_auto beside_flag.
  all: auto.
Qed.

Lemma frame_teacher_update_grade (account : Account.t) (e s n : string)
    (x : Q) :
  preserves (same_on beside_upsert) (teacher_update_grade account e s n x).
Proof. unfold teacher_update_grade; same_on_auto beside_upsert. Qed.

Lemma frame_import_loop (account : Account.t) (rows : list import_row) :
  forall (idx processed : nat) (errors : list string),
    preserves (same_on beside_upsert)
      (import_loop account idx rows processed errors).
Proof.
  induction rows as [|[exc|[[[e s] n] x]] rows IH]; intros idx processed errors;
    cbn [import_loop]; [same_on_auto beside_upsert | apply IH |].
  apply (preserves_bind _ (same_on_trans beside_upsert)).
  - apply preserves_try, frame_teacher_update_grade.
  - intros [detail|g]; apply IH.
Qed.

Lemma frame_publish_loop (e s : string) (classes : list string)
    (entries : dict key3 Grade.t) :
  forall updated : nat,
    preserves (same_on beside_publish)
      (publish_loop e s classes entries updated).
Proof.
  induction entries as [|[k g] entries IH]; intros updated;
    cbn [publish_loop]; same_on_auto beside_publish.
  all: try apply IH.
  all: destruct a0; same_on_auto beside_publish.
Qed.

Lemma frame_publish_grades (account : Account.t) (e s : string) :
  preserves (same_on beside_publish) (publish_grades account e s).
Proof.
  pose proof frame_publish_loop.
  unfold publish_grades; same_on_auto beside_publish.
  all: try (destruct a1; same_on_auto beside_publish).
  all: auto.
Qed.

Lemma frame_teacher_export_grades (account : Account.t)
    (e c : option string) :
  preserves (same_on beside_log) (teacher_export_grades account e c).
Proof.
  unfold teacher_export_grades, _visible_grades_for_teacher, teacher_filter;
    same_on_auto beside_log.
Qed.

Lemma frame_principal_export_grades (e c s : option string) :
  preserves (same_on beside_log) (principal_export_grades e c s).
Proof. unfold principal_export_grades; same_on_auto beside_log. Qed.

Lemma frame_mark_password_reset (actor username : string) :
  preserves (same_on beside_log) (mark_password_reset actor username).
Proof. unfold mark_password_reset; same_on_auto beside_log. Qed.

End Frames.

Ltac unchanged_auto :=
  unfold get_account, _visible_grades_for_teacher, teacher_filter,
    teacher_view;
  unfold _teacher_for_account;
  repeat (cbv beta; unchanged_step).

Lemma unchanged_get_account (t : string) :
  preserves unchanged (get_account t).
Proof. unchanged_auto. Qed.

Lemma unchanged_require_role (t : string) (r : Role) :
  preserves unchanged (require_role t r).
Proof. unfold require_role; unchanged_auto. Qed.

Lemma unchanged_require_teacher_or_principal (t : string) :
  preserves unchanged (require_teacher_or_principal t).
Proof. unfold require_teacher_or_principal; unchanged_auto. Qed.

Lemma unchanged_teacher_list_grades (account : Account.t)
    (e c : option string) (sort_by : string) :
  preserves unchanged (teacher_list_grades account e c sort_by).
Proof. unfold teacher_list_grades; unchanged_auto. Qed.

Lemma unchanged_principal_overview (e : option string) :
  preserves unchanged (principal_overview e).
Proof. unfold principal_overview; unchanged_auto. Qed.

Lemma unchanged_list_audit_logs (account : Account.t) :
  preserves unchanged (list_audit_logs account).
Proof. unfold list_audit_logs; unchanged_auto. Qed.

(** What each call leaves alone, store by store. *)
Lemma step_frame
    (verify_password : string -> string -> bool)
    (hash_password_salted : string -> string -> string)
    (c : call) (w : World) :
  let w' := step verify_password hash_password_salted c w in
  match c with
  | Authenticate _ _ => same_on beside_login w w'
  | ChangePassword _ _ _ | ResetPassword _ => same_on beside_password w w'
  | Logout _ => same_on beside_logout w w'
  | ListStudentGrades _ _ _ => same_on beside_flag w w'
  | TeacherUpdateGrade _ _ _ _ _ | TeacherImportGrades _ _ =>
      same_on beside_upsert w w'
  | PublishGrades _ _ _ => same_on beside_publish w w'
  | TeacherExportGrades _ _ _ | PrincipalExportGrades _ _ _
  | MarkPasswordReset _ _ => same_on beside_log w w'
  | _ => w' = w
  end.
Proof.
  destruct c; cbn [step]; cbv zeta.
  - apply frame_authenticate.
  - apply unchanged_get_account.
  - apply unchanged_require_role.
  - apply unchanged_require_teacher_or_principal.
  - apply frame_change_password.
  - apply frame_reset_password.
  - apply frame_logout.
  - apply frame_list_student_grades.
  - apply frame_teacher_update_grade.
  - apply frame_import_loop.
  - apply frame_teacher_export_grades.
  - apply unchanged_teacher_list_grades.
  - apply frame_publish_grades.
  - apply unchanged_principal_overview.
  - reflexivity.
  - apply frame_principal_export_grades.
  - apply unchanged_list_audit_logs.
  - apply frame_mark_password_reset.
Qed.

Ltac frame_stores H :=
  cbv [same_on beside_login beside_password beside_logout beside_flag
       beside_upsert beside_publish beside_log] in H;
  try (injection H; intros);
  try (rewrite H).

Lemma grades_step_same
    (verify_password : string -> string -> bool)
    (hash_password_salted : string -> string -> string)
    (c : call) (w : World) :
  writes_grades c = false ->
  grades (step verify_password hash_password_salted c w) = grades w.
Proof.
  intros Hw.
  pose proof (step_frame verify_password hash_password_salted c w) as H.
  destruct c; try discriminate Hw; cbv zeta in H; frame_stores H;
    first [assumption | reflexivity].
Qed.

Lemma tokens_step_same
    (verify_password : string -> string -> bool)
    (hash_password_salted : string -> string -> string)
    (c : call) (w : World) :
  writes_tokens c = false ->
  _tokens (step verify_password hash_password_salted c w) = _tokens w.
Proof.
  intros Hw.
  pose proof (step_frame verify_password hash_password_salted c w) as H.
  destruct c; try discriminate Hw; cbv zeta in H; frame_stores H;
    first [assumption | reflexivity].
Qed.

(** X6.  The calls that only read.  [get_account], [require_role],
    [require_teacher_or_principal], the teacher listing, the principal
    overview, the principal details and the audit listing leave the world
    exactly as it is, whatever their arguments and whether they return or
    raise: they assign no store, write no audit entry and read neither the
    clock nor the entropy. *)
Theorem reads_change_nothing
    (verify_password : string -> string -> bool)
    (hash_password_salted : string -> string -> string)
    (c : call) (w : World) :
  reads_only c = true ->
  step verify_password hash_password_salted c w = w.
Proof.
  destruct c; cbn [reads_only]; try discriminate; intros _; cbn [step];
    try reflexivity.
  - apply unchanged_get_account.
  - apply unchanged_require_role.
  - apply unchanged_require_teacher_or_principal.
  - apply unchanged_teacher_list_grades.
  - apply unchanged_principal_overview.
  - apply unchanged_list_audit_logs.
Qed.

Lemma reads_change_nothing_witness :
  step demo_verify demo_hash
    (TeacherListGrades demo_teacher_account (Some "EX2025M") (Some "Class 9")
       "score_desc") demo_world
  = demo_world.
Proof. apply reads_change_nothing. reflexivity. Defined.

(** X7.  The stores that a call can assign.  Only a login, a password
    change and a password reset assign the accounts; only a login and a
    logout assign the sessions; only the student listing and a publish
    assign the students; only the upsert, the import and a publish assign
    the ledger; and only the upsert, the import, a publish, the two exports
    and [mark_password_reset] write the audit log.  Every other call
    leaves the store as it is, whether it returns or raises; in
    particular a password reset revokes no session and
    [mark_password_reset] changes no account. *)
Theorem writes_footprint
    (verify_password : string -> string -> bool)
    (hash_password_salted : string -> string -> string)
    (c : call) (w : World) :
  let w' := step verify_password hash_password_salted c w in
  (writes_accounts c = false -> accounts w' = accounts w)
  /\ (writes_tokens c = false -> _tokens w' = _tokens w)
  /\ (writes_students c = false -> students w' = students w)
  /\ (writes_grades c = false -> grades w' = grades w)
  /\ (writes_audit_logs c = false -> audit_logs w' = audit_logs w).
Proof.
  intros w'.
  pose proof (step_frame verify_password hash_password_salted c w) as H.
  cbv zeta in H. fold w' in H.
  destruct c;
    cbn [writes_accounts writes_tokens writes_students writes_grades
         writes_audit_logs];
    cbv [same_on beside_login beside_password beside_logout beside_flag
         beside_upsert beside_publish beside_log] in H;
    try (injection H; intros); try (rewrite H);
    repeat split; intros;
    first [assumption | discriminate | reflexivity].
Qed.

Lemma writes_footprint_witness :
  _tokens
    (step demo_verify demo_hash (ResetPassword "s_s001") demo_world_locked)
  = _tokens demo_world_locked
  /\ accounts
       (step demo_verify demo_hash (MarkPasswordReset "principal" "s_s001")
          demo_world_locked)
     = accounts demo_world_locked.
Proof.
  split.
  - apply (writes_footprint demo_verify demo_hash (ResetPassword "s_s001")
             demo_world_locked).
    reflexivity.
  - apply (writes_footprint demo_verify demo_hash
             (MarkPasswordReset "principal" "s_s001") demo_world_locked).
    reflexivity.
Defined.

(** ** What no operation changes *)

Lemma same_identities_refl {V I : Type} (identity : V -> I)
    (d : dict string V) :
  same_identities identity d d.
Proof. split; reflexivity. Qed.

Lemma same_identities_trans {V I : Type} (identity : V -> I)
    (d1 d2 d3 : dict string V) :
  same_identities identity d1 d2 -> same_identities identity d2 d3 ->
  same_identities identity d1 d3.
Proof.
  intros [Hk1 Hi1] [Hk2 Hi2]. split; [congruence|].
  intros k. rewrite Hi2. apply Hi1.
Qed.

Lemma same_identities_set {V I : Type} (identity : V -> I) (key : string)
    (v v' : V) (d : dict string V) :
  Dict.get key d = Some v ->
  identity v' = identity v ->
  same_identities identity d (Dict.set key v' d).
Proof.
  intros Hg Hid. split; [apply (keys_set_present _ _ _ _ Hg)|].
  intros k. destruct (String.eqb_spec k key) as [->|Hne].
  - rewrite get_set_same, Hg. cbn. rewrite Hid. reflexivity.
  - rewrite get_set_other by exact Hne. reflexivity.
Qed.

Lemma conserved_refl (w : World) : conserved w w.
Proof.
  repeat split; try reflexivity. exists []. rewrite app_nil_r. reflexivity.
Qed.

Lemma conserved_trans (w1 w2 w3 : World) :
  conserved w1 w2 -> conserved w2 w3 -> conserved w1 w3.
Proof.
  intros (He1 & Hs1 & Ht1 & Ha1 & Hd1 & [x1 Hl1] & Hc1 & Hn1)
         (He2 & Hs2 & Ht2 & Ha2 & Hd2 & [x2 Hl2] & Hc2 & Hn2).
  split; [congruence|]. split; [congruence|]. split; [congruence|].
  split; [eapply same_identities_trans; eauto|].
  split; [eapply same_identities_trans; eauto|].
  split; [|split; congruence].
  exists (x1 ++ x2)%list. rewrite Hl2, Hl1, app_assoc. reflexivity.
Qed.

Lemma conserved_frame (w w' : World) :
  exams w' = exams w -> subjects w' = subjects w ->
  teachers w' = teachers w -> accounts w' = accounts w ->
  students w' = students w -> audit_logs w' = audit_logs w ->
  clock w' = clock w -> entropy w' = entropy w ->
  conserved w w'.
Proof.
  intros He Hs Ht Ha Hd Hl Hc Hn.
  split; [exact He|]. split; [exact Hs|]. split; [exact Ht|].
  split; [rewrite Ha; apply same_identities_refl|].
  split; [rewrite Hd; apply same_identities_refl|].
  split; [|split; assumption].
  exists []. rewrite app_nil_r. exact Hl.
Qed.

Lemma conserved_account (w : World) (key : string) (a a' : Account.t) :
  Dict.get key (accounts w) = Some a ->
  account_identity a' = account_identity a ->
  conserved w (set_accounts (Dict.set key a' (accounts w)) w).
Proof.
  intros Hg Hid. repeat split; try reflexivity.
  - apply (keys_set_present _ _ _ _ Hg).
  - apply (same_identities_set account_identity key a a' _ Hg Hid).
  - exists []. rewrite app_nil_r. reflexivity.
Qed.

Lemma conserved_student (w : World) (key : string) (s s' : Student.t) :
  Dict.get key (students w) = Some s ->
  student_identity s' = student_identity s ->
  conserved w (set_students (Dict.set key s' (students w)) w).
Proof.
  intros Hg Hid. repeat split; try reflexivity.
  - apply (keys_set_present _ _ _ _ Hg).
  - apply (same_identities_set student_identity key s s' _ Hg Hid).
  - exists []. rewrite app_nil_r. reflexivity.
Qed.

Lemma conserved_log (w : World) (entry : AuditLogEntry.t) :
  conserved w (set_audit_logs (audit_logs w ++ [entry]) w).
Proof. repeat split; try reflexivity. exists [entry]. reflexivity. Qed.

Ltac conserved_leaf :=
  intros;
  repeat match goal with
         | |- context [match ?x with _ => _ end] => destruct x eqn:?
         end;
  first
    [ apply conserved_refl
    | apply conserved_log
    | apply conserved_frame; reflexivity
    | eapply conserved_account; [eassumption | reflexivity]
    | eapply conserved_student; [eassumption | reflexivity] ].

Ltac conserved_auto :=
  unfold _visible_grades_for_teacher, teacher_filter, teacher_view,
    get_account;
  unfold generate_random_password, hash_password, update_account, _record_log,
    _require_exam, _require_subject, _require_student, _teacher_for_account;
  repeat (cbv beta;
          pres_step conserved conserved_refl conserved_trans conserved_leaf).

Section Conserved.
Variable verify_password : string -> string -> bool.
Variable hash_password_salted : string -> string -> string.

Lemma conserved_student_views (student : Student.t) (gs : list Grade.t) :
  preserves conserved (student_views student gs).
Proof. induction gs as [|g gs IH]; simpl; conserved_auto. Qed.

Lemma conserved_teacher_update_grade (account : Account.t) (e s n : string)
    (x : Q) :
  preserves conserved (teacher_update_grade account e s n x).
Proof. unfold teacher_update_grade; conserved_auto. Qed.

Lemma conserved_import_loop (account : Account.t) (rows : list import_row) :
  forall (idx processed : nat) (errors : list string),
    preserves conserved (import_loop account idx rows processed errors).
Proof.
  induction rows as [|[exc|[[[e s] n] x]] rows IH]; intros idx processed errors;
    cbn [import_loop]; [conserved_auto | apply IH |].
  apply (preserves_bind _ conserved_trans).
  - apply preserves_try, conserved_teacher_update_grade.
  - intros [detail|g]; apply IH.
Qed.

Lemma conserved_publish_loop (e s : string) (classes : list string)
    (entries : dict key3 Grade.t) :
  forall updated : nat,
    preserves conserved (publish_loop e s classes entries updated).
Proof.
  induction entries as [|[k g] entries IH]; intros updated;
    cbn [publish_loop]; conserved_auto.
  all: try apply IH.
  all: match goal with p : (_ * _)%type |- _ => destruct p end;
    conserved_auto.
Qed.

Lemma conserved_step (c : call) (w : World) :
  conserved w (step verify_password hash_password_salted c w).
Proof.
  pose proof conserved_student_views as Hviews.
  pose proof conserved_publish_loop as Hloop.
  destruct c; cbn [step]; try apply conserved_refl;
    match goal with |- conserved w (after ?m w) =>
      revert w;
      change (preserves conserved m)
    end.
  - unfold authenticate; conserved_auto.
  - conserved_auto.
  - unfold require_role; conserved_auto.
  - unfold require_teacher_or_principal; conserved_auto.
  - unfold change_password; conserved_auto.
  - unfold reset_password; conserved_auto.
  - unfold logout; conserved_auto.
  - unfold list_student_grades; conserved_auto. all: auto.
  - apply conserved_teacher_update_grade.
  - apply conserved_import_loop.
  - unfold teacher_export_grades; conserved_auto.
  - unfold teacher_list_grades; conserved_auto.
  - unfold publish_grades; conserved_auto.
    all: try (match goal with p : (_ * _)%type |- _ => destruct p end;
              conserved_auto).
    all: auto.
  - unfold principal_overview; conserved_auto.
  - unfold principal_export_grades; conserved_auto.
  - unfold list_audit_logs; conserved_auto.
  - unfold mark_password_reset; conserved_auto.
Qed.

Lemma conserved_run (cs : list call) (w : World) :
  conserved w (run verify_password hash_password_salted cs w).
Proof.
  unfold run. revert w; induction cs as [|c cs IH]; intros w; cbn.
  - apply conserved_refl.
  - eapply conserved_trans; [apply conserved_step | apply IH].
Qed.

End Conserved.

(** X8.  No call of the interface changes the reference data or the
    identity of an account or of a student.  After every sequence of
    calls, returned or raised, the exams, the subjects and the teachers are
    the same; the accounts are the same user names in the same order and
    each keeps its user name, its role and its binding; the students are
    the same numbers in the same order and each keeps its number, name,
    class and status.  So no call creates or deletes an account or a
    student, and none changes a role. *)
Theorem reference_data_immutable
    (verify_password : string -> string -> bool)
    (hash_password_salted : string -> string -> string)
    (cs : list call) (w : World) :
  let w' := run verify_password hash_password_salted cs w in
  exams w' = exams w
  /\ subjects w' = subjects w
  /\ teachers w' = teachers w
  /\ Dict.keys (accounts w') = Dict.keys (accounts w)
  /\ (forall k a,
        Dict.get k (accounts w) = Some a ->
        exists a',
          Dict.get k (accounts w') = Some a'
          /\ Account.username a' = Account.username a
          /\ Account.role a' = Account.role a
          /\ Account.bind_id a' = Account.bind_id a)
  /\ Dict.keys (students w') = Dict.keys (students w)
  /\ (forall k s,
        Dict.get k (students w) = Some s ->
        exists s',
          Dict.get k (students w') = Some s'
          /\ Student.student_no s' = Student.student_no s
          /\ Student.name s' = Student.name s
          /\ Student.class_name s' = Student.class_name s
          /\ Student.status s' = Student.status s).
Proof.
  intros w'.
  destruct (conserved_run verify_password hash_password_salted cs w)
    as (He & Hs & Ht & [Hak Hai] & [Hsk Hsi] & _).
  fold w' in He, Hs, Ht, Hak, Hai, Hsk, Hsi.
  repeat (split; [assumption|]). split; [|split; [assumption|]].
  - intros k a Hg. specialize (Hai k). rewrite Hg in Hai.
    destruct (Dict.get k (accounts w')) as [a'|]; [|discriminate Hai].
    exists a'. injection Hai as Hu Hr Hb. auto.
  - intros k s Hg. specialize (Hsi k). rewrite Hg in Hsi.
    destruct (Dict.get k (students w')) as [s'|]; [|discriminate Hsi].
    exists s'. injection Hsi as Hno Hna Hcl Hst. auto.
Qed.

(** X9.  The audit log is append-only.  After every sequence of calls,
    returned or raised, the audit log is the log before followed by the
    entries written since: no call removes, reorders or rewrites an
    entry. *)
Theorem audit_log_append_only
    (verify_password : string -> string -> bool)
    (hash_password_salted : string -> string -> string)
    (cs : list call) (w : World) :
  exists extra,
    audit_logs (run verify_password hash_password_salted cs w)
    = (audit_logs w ++ extra)%list.
Proof.
  destruct (conserved_run verify_password hash_password_salted cs w)
    as (_ & _ & _ & _ & _ & Hlog & _).
  exact Hlog.
Qed.

(** ** Failing and repeated grade writes *)

Lemma published_entries_none (m : Grade.t -> bool) (d : dict key3 Grade.t) :
  (forall g, In g (Dict.values d) -> m g = false) ->
  published_entries m d = d.
Proof.
  unfold published_entries. induction d as [|[k g] d IH]; intros Hm;
    [reflexivity|].
  cbn [map fst snd]. rewrite (Hm g) by (left; reflexivity).
  rewrite IH; [reflexivity|]. intros g' Hin. apply Hm. right; exact Hin.
Qed.

Lemma notified_students_none (m : Grade.t -> bool) (d : dict key3 Grade.t)
    (st : dict string Student.t) :
  (forall g,
     In g (Dict.values d) -> m g && negb (Grade.published g) = false) ->
  notified_students m d st = st.
Proof.
  unfold notified_students. generalize (Dict.values d) as gs.
  induction gs as [|g gs IH]; intros Hm; [reflexivity|].
  cbn [fold_left]. rewrite (Hm g) by (left; reflexivity).
  apply IH. intros g' Hin. apply Hm. right; exact Hin.
Qed.

Lemma filter_nil_none {A : Type} (p : A -> bool) (l : list A) :
  List.length (filter p l) = 0%nat -> forall x, In x l -> p x = false.
Proof.
  induction l as [|a l IH]; intros Hlen x Hin; [destruct Hin|].
  cbn in Hlen. destruct (p a) eqn:Ha; [discriminate Hlen|].
  destruct Hin as [<-|Hin]; auto.
Qed.

Lemma world_eta_ledger (w : World) :
  set_grades (grades w) (set_students (students w) w) = w.
Proof. destruct w; reflexivity. Qed.

Lemma teacher_update_grade_raises (account : Account.t)
    (e s n : string) (x : Q) (w w1 : World) (exc : exn) :
  teacher_update_grade account e s n x w = (inl exc, w1) ->
  w1 = w /\ exists status_code detail, exc = AppError status_code detail.
Proof.
  rewrite teacher_update_grade_run.
  repeat match goal with
         | |- context [if ?b then _ else _] => destruct b
         | |- context [match ?o with Some _ => _ | None => _ end] =>
             destruct o
         end;
    intros H; try discriminate H;
    injection H as <- <-; split; try reflexivity; eexists; eexists;
    reflexivity.
Qed.

(** X10.  A grade upsert that fails changes nothing.  Whatever the reason
    (role, binding, missing exam, subject or student, scope, score out of
    range), the exception is an [AppError] and the world after the call is
    the world before: no grade is written, no audit entry, and the clock is
    not read. *)
Theorem failed_upsert_changes_nothing (account : Account.t)
    (e s n : string) (x : Q) (w : World) (exc : exn) :
  outcome (teacher_update_grade account e s n x) w = inl exc ->
  after (teacher_update_grade account e s n x) w = w
  /\ exists status_code detail, exc = AppError status_code detail.
Proof.
  unfold outcome, after.
  destruct (teacher_update_grade account e s n x w) as [r w1] eqn:Hrun.
  cbn [fst snd]. intros ->.
  apply (teacher_update_grade_raises account e s n x w w1 exc Hrun).
Qed.

Lemma failed_upsert_changes_nothing_witness :
  after
    (teacher_update_grade demo_teacher_account "EX2025M" "MTH" "S001"
       (101 # 1)) demo_world
  = demo_world.
Proof.
  apply (failed_upsert_changes_nothing demo_teacher_account "EX2025M" "MTH"
           "S001" (101 # 1) demo_world (AppError 400 "分数范围错误")).
  vm_compute. reflexivity.
Defined.

(** X11.  A publish that fails changes nothing.  Whatever the reason
    (role, binding, subject out of scope, missing exam, no grade in
    scope), the exception is an [AppError] and the world after the call is
    the world before: no grade is published, no student is notified and no
    audit entry is written. *)
Theorem failed_publish_changes_nothing (account : Account.t)
    (e s : string) (w : World) (exc : exn) :
  outcome (publish_grades account e s) w = inl exc ->
  after (publish_grades account e s) w = w
  /\ exists status_code detail, exc = AppError status_code detail.
Proof.
  unfold outcome, after. rewrite publish_grades_run.
  destruct (negb (Role_eqb (Account.role account) TEACHER));
    [cbn; intros [= <-]; split; [|eexists; eexists]; reflexivity|].
  destruct (Dict.get _ (teachers w)) as [teacher|];
    [|cbn; intros [= <-]; split; [|eexists; eexists]; reflexivity].
  destruct (negb (Py.str_in s (Teacher.subjects teacher)));
    [cbn; intros [= <-]; split; [|eexists; eexists]; reflexivity|].
  destruct (Dict.get e (exams w));
    [|cbn; intros [= <-]; split; [|eexists; eexists]; reflexivity].
  cbv zeta.
  destruct (Nat.eqb (publish_count w e s (Teacher.classes teacher)) 0) eqn:E;
    cbn [fst snd]; [|discriminate].
  intros [= <-]. split; [|eexists; eexists; reflexivity].
  apply Nat.eqb_eq in E. unfold publish_count in E.
  pose proof (filter_nil_none _ _ E) as Hnone.
  unfold published_world. cbv zeta.
  rewrite published_entries_none by exact Hnone.
  rewrite notified_students_none
    by (intros g Hin; rewrite (Hnone g Hin); reflexivity).
  apply world_eta_ledger.
Qed.

Lemma failed_publish_changes_nothing_witness :
  after (publish_grades demo_teacher_account "EX2025N" "MTH") demo_world_final
  = demo_world_final.
Proof.
  apply (failed_publish_changes_nothing demo_teacher_account "EX2025N" "MTH"
           demo_world_final NoMatchingRecords).
  vm_compute. reflexivity.
Defined.

Lemma class_name_notified (m : Grade.t -> bool) (d : dict key3 Grade.t)
    (st : dict string Student.t) (k : string) :
  option_map Student.class_name (Dict.get k (notified_students m d st))
  = option_map Student.class_name (Dict.get k st).
Proof.
  unfold notified_students. generalize (Dict.values d) as gs.
  intros gs; revert st. induction gs as [|g gs IH]; intros st; [reflexivity|].
  cbn [fold_left]. rewrite IH.
  destruct (m g && negb (Grade.published g)); [|reflexivity].
  apply class_name_mark_unread.
Qed.

Lemma publish_matches_set_published (w : World) (e s : string)
    (classes : list string) (b : bool) (g : Grade.t) :
  publish_matches w e s classes (Grade.set_published b g)
  = publish_matches w e s classes g.
Proof. reflexivity. Qed.

(** The ledger and the students after the loop of a publish, seen by a
    second publish of the same exam and subject. *)
Lemma published_world_again (w w2 : World) (e s : string)
    (classes : list string) :
  grades w2 = grades (published_world w e s classes) ->
  students w2 = students (published_world w e s classes) ->
  publish_count w2 e s classes = publish_count w e s classes
  /\ published_entries (publish_matches w2 e s classes) (grades w2)
     = grades w2
  /\ notified_students (publish_matches w2 e s classes) (grades w2)
       (students w2)
     = students w2.
Proof.
  intros Hg Hs. unfold published_world in Hg, Hs. cbn in Hg, Hs.
  set (m := publish_matches w e s classes) in *.
  assert (Hm : forall g, publish_matches w2 e s classes g = m g).
  { intros g. apply publish_matches_ext. intros k. rewrite Hs.
    apply class_name_notified. }
  assert (Hpub : forall g,
            m (if m g then Grade.set_published true g else g) = m g).
  { intros g. destruct (m g) eqn:E; [|exact E].
    unfold m. rewrite publish_matches_set_published. exact E. }
  split; [|split].
  - unfold publish_count. rewrite Hg, values_published_entries.
    fold m. generalize (Dict.values (grades w)) as gs.
    induction gs as [|g gs IH]; [reflexivity|].
    cbn [map filter]. rewrite Hm, Hpub.
    destruct (m g); cbn [List.length]; rewrite IH; reflexivity.
  - rewrite Hg. unfold published_entries. rewrite map_map.
    apply map_ext. intros [k g]. cbn [fst snd]. rewrite Hm, Hpub.
    destruct (m g); reflexivity.
  - apply notified_students_none. intros g' Hin.
    rewrite Hg, values_published_entries in Hin.
    apply in_map_iff in Hin as (g & <- & _). rewrite Hm, Hpub.
    destruct (m g); reflexivity.
Qed.

(** X12.  Publishing again is idempotent on the grades.  After a publish
    that returned [n], the same publish returns [n] again and leaves the
    ledger and the students as they are: the grades in scope are already
    published, so that no student is notified a second time.  Only the
    audit log and the clock move. *)
Theorem republish_is_idempotent (account : Account.t) (e s : string)
    (w : World) (n : nat) :
  outcome (publish_grades account e s) w = inr n ->
  let w1 := after (publish_grades account e s) w in
  let w2 := after (publish_grades account e s) w1 in
  outcome (publish_grades account e s) w1 = inr n
  /\ grades w2 = grades w1
  /\ students w2 = students w1.
Proof.
  intros H w1 w2. subst w2 w1. revert H.
  unfold outcome, after. rewrite (publish_grades_run account e s w).
  destruct (negb (Role_eqb (Account.role account) TEACHER)) eqn:Hrole;
    [discriminate|].
  destruct (Dict.get _ (teachers w)) as [teacher|] eqn:Ht; [|discriminate].
  destruct (negb (Py.str_in s (Teacher.subjects teacher))) eqn:Hsub;
    [discriminate|].
  destruct (Dict.get e (exams w)) as [exam|] eqn:He; [|discriminate].
  cbv zeta.
  destruct (Nat.eqb (publish_count w e s (Teacher.classes teacher)) 0) eqn:E;
    [discriminate|].
  cbn [fst snd]. intros [= <-].
  match goal with
  | |- context [publish_grades account e s ?x] => set (w1 := x)
  end.
  destruct (published_world_again w w1 e s (Teacher.classes teacher)
              eq_refl eq_refl) as (Hcount & Hentries & Hnotified).
  rewrite (publish_grades_run account e s w1). rewrite Hrole.
  change (teachers w1) with (teachers w). rewrite Ht, Hsub.
  change (exams w1) with (exams w). rewrite He.
  cbv zeta. rewrite Hcount, E. cbn [fst snd].
  split; [reflexivity|].
  unfold published_world. cbv zeta. cbn [grades students set_audit_logs
    set_ticks set_grades set_students].
  rewrite Hentries, Hnotified. split; reflexivity.
Qed.

Lemma republish_is_idempotent_witness :
  let w1 := after (publish_grades demo_teacher_account "EX2025M" "MTH")
              demo_world in
  outcome (publish_grades demo_teacher_account "EX2025M" "MTH") w1 = inr 6%nat
  /\ students (after (publish_grades demo_teacher_account "EX2025M" "MTH") w1)
     = students w1.
Proof.
  destruct (republish_is_idempotent demo_teacher_account "EX2025M" "MTH"
              demo_world 6 ltac:(vm_compute; reflexivity))
    as (Hout & _ & Hst).
  split; [exact Hout | exact Hst].
Defined.

(** ** The bulk import ([teacher_import_grades]) *)

Section ImportFacts.
Variable verify_password : string -> string -> bool.
Variable hash_password_salted : string -> string -> string.

Lemma run_cons (c : call) (cs : list call) (w : World) :
  run verify_password hash_password_salted (c :: cs) w
  = run verify_password hash_password_salted cs
      (step verify_password hash_password_salted c w).
Proof. reflexivity. Qed.

Lemma import_loop_run (account : Account.t) (rows : list import_row) :
  forall (idx processed : nat) (errors : list string) (w : World),
  exists (done : nat) (failed : list string),
    import_loop account idx rows processed errors w
    = (inr (ImportResult.mk (processed + done) (errors ++ failed)),
       run verify_password hash_password_salted (import_calls account rows) w)
    /\ (done + List.length failed = List.length rows)%nat
    /\ (teacher_of account w = None ->
        done = 0%nat
        /\ run verify_password hash_password_salted
             (import_calls account rows) w = w).
Proof.
  induction rows as [|[exc|[[[e s] n] x]] rows IH];
    intros idx processed errors w; cbn [import_loop import_calls flat_map].
  - exists 0%nat, []. rewrite Nat.add_0_r, app_nil_r. repeat split.
  - destruct (IH (S idx) processed
                (errors ++ [("第 " ++ Py.str_of_nat idx ++ " 行格式错误: "
                             ++ exc)%string])%list w)
      as (done & failed & Hrun & Hlen & Hnone).
    exists done. eexists. rewrite Hrun, <- app_assoc.
    split; [reflexivity|]. split; [cbn; lia | exact Hnone].
  - cbn [app]. fold (import_calls account rows).
    rewrite run_cons. cbn [step].
    unfold bind at 1, try_AppError.
    destruct (teacher_update_grade account e s n x w) as [[err|g] w1] eqn:Hup.
    + destruct (teacher_update_grade_raises account e s n x w w1 err Hup)
        as (-> & code & detail & ->).
      unfold after. rewrite Hup. cbn [snd].
      destruct (IH (S idx) processed
                  (errors ++ [("第 " ++ Py.str_of_nat idx ++ " 行导入失败: "
                               ++ detail)%string])%list w)
        as (done & failed & Hrun & Hlen & Hnone).
      exists done. eexists. rewrite Hrun, <- app_assoc.
      split; [reflexivity|]. split; [cbn; lia | exact Hnone].
    + unfold after. rewrite Hup. cbn [snd].
      destruct (IH (S idx) (S processed) errors w1)
        as (done & failed & Hrun & Hlen & _).
      exists (S done), failed. rewrite Hrun.
      split; [rewrite Nat.add_succ_comm; reflexivity|].
      split; [cbn; lia|].
      intros Hnone. exfalso. rewrite teacher_update_grade_run in Hup.
      unfold teacher_of in Hnone.
      destruct (Role_eqb (Account.role account) TEACHER); cbn [negb] in Hup;
        [|discriminate Hup].
      rewrite Hnone in Hup. discriminate Hup.
Qed.

End ImportFacts.


(** X14.  An import is the sequence of its upserts.  The world after
    [teacher_import_grades] is the world after the upsert calls of the rows
    that parse, made one after the other in the order of the rows with the
    account of the import: a row that fails leaves no trace, and the rows
    after it are still written. *)
Theorem import_is_sequence_of_upserts
    (verify_password : string -> string -> bool)
    (hash_password_salted : string -> string -> string)
    (account : Account.t) (rows : list import_row) (w : World) :
  after (teacher_import_grades account rows) w
  = run verify_password hash_password_salted (import_calls account rows) w.
Proof.
  destruct (import_loop_run verify_password hash_password_salted account rows
              2 0 [] w) as (done & failed & Hrun & _).
  unfold teacher_import_grades, after. rewrite Hrun. reflexivity.
Qed.

(** ** The audit trail of the grade writes *)

(** X15.  Every successful upsert writes exactly one audit entry.  The
    entry is appended to the log; its actor is the identifier of the
    Teacher record of the account; its action is [GRADE_UPDATED], with the
    old and the new score, when the key had a grade, and [GRADE_CREATED],
    with the score, when it had none; the score it records is the rounded
    score of the returned grade; and its time is the reading of the clock
    that follows the one stamped on the grade. *)
Theorem upsert_is_audited (account : Account.t) (e s n : string) (x : Q)
    (w : World) (g : Grade.t) :
  outcome (teacher_update_grade account e s n x) w = inr g ->
  let w' := after (teacher_update_grade account e s n x) w in
  exists teacher entry,
    teacher_of account w = Some teacher
    /\ audit_logs w' = (audit_logs w ++ [entry])%list
    /\ AuditLogEntry.actor entry = Teacher.teacher_id teacher
    /\ AuditLogEntry.timestamp entry = clock w (S (ticks w))
    /\ Grade.updated_at g = clock w (ticks w)
    /\ Grade.score g = Py.round x 1
    /\ match Dict.get (_grade_key e s n) (grades w) with
       | Some previous =>
           AuditLogEntry.action entry = GRADE_UPDATED
           /\ AuditLogEntry.details entry
              = [ ("exam_id", DStr e); ("subject_code", DStr s);
                  ("student_no", DStr n);
                  ("old_score", DNum (Grade.score previous));
                  ("new_score", DNum (Grade.score g)) ]
       | None =>
           AuditLogEntry.action entry = GRADE_CREATED
           /\ AuditLogEntry.details entry
              = [ ("exam_id", DStr e); ("subject_code", DStr s);
                  ("student_no", DStr n); ("score", DNum (Grade.score g)) ]
       end.
Proof.
  unfold outcome, after, teacher_of. rewrite teacher_update_grade_run.
  destruct (Role_eqb (Account.role account) TEACHER); cbn [negb];
    [|discriminate].
  destruct (Dict.get _ (teachers w)) as [teacher|]; [|discriminate].
  repeat match goal with
         | |- context [if ?b then _ else _] => destruct b
         | |- context [match ?o with Some _ => _ | None => _ end] =>
             lazymatch o with
             | Dict.get (_grade_key _ _ _) _ => fail
             | _ => destruct o
             end
         end;
    try discriminate.
  cbv zeta. cbn [fst snd]. intros [= <-].
  exists teacher. eexists. split; [reflexivity|].
  split; [cbn; reflexivity|].
  destruct (Dict.get (_grade_key e s n) (grades w)) as [previous|];
    cbn; repeat split; reflexivity.
Qed.

Lemma upsert_is_audited_witness :
  exists entry,
    audit_logs demo_world_graded = (audit_logs demo_world_final ++ [entry])%list
    /\ AuditLogEntry.action entry = GRADE_CREATED
    /\ AuditLogEntry.actor entry = "T200".
Proof.
  destruct (upsert_is_audited demo_teacher_account "EX2025N" "MTH" "S001"
              (96 # 1) demo_world_final
              (Grade.mk "EX2025N" "MTH" "S001" (96 # 1) "T200"
                 (clock demo_world_final (ticks demo_world_final))
                 (clock demo_world_final (ticks demo_world_final)) false)
              ltac:(vm_compute; reflexivity))
    as (teacher & entry & Ht & Hlog & Hactor & _ & _ & _ & Hkind).
  exists entry. split; [exact Hlog|].
  replace (Dict.get (_grade_key "EX2025N" "MTH" "S001")
             (grades demo_world_final))
    with (@None Grade.t) in Hkind by (vm_compute; reflexivity).
  split; [apply Hkind|].
  rewrite Hactor.
  assert (Ht' : teacher_of demo_teacher_account demo_world_final
                = Some (Teacher.mk "T200" "刘老师" ["MTH"]
                          ["Class 1"; "Class 2"]))
    by (vm_compute; reflexivity).
  rewrite Ht' in Ht. injection Ht as <-. reflexivity.
Defined.

(** X16.  Every successful publish writes exactly one audit entry: a
    [GRADE_PUBLISHED] entry appended to the log, whose actor is the
    identifier of the Teacher record of the account, whose details are the
    exam, the subject and the returned count, and whose time is the
    reading of the clock of the call. *)
Theorem publish_is_audited (account : Account.t) (e s : string) (w : World)
    (count : nat) :
  outcome (publish_grades account e s) w = inr count ->
  let w' := after (publish_grades account e s) w in
  exists teacher,
    teacher_of account w = Some teacher
    /\ audit_logs w'
       = (audit_logs w
          ++ [AuditLogEntry.mk (clock w (ticks w))
                (Teacher.teacher_id teacher) GRADE_PUBLISHED
                [ ("exam_id", DStr e); ("subject_code", DStr s);
                  ("count", DInt count) ]])%list.
Proof.
  unfold outcome, after, teacher_of. rewrite publish_grades_run.
  destruct (Role_eqb (Account.role account) TEACHER); cbn [negb];
    [|discriminate].
  destruct (Dict.get _ (teachers w)) as [teacher|]; [|discriminate].
  destruct (negb (Py.str_in s (Teacher.subjects teacher))); [discriminate|].
  destruct (Dict.get e (exams w)); [|discriminate].
  cbv zeta. destruct (Nat.eqb _ 0); [discriminate|].
  cbn [fst snd]. intros [= <-]. exists teacher. split; reflexivity.
Qed.

Lemma publish_is_audited_witness :
  exists teacher,
    teacher_of demo_teacher_account demo_world = Some teacher
    /\ audit_logs (after (publish_grades demo_teacher_account "EX2025M" "MTH")
                     demo_world)
       = (audit_logs demo_world
          ++ [AuditLogEntry.mk (clock demo_world (ticks demo_world))
                (Teacher.teacher_id teacher) GRADE_PUBLISHED
                [ ("exam_id", DStr "EX2025M"); ("subject_code", DStr "MTH");
                  ("count", DInt 6) ]])%list.
Proof.
  apply (publish_is_audited demo_teacher_account "EX2025M" "MTH" demo_world 6).
  vm_compute. reflexivity.
Defined.

(** ** The order of the listings *)

Section SortedFacts.
Context {A : Type} (leb : A -> A -> bool).
Hypothesis leb_total : forall a b, leb a b = false -> leb b a = true.

Lemma insert_HdRel (a b : A) (l : list A) :
  leb b a = true ->
  HdRel (fun x y => leb x y = true) b l ->
  HdRel (fun x y => leb x y = true) b (Py.insert leb a l).
Proof.
  intros Hba Hhd. destruct l as [|c l]; cbn; [constructor; exact Hba|].
  destruct (leb a c); constructor; [exact Hba|].
  inversion Hhd; assumption.
Qed.

Lemma insert_Sorted (a : A) (l : list A) :
  Sorted (fun x y => leb x y = true) l ->
  Sorted (fun x y => leb x y = true) (Py.insert leb a l).
Proof.
  induction l as [|b l IH]; intros Hs; cbn.
  - constructor; constructor.
  - destruct (leb a b) eqn:E.
    + constructor; [exact Hs | constructor; exact E].
    + inversion Hs as [|? ? Hs' Hhd]; subst.
      constructor; [apply IH; exact Hs'|].
      apply insert_HdRel; [apply leb_total; exact E | exact Hhd].
Qed.

Lemma sorted_Sorted (l : list A) :
  Sorted (fun x y => leb x y = true) (Py.sorted leb l).
Proof.
  induction l as [|a l IH]; cbn; [constructor|].
  apply insert_Sorted; exact IH.
Qed.

End SortedFacts.

Lemma Sorted_weaken {A : Type} (R R' : A -> A -> Prop) (l : list A) :
  (forall a b, R a b -> R' a b) -> Sorted R l -> Sorted R' l.
Proof.
  intros Himp. induction 1 as [|a l Hs IH Hhd]; constructor; [exact IH|].
  destruct Hhd; constructor; auto.
Qed.


Lemma pair_leb_total {A B : Type} (cmpA : A -> A -> comparison)
    (lebB : B -> B -> bool) :
  (forall a a', cmpA a' a = CompOpp (cmpA a a')) ->
  (forall b b', lebB b b' = false -> lebB b' b = true) ->
  forall x y,
    Py.pair_leb cmpA lebB x y = false -> Py.pair_leb cmpA lebB y x = true.
Proof.
  intros Hanti Htot x y. unfold Py.pair_leb.
  rewrite (Hanti (fst x) (fst y)).
  destruct (cmpA (fst x) (fst y)); cbn; auto; discriminate.
Qed.

Lemma string_leb_total (a b : string) :
  String.leb a b = false -> String.leb b a = true.
Proof. destruct (String.leb_total a b) as [H|H]; congruence. Qed.


Lemma student_view_leb_total (a b : StudentGradeView.t) :
  student_view_leb a b = false -> student_view_leb b a = true.
Proof.
  unfold student_view_leb. apply pair_leb_total.
  - intros x y. apply Z.compare_antisym.
  - apply string_leb_total.
Qed.



(** X18.  The student listing comes back by exam date and then by subject
    code: when [list_student_grades] returns, each row of the response is
    in that order with the next one. *)
Theorem student_listing_sorted (account : Account.t)
    (term exam_id : option string) (w : World) (r : StudentGradeResponse.t) :
  outcome (list_student_grades account term exam_id) w = inr r ->
  Sorted
    (fun a b =>
       StudentGradeView.exam_date a < StudentGradeView.exam_date b
       \/ (StudentGradeView.exam_date a = StudentGradeView.exam_date b
           /\ String.leb (StudentGradeView.subject_code a)
                (StudentGradeView.subject_code b) = true))
    (StudentGradeResponse.grades r).
Proof.
  intros H.
  destruct (list_student_grades_ok account term exam_id w r H)
    as (student & relevant & views & _ & _ & _ & _ & -> & _).
  cbn [StudentGradeResponse.grades].
  pose proof (sorted_Sorted student_view_leb student_view_leb_total views)
    as Hs.
  revert Hs. apply Sorted_weaken. intros a b.
  unfold student_view_leb, Py.pair_leb. cbn [fst snd].
  destruct (Z.compare _ _) eqn:E; try discriminate; auto.
  apply Z.compare_eq_iff in E. auto.
Qed.

Lemma student_listing_sorted_witness :
  map StudentGradeView.subject_code
    (StudentGradeResponse.grades (demo_read demo_world))
  = ["CHN"; "ENG"; "MTH"]
  /\ Sorted
       (fun a b =>
          StudentGradeView.exam_date a < StudentGradeView.exam_date b
          \/ (StudentGradeView.exam_date a = StudentGradeView.exam_date b
              /\ String.leb (StudentGradeView.subject_code a)
                   (StudentGradeView.subject_code b) = true))
       (StudentGradeResponse.grades (demo_read demo_world)).
Proof.
  split; [vm_compute; reflexivity|].
  apply (student_listing_sorted demo_student_account None None demo_world).
  vm_compute. reflexivity.
Defined.

(** ** The filters of the teacher listing and export *)

Lemma filterM_pure {A : Type} (p : A -> M bool) (q : A -> bool) (l : list A)
    (w : World) :
  (forall a, In a l -> p a w = (inr (q a), w)) ->
  filterM p l w = (inr (filter q l), w).
Proof.
  induction l as [|a l IH]; intros Hp; [reflexivity|].
  cbn [filterM filter]. unfold bind at 1. rewrite Hp by (left; reflexivity).
  unfold bind at 1. rewrite IH by (intros a' Hin; apply Hp; right; exact Hin).
  destruct (q a); reflexivity.
Qed.

Lemma filter_true {A : Type} (l : list A) : filter (fun _ => true) l = l.
Proof. induction l as [|a l IH]; cbn; [|rewrite IH]; reflexivity. Qed.

Lemma teacher_filter_run (w : World) (exam_id class_name : option string)
    (gs : list Grade.t) :
  (forall g, In g gs -> Dict.get (Grade.student_no g) (students w) <> None) ->
  teacher_filter exam_id class_name gs w
  = (inr (filter (teacher_filter_passes w exam_id class_name) gs), w).
Proof.
  intros Hst. unfold teacher_filter.
  set (gs1 := if Py.truthy exam_id then filter _ gs else gs).
  assert (Hgs1 : gs1 = filter (fun g => negb (filtered_out exam_id
                                                  (Grade.exam_id g))) gs).
  { unfold gs1, filtered_out. destruct (Py.truthy exam_id); cbn [andb negb].
    - apply filter_ext. intros g. rewrite negb_involutive. reflexivity.
    - symmetry. apply filter_true. }
  assert (Hin1 : forall g, In g gs1 -> In g gs).
  { intros g. rewrite Hgs1, filter_In. tauto. }
  destruct (Py.truthy class_name) eqn:Hc.
  - rewrite bind_get_world.
    rewrite (filterM_pure _
               (fun g =>
                  match Dict.get (Grade.student_no g) (students w) with
                  | Some student =>
                      negb (filtered_out class_name
                              (Student.class_name student))
                  | None => negb (Py.truthy class_name)
                  end)).
    + f_equal. f_equal. rewrite Hgs1.
      clear. induction gs as [|g gs IH]; [reflexivity|].
      unfold teacher_filter_passes at 1. cbn [filter].
      destruct (negb (filtered_out exam_id (Grade.exam_id g)));
        cbn [filter andb]; rewrite IH; reflexivity.
    + intros g Hin. unfold bind, index.
      pose proof (Hst g (Hin1 g Hin)) as Hne.
      destruct (Dict.get (Grade.student_no g) (students w)) as [st|];
        [|contradiction].
      unfold filtered_out. rewrite Hc. cbn. rewrite negb_involutive.
      reflexivity.
  - unfold ret. f_equal. f_equal. rewrite Hgs1.
    apply filter_ext. intros g. unfold teacher_filter_passes, filtered_out.
    rewrite Hc. cbn [andb negb].
    destruct (Dict.get (Grade.student_no g) (students w));
      rewrite andb_true_r; reflexivity.
Qed.

Lemma teacher_scope_stored (w : World) (teacher : Teacher.t) (g : Grade.t) :
  teacher_scope w teacher g = true ->
  Dict.get (Grade.student_no g) (students w) <> None.
Proof.
  unfold teacher_scope. intros H. apply andb_true_iff in H as [_ H].
  destruct (Dict.get _ (students w)); [discriminate | discriminate H].
Qed.

Lemma filtered_out_false (f : option string) (x : string) :
  filtered_out f x = false
  <-> forall y, f = Some y -> y <> "" -> x = y.
Proof.
  unfold filtered_out, Py.truthy, Py.or_else. destruct f as [y|].
  - destruct (String.eqb_spec y "") as [->|Hne]; cbn.
    + split; [intros _ y [= <-] H; contradiction | reflexivity].
    + rewrite negb_false_iff. rewrite String.eqb_eq.
      split; [intros -> y' [= <-] _; reflexivity | intros H; apply H; auto].
  - cbn. split; [intros _ y Hy; discriminate | reflexivity].
Qed.

Lemma teacher_selection_scope (w : World) (teacher : Teacher.t)
    (exam_id class_name : option string) (g : Grade.t) :
  In g (teacher_selection w teacher exam_id class_name) ->
  teacher_scope w teacher g = true.
Proof.
  unfold teacher_selection. intros Hin.
  apply filter_In in Hin as [Hin _]. apply filter_In in Hin as [_ Hin].
  exact Hin.
Qed.

Lemma teacher_selection_run (account : Account.t)
    (exam_id class_name : option string) (w : World) (teacher : Teacher.t)
    {A : Type} (k : list Grade.t -> M A) :
  teacher_of account w = Some teacher ->
  students_keyed (students w) ->
  (grades <- _visible_grades_for_teacher account ;;
   grades <- teacher_filter exam_id class_name grades ;;
   k grades) w
  = k (teacher_selection w teacher exam_id class_name) w.
Proof.
  intros Ht Hk.
  unfold bind at 1. rewrite (visible_grades_run account w teacher Ht Hk).
  unfold bind at 1. rewrite teacher_filter_run
    by (intros g Hin; apply filter_In in Hin as [_ Hin];
        apply (teacher_scope_stored w teacher g Hin)).
  reflexivity.
Qed.

Lemma teacher_list_grades_filtered_run (account : Account.t)
    (exam_id class_name : option string) (sort_by : string) (w : World)
    (teacher : Teacher.t) :
  teacher_of account w = Some teacher ->
  students_keyed (students w) ->
  teacher_list_grades account exam_id class_name sort_by w
  = (inr (Py.sorted (teacher_view_leb sort_by)
            (map (teacher_view_of w)
               (teacher_selection w teacher exam_id class_name))), w).
Proof.
  intros Ht Hk. unfold teacher_list_grades.
  rewrite (teacher_selection_run account exam_id class_name w teacher _ Ht Hk).
  unfold bind at 1.
  rewrite (teacher_views_run w teacher)
    by apply teacher_selection_scope.
  reflexivity.
Qed.

(** X19.  The teacher listing with filters.  For an account bound to a
    Teacher record, in a world whose students are stored under their
    numbers, [teacher_list_grades] returns whatever the filters (no
    [KeyError] from the unguarded student lookups), and its rows are the
    rows, in the order asked, of exactly the grades in the scope of the
    teacher that pass both filters: a grade passes the exam filter when
    the filter is [None] or empty or is its exam, and the class filter when
    the filter is [None] or empty or is the class of its student. *)
Theorem teacher_listing_filters (account : Account.t)
    (exam_id class_name : option string) (sort_by : string) (w : World)
    (teacher : Teacher.t) :
  teacher_of account w = Some teacher ->
  students_keyed (students w) ->
  let selection := teacher_selection w teacher exam_id class_name in
  outcome (teacher_list_grades account exam_id class_name sort_by) w
  = inr (Py.sorted (teacher_view_leb sort_by)
           (map (teacher_view_of w) selection))
  /\ forall g,
       In g selection <->
       In g (Dict.values (grades w))
       /\ teacher_scope w teacher g = true
       /\ (forall e, exam_id = Some e -> e <> "" -> Grade.exam_id g = e)
       /\ (forall c, class_name = Some c -> c <> "" ->
           exists student,
             Dict.get (Grade.student_no g) (students w) = Some student
             /\ Student.class_name student = c).
Proof.
  intros Ht Hk selection. split.
  - unfold outcome.
    rewrite (teacher_list_grades_filtered_run account exam_id class_name
               sort_by w teacher Ht Hk).
    reflexivity.
  - intros g. unfold selection, teacher_selection.
    rewrite !filter_In. unfold teacher_filter_passes.
    rewrite andb_true_iff, negb_true_iff, filtered_out_false.
    split.
    + intros [[Hin Hscope] [He Hc]].
      split; [exact Hin|]. split; [exact Hscope|]. split; [exact He|].
      intros c -> Hne.
      pose proof (teacher_scope_stored w teacher g Hscope) as Hst.
      destruct (Dict.get (Grade.student_no g) (students w)) as [st|];
        [|contradiction].
      exists st. split; [reflexivity|].
      apply negb_true_iff in Hc.
      apply (proj1 (filtered_out_false _ _) Hc c eq_refl Hne).
    + intros (Hin & Hscope & He & Hc).
      split; [split; assumption|]. split; [exact He|].
      pose proof (teacher_scope_stored w teacher g Hscope) as Hst.
      destruct (Dict.get (Grade.student_no g) (students w)) as [st|];
        [|contradiction].
      apply negb_true_iff, filtered_out_false. intros c Hc1 Hne.
      destruct (Hc c Hc1 Hne) as (st' & [= <-] & Hcl). exact Hcl.
Qed.

Lemma teacher_listing_filters_witness :
  outcome
    (teacher_list_grades demo_teacher_account (Some "") (Some "Class 2")
       "score_asc") demo_world
  = inr [ TeacherGradeView.mk "S005" "孙七" "Class 2" "MTH" (73 # 1) true;
          TeacherGradeView.mk "S004" "赵六" "Class 2" "MTH" (88 # 1) true;
          TeacherGradeView.mk "S006" "周八" "Class 2" "MTH" (90 # 1) true ].
Proof.
  destruct (teacher_listing_filters demo_teacher_account (Some "")
              (Some "Class 2") "score_asc" demo_world
              (Teacher.mk "T200" "刘老师" ["MTH"] ["Class 1"; "Class 2"])
              ltac:(vm_compute; reflexivity)
              (proj1 (keyed_data demo_hash demo_clock demo_entropy)))
    as [Hout _].
  rewrite Hout. vm_compute. reflexivity.
Defined.

(** X20.  The teacher export shows the grades of the listing.  For an
    account bound to a Teacher record, in a world whose students are stored
    under their numbers, [teacher_export_grades] returns a header and one
    row for each grade that the listing with the same filters shows, in
    the order of the ledger, each row carrying the student number and the
    score of its grade; and the call appends exactly one [EXPORT] entry to
    the audit log, whose actor is the binding of the account. *)
Theorem teacher_export_matches_listing (account : Account.t)
    (exam_id class_name : option string) (sort_by : string) (w : World)
    (teacher : Teacher.t) :
  teacher_of account w = Some teacher ->
  students_keyed (students w) ->
  let selection := teacher_selection w teacher exam_id class_name in
  let w' := after (teacher_export_grades account exam_id class_name) w in
  exists rows views entry,
    outcome (teacher_export_grades account exam_id class_name) w
    = inr ([CStr "exam"; CStr "subject"; CStr "student_no";
            CStr "student_name"; CStr "class"; CStr "score"] :: rows)
    /\ map export_row_key rows
       = map (fun g => (CStr (Grade.student_no g), CNum (Grade.score g)))
           selection
    /\ outcome (teacher_list_grades account exam_id class_name sort_by) w
       = inr views
    /\ List.length views = List.length rows
    /\ audit_logs w' = (audit_logs w ++ [entry])%list
    /\ AuditLogEntry.action entry = EXPORT
    /\ AuditLogEntry.actor entry
       = Py.or_else (Account.bind_id account) (Account.username account)
    /\ grades w' = grades w.
Proof.
  intros Ht Hk selection w'. subst w'.
  unfold outcome at 1, after, teacher_export_grades.
  rewrite (teacher_selection_run account exam_id class_name w teacher _ Ht Hk).
  fold selection. rewrite bind_get_world.
  unfold _record_log, bind, _now, modify, ret. cbn [fst snd].
  eexists. eexists. eexists.
  split; [reflexivity|]. split; [|split; [|split; [|split; [|split]]]].
  - rewrite map_map. apply map_ext. intros g. reflexivity.
  - unfold outcome.
    rewrite (teacher_list_grades_filtered_run account exam_id class_name
               sort_by w teacher Ht Hk).
    reflexivity.
  - rewrite (Permutation_length (sorted_perm _ _)), !length_map.
    reflexivity.
  - cbn. reflexivity.
  - reflexivity.
  - split; reflexivity.
Qed.

Lemma teacher_export_matches_listing_witness :
  exists rows,
    outcome (teacher_export_grades demo_teacher_account None (Some "Class 2"))
      demo_world
    = inr ([CStr "exam"; CStr "subject"; CStr "student_no";
            CStr "student_name"; CStr "class"; CStr "score"] :: rows)
    /\ map export_row_key rows
       = [ (CStr "S004", CNum (88 # 1)); (CStr "S005", CNum (73 # 1));
           (CStr "S006", CNum (90 # 1)) ].
Proof.
  destruct (teacher_export_matches_listing demo_teacher_account None
              (Some "Class 2") "student_no" demo_world
              (Teacher.mk "T200" "刘老师" ["MTH"] ["Class 1"; "Class 2"])
              ltac:(vm_compute; reflexivity)
              (proj1 (keyed_data demo_hash demo_clock demo_entropy)))
    as (rows & views & entry & Hout & Hrows & _).
  exists rows. split; [exact Hout|]. rewrite Hrows. vm_compute. reflexivity.
Defined.

(** ** The principal details and export *)

(** X21.  The filters of the principal details are filters of the
    unfiltered details.  [principal_grade_details] with filters returns
    the entries of the call without filters whose exam, subject and class
    are those asked, a filter that is [None] or the empty string asking
    nothing; and the call without filters has one entry, in the order of
    the ledger, for each grade whose student is stored, published or not,
    with the key, the score and the published state of the grade. *)
Theorem principal_details_filters
    (exam_id class_name subject_code : option string) (w : World) :
  principal_grade_details exam_id class_name subject_code w
  = filter (detail_passes exam_id class_name subject_code)
      (principal_grade_details None None None w)
  /\ map detail_grade (principal_grade_details None None None w)
     = map
         (fun g =>
            (Grade.exam_id g, Grade.subject_code g, Grade.student_no g,
             Grade.score g, Grade.published g))
         (filter (fun g => Dict.mem (Grade.student_no g) (students w))
            (Dict.values (grades w))).
Proof.
  unfold principal_grade_details. split.
  - induction (Dict.values (grades w)) as [|g gs IH]; [reflexivity|].
    cbn [flat_map]. rewrite filter_app, <- IH. f_equal.
    change (filtered_out None (Grade.exam_id g)) with false.
    change (filtered_out None (Grade.subject_code g)) with false.
    cbv iota.
    destruct (Dict.get (Grade.student_no g) (students w)) as [st|].
    + change (filtered_out None (Student.class_name st)) with false.
      cbv iota. cbn [filter]. unfold detail_passes.
      cbn [GradeDetailEntry.exam_id GradeDetailEntry.subject_code
           GradeDetailEntry.class_name].
      destruct (filtered_out exam_id (Grade.exam_id g)); [reflexivity|].
      destruct (filtered_out subject_code (Grade.subject_code g));
        [reflexivity|].
      destruct (filtered_out class_name (Student.class_name st));
        reflexivity.
    + destruct (filtered_out exam_id (Grade.exam_id g)); [reflexivity|].
      destruct (filtered_out subject_code (Grade.subject_code g));
        reflexivity.
  - induction (Dict.values (grades w)) as [|g gs IH]; [reflexivity|].
    cbn [flat_map filter]. rewrite map_app, IH.
    change (filtered_out None (Grade.exam_id g)) with false.
    change (filtered_out None (Grade.subject_code g)) with false.
    cbv iota. unfold Dict.mem.
    destruct (Dict.get (Grade.student_no g) (students w)) as [st|];
      reflexivity.
Qed.

(** ** Who sees an audit entry ([list_audit_logs]) *)

Lemma list_audit_logs_teacher_run (account : Account.t) (teacher : Teacher.t)
    (w : World) :
  teacher_of account w = Some teacher ->
  list_audit_logs account w
  = (inr (filter
            (fun log =>
               String.eqb (AuditLogEntry.actor log)
                 (Teacher.teacher_id teacher)
               || (match Dict.get "subject_code" (AuditLogEntry.details log)
                   with
                   | Some (DStr subject_code) =>
                       Py.str_in subject_code (Teacher.subjects teacher)
                   | _ => false
                   end
                   && is_grade_action (AuditLogEntry.action log)))
            (audit_logs w)), w).
Proof.
  unfold teacher_of, list_audit_logs. intros Ht.
  destruct (Account.role account) eqn:Hrole; try discriminate Ht.
  cbn [Role_eqb] in Ht.
  unfold bind at 1. rewrite teacher_for_account_run, Hrole. cbn [Role_eqb negb].
  rewrite Ht. reflexivity.
Qed.

(** X22.  The audit entry of an upsert is listed to the principal, to the
    teacher who made it and to the teachers of its subject, and to nobody
    else.  After an upsert that returned, the audit listing of any account
    bound to a Teacher record is its listing before, followed by the new
    entry when that teacher is the actor or teaches the subject of the
    grade, and unchanged otherwise; the listing of a principal is the whole
    log; and a student is refused with 403. *)
Theorem upsert_shows_in_audit_listings (account other : Account.t)
    (e s n : string) (x : Q) (w : World) (g : Grade.t)
    (teacher2 : Teacher.t) :
  outcome (teacher_update_grade account e s n x) w = inr g ->
  teacher_of other w = Some teacher2 ->
  let w' := after (teacher_update_grade account e s n x) w in
  (exists teacher entry logs,
     teacher_of account w = Some teacher
     /\ audit_logs w' = (audit_logs w ++ [entry])%list
     /\ outcome (list_audit_logs other) w = inr logs
     /\ outcome (list_audit_logs other) w'
        = inr (logs
               ++ (if String.eqb (Teacher.teacher_id teacher)
                        (Teacher.teacher_id teacher2)
                      || Py.str_in s (Teacher.subjects teacher2)
                   then [entry]
                   else []))%list)
  /\ (forall principal,
        Account.role principal = PRINCIPAL ->
        outcome (list_audit_logs principal) w' = inr (audit_logs w'))
  /\ (forall student,
        Account.role student = STUDENT ->
        outcome (list_audit_logs student) w' = inl Forbidden).
Proof.
  intros Hup Ht2 w'. split; [|split].
  - subst w'. revert Hup.
    unfold outcome at 1, after. rewrite teacher_update_grade_run.
    unfold teacher_of at 1.
    destruct (Role_eqb (Account.role account) TEACHER); cbn [negb];
      [|discriminate].
    destruct (Dict.get _ (teachers w)) as [teacher|]; [|discriminate].
    repeat match goal with
           | |- context [if ?b then _ else _] => destruct b
           | |- context [match ?o with Some _ => _ | None => _ end] =>
               lazymatch o with
               | Dict.get (_grade_key _ _ _) _ => fail
               | _ => destruct o
               end
           end;
      try discriminate.
    cbv zeta. cbn [fst snd]. intros _.
    exists teacher. eexists. eexists.
    split; [reflexivity|]. split; [reflexivity|].
    unfold outcome.
    rewrite (list_audit_logs_teacher_run other teacher2 w Ht2).
    split; [reflexivity|].
    rewrite (list_audit_logs_teacher_run other teacher2) by exact Ht2.
    cbn [fst audit_logs set_audit_logs set_ticks set_grades].
    rewrite filter_app. f_equal. f_equal. cbn [filter].
    destruct (Dict.get (_grade_key e s n) (grades w)) as [previous|];
      cbn [upsert_log AuditLogEntry.actor AuditLogEntry.details
           AuditLogEntry.action is_grade_action];
      cbn [Dict.get keqb KeyEq_string]; cbn; rewrite andb_true_r;
      reflexivity.
  - intros principal Hrole. unfold outcome, list_audit_logs.
    rewrite Hrole. reflexivity.
  - intros student Hrole. unfold outcome, list_audit_logs.
    rewrite Hrole. reflexivity.
Qed.

Lemma upsert_shows_in_audit_listings_witness :
  exists teacher entry logs,
    teacher_of demo_teacher_account demo_world_final = Some teacher
    /\ audit_logs demo_world_graded
       = (audit_logs demo_world_final ++ [entry])%list
    /\ outcome (list_audit_logs demo_other_teacher_account) demo_world_final
       = inr logs
    /\ outcome (list_audit_logs demo_other_teacher_account) demo_world_graded
       = inr (logs
              ++ (if String.eqb (Teacher.teacher_id teacher)
                       (Teacher.teacher_id demo_other_teacher)
                     || Py.str_in "MTH" (Teacher.subjects demo_other_teacher)
                  then [entry]
                  else []))%list.
Proof.
  apply (upsert_shows_in_audit_listings demo_teacher_account
           demo_other_teacher_account "EX2025N" "MTH" "S001" (96 # 1)
           demo_world_final
           (Grade.mk "EX2025N" "MTH" "S001" (96 # 1) "T200"
              (clock demo_world_final (ticks demo_world_final))
              (clock demo_world_final (ticks demo_world_final)) false)
           demo_other_teacher).
  - vm_compute. reflexivity.
  - vm_compute. reflexivity.
Defined.

(** ** The grades refer to stored exams and students *)

Lemma mem_same_identities {V I : Type} (identity : V -> I)
    (d d' : dict string V) (k : string) :
  same_identities identity d d' -> Dict.mem k d' = Dict.mem k d.
Proof.
  intros [_ H]. specialize (H k). unfold Dict.mem.
  destruct (Dict.get k d'), (Dict.get k d); cbn in H; congruence.
Qed.

Lemma refers_frame (w w' : World) :
  refers w ->
  exams w' = exams w ->
  (forall k, Dict.mem k (students w') = Dict.mem k (students w)) ->
  (forall g',
     In g' (Dict.values (grades w')) ->
     (exists g,
        In g (Dict.values (grades w))
        /\ Grade.exam_id g' = Grade.exam_id g
        /\ Grade.student_no g' = Grade.student_no g)
     \/ (Dict.mem (Grade.exam_id g') (exams w) = true
         /\ Dict.mem (Grade.student_no g') (students w) = true)) ->
  refers w'.
Proof.
  intros Hr He Hs Hg g' Hin. rewrite He, Hs.
  destruct (Hg g' Hin) as [(g & Hin0 & -> & ->)|H]; [apply Hr; exact Hin0|].
  exact H.
Qed.

Lemma values_set_cases {V : Type} (k : key3) (v v' : V) (d : dict key3 V) :
  In v' (Dict.values (Dict.set k v d)) -> v' = v \/ In v' (Dict.values d).
Proof.
  unfold Dict.values. intros Hin.
  apply in_map_iff in Hin as ([k0 v0] & Hv & Hin). cbn in Hv; subst v0.
  apply In_set in Hin as [[_ ->]|Hin]; [left; reflexivity|].
  right. apply in_map_iff. exists (k0, v'). auto.
Qed.

Lemma refers_upsert (account : Account.t) (e s n : string) (x : Q)
    (w : World) :
  refers w -> refers (after (teacher_update_grade account e s n x) w).
Proof.
  intros Hr. unfold after. rewrite teacher_update_grade_run.
  destruct (negb (Role_eqb (Account.role account) TEACHER)); [exact Hr|].
  destruct (Dict.get _ (teachers w)) as [teacher|]; [|exact Hr].
  destruct (Dict.get e (exams w)) as [exam|] eqn:He; [|exact Hr].
  destruct (Dict.get s (subjects w)); [|exact Hr].
  destruct (Dict.get n (students w)) as [student|] eqn:Hn; [|exact Hr].
  destruct (negb (Py.str_in s (Teacher.subjects teacher))); [exact Hr|].
  destruct (negb (Py.str_in (Student.class_name student)
                    (Teacher.classes teacher))); [exact Hr|].
  destruct (Py.Qltb x (0 # 1) || Py.Qltb (100 # 1) x); [exact Hr|].
  cbv zeta. cbn [snd].
  apply (refers_frame w); [exact Hr | reflexivity | reflexivity|].
  cbn [grades set_audit_logs set_ticks set_grades].
  intros g' Hin. apply values_set_cases in Hin as [->|Hin].
  - unfold upserted.
    destruct (Dict.get (_grade_key e s n) (grades w)) as [previous|] eqn:Hp.
    + left. exists previous. split; [|split; reflexivity].
      apply get_In in Hp. unfold Dict.values.
      apply in_map_iff. exists (_grade_key e s n, previous). auto.
    + right. cbn. unfold Dict.mem. rewrite He, Hn. auto.
  - left. exists g'. auto.
Qed.

Lemma mem_notified (m : Grade.t -> bool) (d : dict key3 Grade.t)
    (st : dict string Student.t) (k : string) :
  Dict.mem k (notified_students m d st) = Dict.mem k st.
Proof.
  pose proof (class_name_notified m d st k) as H. unfold Dict.mem.
  destruct (Dict.get k (notified_students m d st)), (Dict.get k st);
    cbn in H; congruence.
Qed.

Lemma refers_publish (account : Account.t) (e s : string) (w : World) :
  refers w -> refers (after (publish_grades account e s) w).
Proof.
  intros Hr. unfold after. rewrite publish_grades_run.
  destruct (negb (Role_eqb (Account.role account) TEACHER)); [exact Hr|].
  destruct (Dict.get _ (teachers w)) as [teacher|]; [|exact Hr].
  destruct (negb (Py.str_in s (Teacher.subjects teacher))); [exact Hr|].
  destruct (Dict.get e (exams w)); [|exact Hr].
  cbv zeta.
  assert (Hw1 : refers (published_world w e s (Teacher.classes teacher))).
  { apply (refers_frame w); [exact Hr | reflexivity | |].
    - intros k. apply mem_notified.
    - intros g' Hin. left. unfold published_world in Hin.
      cbv zeta in Hin. cbn [grades set_grades set_students] in Hin.
      rewrite values_published_entries in Hin.
      apply in_map_iff in Hin as (g & <- & Hin).
      exists g. split; [exact Hin|].
      destruct (publish_matches w e s (Teacher.classes teacher) g);
        split; reflexivity. }
  destruct (Nat.eqb _ 0); cbn [snd]; exact Hw1.
Qed.

Section Refers.
Variable verify_password : string -> string -> bool.
Variable hash_password_salted : string -> string -> string.

Lemma refers_import_calls (account : Account.t) (rows : list import_row) :
  forall w,
    refers w ->
    refers
      (run verify_password hash_password_salted (import_calls account rows)
         w).
Proof.
  induction rows as [|[exc|[[[e s] n] x]] rows IH]; intros w Hr;
    cbn [import_calls flat_map app]; [exact Hr | apply IH; exact Hr |].
  fold (import_calls account rows). rewrite run_cons. apply IH.
  cbn [step]. apply refers_upsert; exact Hr.
Qed.

Lemma refers_step (c : call) (w : World) :
  refers w -> refers (step verify_password hash_password_salted c w).
Proof.
  intros Hr.
  destruct (writes_grades c) eqn:Hw.
  - destruct c; try discriminate Hw; cbn [step].
    + apply refers_upsert; exact Hr.
    + destruct (import_loop_run verify_password hash_password_salted account
                  csv_content 2 0 [] w) as (done & failed & Hrun & _).
      unfold teacher_import_grades, after. rewrite Hrun. cbn [snd].
      apply refers_import_calls; exact Hr.
    + apply refers_publish; exact Hr.
  - pose proof (grades_step_same verify_password hash_password_salted c w)
      as Hg.
    destruct (conserved_step verify_password hash_password_salted c w)
      as (He & _ & _ & _ & Hst & _).
    apply (refers_frame w); [exact Hr | exact He | |].
    + intros k. apply (mem_same_identities student_identity). exact Hst.
    + intros g' Hin. left. exists g'. rewrite (Hg Hw) in Hin. auto.
Qed.

Lemma refers_run (cs : list call) (w : World) :
  refers w -> refers (run verify_password hash_password_salted cs w).
Proof.
  unfold run. revert w; induction cs as [|c cs IH]; intros w Hr; [exact Hr|].
  cbn [fold_left]. apply IH, refers_step, Hr.
Qed.

Lemma refers_seed_grades (seed : dict key3 Q) :
  forall w : World,
    (forall e s n x,
       In (_grade_key e s n, x) seed ->
       Dict.mem e (exams w) = true /\ Dict.mem n (students w) = true) ->
    refers w -> refers (after (seed_grades seed) w).
Proof.
  induction seed as [|[[[e s] n] x] seed IH]; intros w Hseed Hr; [exact Hr|].
  unfold after. change (e, s, n) with (_grade_key e s n).
  rewrite seed_grades_cons.
  destruct (find _ (Dict.values (teachers w))) as [teacher|]; [|exact Hr].
  apply IH.
  - intros e' s' n' x' Hin. apply (Hseed e' s' n' x'). right; exact Hin.
  - apply (refers_frame w); [exact Hr | reflexivity | reflexivity|].
    cbn [grades set_grades set_ticks]. intros g' Hin.
    apply values_set_cases in Hin as [->|Hin].
    + right. cbn. apply (Hseed e s n x). left; reflexivity.
    + left. exists g'. auto.
Qed.

Lemma refers_data (clock : nat -> datetime) (entropy : nat -> nat -> string) :
  refers (data hash_password_salted clock entropy).
Proof.
  unfold data, load_data.
  rewrite after_bind_modify, after_bind_hash_password, after_bind_modify.
  apply refers_seed_grades.
  - cbn [exams students set_accounts set_draws blank].
    assert (Hall : forallb
                     (fun entry : key3 * Q =>
                        let '(e, _, n, _) := entry in
                        Dict.mem e seed_exams && Dict.mem n seed_students)
                     _grade_seed = true) by (vm_compute; reflexivity).
    intros e s n x Hin.
    pose proof (proj1 (forallb_forall _ _) Hall _ Hin) as H. cbn beta iota in H.
    unfold _grade_key in H. apply andb_true_iff in H. exact H.
  - intros g [].
Qed.

Lemma refers_reachable (clock : nat -> datetime)
    (entropy : nat -> nat -> string) (cs : list call) :
  refers
    (run verify_password hash_password_salted cs
       (data hash_password_salted clock entropy)).
Proof. apply refers_run, refers_data. Qed.

End Refers.

(** ** The student listing returns on every reachable world *)

Lemma filterM_total {A : Type} (p : A -> M bool) (l : list A) (w : World) :
  (forall a, In a l -> exists b, p a w = (inr b, w)) ->
  exists l', filterM p l w = (inr l', w).
Proof.
  induction l as [|a l IH]; intros Hp; [exists []; reflexivity|].
  destruct (Hp a (or_introl eq_refl)) as [b Hb].
  destruct IH as [l' Hl']; [intros a' Hin; apply Hp; right; exact Hin|].
  cbn [filterM]. unfold bind at 1. rewrite Hb.
  unfold bind at 1. rewrite Hl'. eexists; reflexivity.
Qed.

Lemma index_stored {V : Type} (k : string) (d : dict string V) (w : World) :
  Dict.mem k d = true -> exists v, index k d w = (inr v, w).
Proof.
  unfold Dict.mem, index. destruct (Dict.get k d) as [v|]; [|discriminate].
  intros _. exists v. reflexivity.
Qed.

Lemma student_views_total (student : Student.t) (gs : list Grade.t)
    (w : World) :
  refers w ->
  exists views, student_views student gs w = (inr views, w).
Proof.
  intros Hr. induction gs as [|g gs [views IH]]; [exists []; reflexivity|].
  cbn [student_views]. rewrite bind_get_world.
  destruct (Dict.get (Grade.exam_id g) (exams w)) as [exam|];
    [|exists views; exact IH].
  match goal with
  | |- context [filterM ?p ?l] =>
      destruct (filterM_total p l w) as [class_grades Hcg]
  end.
  { intros g0 Hin. cbv beta.
    destruct (String.eqb (Grade.exam_id g0) (Grade.exam_id g)
              && String.eqb (Grade.subject_code g0) (Grade.subject_code g));
      [|eexists; reflexivity].
    destruct (index_stored (Grade.student_no g0) (students w) w
                (proj2 (Hr g0 Hin))) as [st Hst].
    unfold bind. rewrite Hst. eexists; reflexivity. }
  unfold bind at 1. rewrite Hcg. cbv zeta.
  unfold bind at 1. rewrite IH. eexists; reflexivity.
Qed.

Lemma list_student_grades_total (account : Account.t)
    (term exam_id : option string) (w : World) (student : Student.t) :
  refers w ->
  Account.role account = STUDENT ->
  Dict.get (Py.or_else (Account.bind_id account) "") (students w)
  = Some student ->
  exists views,
    outcome (list_student_grades account term exam_id) w
    = inr (StudentGradeResponse.mk
             (Student.has_unread_published_grades student) views).
Proof.
  intros Hr Hrole Hst. unfold outcome, list_student_grades.
  rewrite Hrole. cbn [Role_eqb negb]. rewrite bind_get_world, Hst.
  set (base := filter Grade.published
                 (_grades_for_student (Student.student_no student) w)).
  assert (Hbase : forall g, In g base -> In g (Dict.values (grades w))).
  { intros g Hin. unfold base, _grades_for_student in Hin.
    apply filter_In in Hin as [Hin _]. apply filter_In in Hin as [Hin _].
    exact Hin. }
  assert (Hrel : exists rel,
            (if Py.truthy term
             then
               filterM
                 (fun grade =>
                    exam <- index (Grade.exam_id grade) (exams w) ;;
                    ret (String.eqb (Exam.term exam) (Py.or_else term "")))
                 base
             else ret base) w = (inr rel, w)).
  { destruct (Py.truthy term); [|exists base; reflexivity].
    apply filterM_total. intros g Hin.
    destruct (index_stored (Grade.exam_id g) (exams w) w
                (proj1 (Hr g (Hbase g Hin)))) as [exam Hexam].
    unfold bind. rewrite Hexam. eexists; reflexivity. }
  destruct Hrel as [rel Hrel].
  unfold bind at 1. rewrite Hrel. cbv zeta.
  match goal with
  | |- context [student_views student ?l] =>
      destruct (student_views_total student l w Hr) as [views Hviews]
  end.
  unfold bind at 1. rewrite Hviews.
  unfold bind, modify, ret. cbn [fst]. eexists; reflexivity.
Qed.

(** X23.  The outcomes of the student listing.  On every world reached
    from the seed data by calls of the interface, [list_student_grades]
    raises 403 for an account that is not a student and 404 for a student
    account whose binding names no stored student, in both cases leaving
    the world as it is; for every other account, whatever the filters, it
    returns a response that carries the notification flag of the student:
    the unguarded lookups of exams and students in the listing cannot
    raise [KeyError], because every grade of the ledger is a grade of a
    stored exam and of a stored student. *)
Theorem student_listing_outcomes
    (verify_password : string -> string -> bool)
    (hash_password_salted : string -> string -> string)
    (clock : nat -> datetime) (entropy : nat -> nat -> string)
    (cs : list call) (account : Account.t) (term exam_id : option string) :
  let w :=
    run verify_password hash_password_salted cs
      (data hash_password_salted clock entropy) in
  let listing := list_student_grades account term exam_id in
  refers w
  /\ match Account.role account with
     | STUDENT =>
         match
           Dict.get (Py.or_else (Account.bind_id account) "") (students w)
         with
         | Some student =>
             exists views,
               outcome listing w
               = inr (StudentGradeResponse.mk
                        (Student.has_unread_published_grades student) views)
         | None => listing w = (inl (AppError 404 "学生不存在"), w)
         end
     | _ => listing w = (inl Forbidden, w)
     end.
Proof.
  intros w listing.
  pose proof (refers_reachable verify_password hash_password_salted clock
                entropy cs) as Hr.
  fold w in Hr. split; [exact Hr|].
  destruct (Account.role account) eqn:Hrole.
  - destruct (Dict.get _ (students w)) as [student|] eqn:Hst.
    + apply list_student_grades_total; assumption.
    + unfold listing, list_student_grades. rewrite Hrole.
      cbn [Role_eqb negb]. rewrite bind_get_world, Hst. reflexivity.
  - unfold listing, list_student_grades. rewrite Hrole. reflexivity.
  - unfold listing, list_student_grades. rewrite Hrole. reflexivity.
Qed.

(** ** The stored password hashes ([security.py]) *)

Lemma fromhex_hex_of_byte (c : ascii) (s : string) :
  Security.fromhex (Security.hex_of_byte c ++ s)
  = option_map (String c) (Security.fromhex s).
Proof.
  destruct c as [b0 b1 b2 b3 b4 b5 b6 b7].
  destruct b0, b1, b2, b3, b4, b5, b6, b7; reflexivity.
Qed.

Lemma fromhex_hex (b : string) : Security.fromhex (Security.hex b) = Some b.
Proof.
  induction b as [|c b IH]; [reflexivity|].
  cbn [Security.hex]. rewrite fromhex_hex_of_byte, IH. reflexivity.
Qed.

Lemma hex_of_byte_digits (c : ascii) :
  exists h l,
    Security.hex_of_byte c = String h (String l "")
    /\ Ascii.eqb h "$" = false /\ Ascii.eqb l "$" = false.
Proof.
  destruct c as [b0 b1 b2 b3 b4 b5 b6 b7].
  destruct b0, b1, b2, b3, b4, b5, b6, b7;
    eexists; eexists; (split; [reflexivity|]); split; reflexivity.
Qed.

Lemma hex_no_separator (b : string) (c : ascii) :
  In c (list_ascii_of_string (Security.hex b)) -> Ascii.eqb c "$" = false.
Proof.
  induction b as [|c0 b IH]; cbn [Security.hex]; [intros []|].
  destruct (hex_of_byte_digits c0) as (h & l & -> & Hh & Hl).
  cbn. intros [<-|[<-|Hin]]; auto.
Qed.

Lemma split_no_separator (sep : ascii) (s : string) :
  (forall c, In c (list_ascii_of_string s) -> Ascii.eqb c sep = false) ->
  Security.split sep s = [s].
Proof.
  induction s as [|c s IH]; intros Hs; [reflexivity|].
  cbn [Security.split]. rewrite (Hs c) by (left; reflexivity).
  rewrite IH by (intros c' Hin; apply Hs; right; exact Hin). reflexivity.
Qed.

Lemma split_at_separator (sep : ascii) (a rest : string) :
  (forall c, In c (list_ascii_of_string a) -> Ascii.eqb c sep = false) ->
  Security.split sep (a ++ String sep rest) = a :: Security.split sep rest.
Proof.
  induction a as [|c a IH]; intros Ha.
  - cbn. rewrite Ascii.eqb_refl. reflexivity.
  - cbn [append Security.split]. rewrite (Ha c) by (left; reflexivity).
    rewrite IH by (intros c' Hin; apply Ha; right; exact Hin). reflexivity.
Qed.

Lemma split_length (sep : ascii) (s : string) :
  List.length (Security.split sep s)
  = S (count_occ Ascii.ascii_dec (list_ascii_of_string s) sep).
Proof.
  induction s as [|c s IH]; [reflexivity|].
  cbn [Security.split list_ascii_of_string count_occ].
  destruct (Ascii.eqb_spec c sep) as [->|Hne].
  - destruct (Ascii.ascii_dec sep sep) as [_|Hn]; [|contradiction].
    cbn. rewrite IH. reflexivity.
  - destruct (Ascii.ascii_dec c sep) as [Heq|_]; [contradiction|].
    destruct (Security.split sep s) as [|part parts]; [discriminate IH|].
    exact IH.
Qed.

Lemma verify_password_parts
    (pbkdf2_hmac : string -> string -> string -> Z -> string)
    (password a b : string) :
  (forall c, In c (list_ascii_of_string a) -> Ascii.eqb c "$" = false) ->
  (forall c, In c (list_ascii_of_string b) -> Ascii.eqb c "$" = false) ->
  Security.verify_password pbkdf2_hmac password (a ++ "$" ++ b)
  = match Security.fromhex a, Security.fromhex b with
    | Some salt, Some expected =>
        Security.Returns
          (String.eqb (Security._salt_password pbkdf2_hmac password salt)
             expected)
    | _, _ => Security.ValueError
    end.
Proof.
  intros Ha Hb. unfold Security.verify_password.
  change ("$" ++ b) with (String "$" b).
  rewrite (split_at_separator "$" a b Ha), (split_no_separator "$" b Hb).
  destruct (Security.fromhex a), (Security.fromhex b); reflexivity.
Qed.

(** X24.  A stored hash verifies the password it was made from.
    [hash_password] returns the hexadecimal salt, a ["$"] and the
    hexadecimal digest, for the salt given or, when the salt is [None] or
    empty, for the next 16 bytes of the entropy; [verify_password] on that
    string never raises, returns [True] for the password itself, and for
    any candidate returns whether the digest of the candidate under the
    same salt is the stored digest. *)
Theorem stored_hash_verifies
    (pbkdf2_hmac : string -> string -> string -> Z -> string)
    (password : string) (salt : option string) (w : World) :
  let used :=
    match salt with
    | Some s => if String.eqb s "" then entropy w (draws w) 16 else s
    | None => entropy w (draws w) 16
    end in
  let stored :=
    Security.hex used ++ "$"
    ++ Security.hex (Security._salt_password pbkdf2_hmac password used) in
  outcome (Security.hash_password pbkdf2_hmac password salt) w = inr stored
  /\ Security.verify_password pbkdf2_hmac password stored
     = Security.Returns true
  /\ forall candidate,
       Security.verify_password pbkdf2_hmac candidate stored
       = Security.Returns
           (String.eqb
              (Security._salt_password pbkdf2_hmac candidate used)
              (Security._salt_password pbkdf2_hmac password used)).
Proof.
  intros used stored.
  assert (Hv : forall candidate,
            Security.verify_password pbkdf2_hmac candidate stored
            = Security.Returns
                (String.eqb
                   (Security._salt_password pbkdf2_hmac candidate used)
                   (Security._salt_password pbkdf2_hmac password used))).
  { intros candidate. unfold stored.
    rewrite verify_password_parts by apply hex_no_separator.
    rewrite !fromhex_hex. reflexivity. }
  split; [|split; [|exact Hv]].
  - unfold outcome, Security.hash_password, stored, used.
    destruct salt as [s|]; [destruct (String.eqb s "")|]; reflexivity.
  - rewrite Hv, String.eqb_refl. reflexivity.
Qed.

(** X25.  What [verify_password] does with a stored string that
    [hash_password] did not make.  A string with no ["$"] or with more
    than one is refused with [False]; a string with exactly one ["$"] is
    decoded, and raises [ValueError], which [verify_password] does not
    catch, as soon as one of its two parts is not a sequence of pairs of
    hexadecimal digits. *)
Theorem malformed_hash_outcomes
    (pbkdf2_hmac : string -> string -> string -> Z -> string)
    (password stored : string) :
  (count_occ Ascii.ascii_dec (list_ascii_of_string stored) "$"%char <> 1%nat ->
   Security.verify_password pbkdf2_hmac password stored
   = Security.Returns false)
  /\ forall a b,
       stored = a ++ "$" ++ b ->
       count_occ Ascii.ascii_dec (list_ascii_of_string stored) "$"%char
       = 1%nat ->
       Security.verify_password pbkdf2_hmac password stored
       = match Security.fromhex a, Security.fromhex b with
         | Some salt, Some expected =>
             Security.Returns
               (String.eqb
                  (Security._salt_password pbkdf2_hmac password salt)
                  expected)
         | _, _ => Security.ValueError
         end.
Proof.
  split.
  - intros Hcount. unfold Security.verify_password.
    pose proof (split_length "$" stored) as Hlen.
    destruct (Security.split "$" stored) as [|p1 [|p2 [|p3 parts]]];
      try reflexivity.
    cbn in Hlen. injection Hlen as Hlen. congruence.
  - intros a b -> Hcount. apply verify_password_parts.
    + intros c Hin. destruct (Ascii.eqb_spec c "$") as [->|]; [|reflexivity].
      exfalso. revert Hcount.
      change ("$" ++ b) with (String "$" b).
      clear - Hin. induction a as [|c0 a IH]; [destruct Hin|].
      cbn [append list_ascii_of_string count_occ].
      destruct (Ascii.ascii_dec c0 "$") as [->|Hne].
      * intros [= Hcount]. clear - Hcount.
        induction a as [|c1 a IH]; cbn in Hcount; [discriminate|].
        destruct (Ascii.ascii_dec c1 "$"); [discriminate | auto].
      * destruct Hin as [->|Hin]; [contradiction | auto].
    + intros c Hin. destruct (Ascii.eqb_spec c "$") as [->|]; [|reflexivity].
      exfalso. revert Hcount.
      change ("$" ++ b) with (String "$" b).
      clear - Hin. induction a as [|c0 a IH].
      * cbn. intros [= Hcount].
        apply (count_occ_not_In Ascii.ascii_dec) in Hcount. contradiction.
      * cbn [append list_ascii_of_string count_occ].
        destruct (Ascii.ascii_dec c0 "$") as [->|Hne]; [|exact IH].
        intros [= Hcount]. clear - Hcount.
        induction a as [|c1 a IH]; cbn in Hcount; [discriminate|].
        destruct (Ascii.ascii_dec c1 "$"); [discriminate | auto].
Qed.

(** ** The sessions and the accounts of the reachable worlds *)

Lemma sessions_wf_refl (w : World) : sessions_wf w w.
Proof. intros H; exact H. Qed.

Lemma sessions_wf_trans (w1 w2 w3 : World) :
  sessions_wf w1 w2 -> sessions_wf w2 w3 -> sessions_wf w1 w3.
Proof. unfold sessions_wf; auto. Qed.

Ltac sessions_leaf :=
  intros;
  repeat match goal with
         | |- context [match ?x with _ => _ end] => destruct x
         end;
  first
    [ apply sessions_wf_refl
    | intros Hwf; exact Hwf
    | intros Hwf; cbn [_tokens set_tokens]; apply wf_set; exact Hwf
    | intros Hwf; cbn [_tokens set_tokens]; apply wf_pop; exact Hwf ].

Section Sessions.
Variable verify_password : string -> string -> bool.
Variable hash_password_salted : string -> string -> string.

Lemma sessions_wf_authenticate (u p : string) :
  preserves sessions_wf (authenticate verify_password u p).
Proof.
  unfold authenticate, generate_random_password, update_account.
  repeat pres_step sessions_wf sessions_wf_refl sessions_wf_trans
           sessions_leaf.
Qed.

Lemma sessions_wf_step (c : call) (w : World) :
  Dict.wf (_tokens w) ->
  Dict.wf (_tokens (step verify_password hash_password_salted c w)).
Proof.
  intros Hwf. destruct (writes_tokens c) eqn:Hw.
  - destruct c; try discriminate Hw; cbn [step].
    + apply sessions_wf_authenticate; exact Hwf.
    + cbn. apply wf_pop; exact Hwf.
  - rewrite (tokens_step_same verify_password hash_password_salted c w Hw).
    exact Hwf.
Qed.

Lemma sessions_wf_run (cs : list call) (w : World) :
  Dict.wf (_tokens w) ->
  Dict.wf (_tokens (run verify_password hash_password_salted cs w)).
Proof.
  unfold run. revert w; induction cs as [|c cs IH]; intros w Hwf;
    [exact Hwf|].
  cbn [fold_left]. apply IH, sessions_wf_step, Hwf.
Qed.

Lemma seed_grades_frame (seed : dict key3 Q) :
  forall w : World,
    accounts (after (seed_grades seed) w) = accounts w
    /\ _tokens (after (seed_grades seed) w) = _tokens w.
Proof.
  induction seed as [|[[[e s] n] x] seed IH]; intros w; [split; reflexivity|].
  unfold after. change (e, s, n) with (_grade_key e s n).
  rewrite seed_grades_cons.
  destruct (find _ (Dict.values (teachers w))) as [teacher|];
    [|split; reflexivity].
  match goal with
  | |- context [seed_grades seed ?w1] =>
      destruct (IH w1) as [Ha Ht]; unfold after in Ha, Ht
  end.
  rewrite Ha, Ht. split; reflexivity.
Qed.

Lemma data_sessions_accounts (clock : nat -> datetime)
    (entropy : nat -> nat -> string) :
  _tokens (data hash_password_salted clock entropy) = []
  /\ accounts (data hash_password_salted clock entropy)
     = seed_accounts
         (hash_password_salted "Pass@123" (entropy 0%nat 16%nat)).
Proof.
  unfold data, load_data.
  rewrite after_bind_modify, after_bind_hash_password, after_bind_modify.
  match goal with
  | |- context [after (seed_grades _) ?w1] =>
      destruct (seed_grades_frame _grade_seed w1) as [Ha Ht]
  end.
  rewrite Ha, Ht. split; reflexivity.
Qed.

Lemma seed_accounts_keyed (h : string) : accounts_keyed (seed_accounts h).
Proof.
  intros k a. unfold seed_accounts, seed_account.
  cbn [Dict.get keqb KeyEq_string].
  repeat match goal with
         | |- context [String.eqb k ?u] =>
             destruct (String.eqb_spec k u) as [->|_];
             [intros [= <-]; split; [reflexivity | discriminate]|]
         end.
  discriminate.
Qed.

Lemma accounts_keyed_run (cs : list call) (w : World) :
  accounts_keyed (accounts w) ->
  accounts_keyed (accounts (run verify_password hash_password_salted cs w)).
Proof.
  intros Hk k a' Hg.
  destruct (conserved_run verify_password hash_password_salted cs w)
    as (_ & _ & _ & [_ Hid] & _).
  specialize (Hid k). rewrite Hg in Hid.
  destruct (Dict.get k (accounts w)) as [a|] eqn:Hg0; [|discriminate Hid].
  injection Hid as Hu _ _. rewrite Hu. apply Hk. exact Hg0.
Qed.

Lemma sessions_accounts_reachable (clock : nat -> datetime)
    (entropy : nat -> nat -> string) (cs : list call) :
  let w :=
    run verify_password hash_password_salted cs
      (data hash_password_salted clock entropy) in
  Dict.wf (_tokens w) /\ accounts_keyed (accounts w).
Proof.
  destruct (data_sessions_accounts clock entropy) as [Ht Ha].
  split.
  - apply sessions_wf_run. rewrite Ht. constructor.
  - apply accounts_keyed_run. rewrite Ha. apply seed_accounts_keyed.
Qed.

End Sessions.

Section Resolve.
Variable verify_password : string -> string -> bool.
Variable hash_password_salted : string -> string -> string.

(** The failing path of [authenticate] after the lock check. *)
Lemma authenticate_wrong_tokens (u p : string) (a : Account.t) (w : World) :
  Dict.get u (accounts w) = Some a ->
  is_locked a w = false ->
  verify_password p (Account.password_hash a) = false ->
  _tokens (after (authenticate verify_password u p) w) = _tokens w.
Proof.
  intros Hg Hl Hv.
  assert (Hrest : preserves (same_on _tokens)
            (update_account u
               (Account.set_failed_attempts (Account.failed_attempts a + 1)) ;;
             (if LOCKOUT_THRESHOLD <=? Account.failed_attempts a + 1
              then
                now <- _now ;;
                update_account u
                  (Account.set_locked_until
                     (Some (now + timedelta_minutes LOCKOUT_MINUTES)))
              else ret tt) ;;
             raise (A := LoginResult.t) InvalidCredentials)).
  { same_on_auto _tokens. }
  unfold after, authenticate, is_locked in *.
  cbv beta iota zeta delta [bind get_world ret _now fst snd] in Hrest |- *.
  rewrite Hg; cbv beta iota.
  destruct (Account.locked_until a) as [until|];
    rewrite ?Hl, Hv; cbv beta iota delta [negb].
  - apply (Hrest (set_ticks (S (ticks w)) w)).
  - apply (Hrest w).
Qed.

Lemma authenticate_tokens (u p : string) (w : World) :
  _tokens (after (authenticate verify_password u p) w) = _tokens w
  \/ exists a,
       Dict.get u (accounts w) = Some a
       /\ _tokens (after (authenticate verify_password u p) w)
          = Dict.set (entropy w (draws w) 32) (Account.username a)
              (_tokens w).
Proof.
  destruct (Dict.get u (accounts w)) as [a|] eqn:Hg.
  - destruct (is_locked a w) eqn:Hl.
    + left. unfold after.
      rewrite (authenticate_locked verify_password u p a w Hg Hl).
      reflexivity.
    + destruct (verify_password p (Account.password_hash a)) eqn:Hv.
      * right. exists a. split; [reflexivity|]. unfold after.
        rewrite (authenticate_right_run verify_password u p a w Hg Hl Hv).
        reflexivity.
      * left. apply (authenticate_wrong_tokens u p a w Hg Hl Hv).
  - left. unfold after.
    rewrite (authenticate_unknown verify_password u p w Hg). reflexivity.
Qed.

Lemma sessions_resolve_step (c : call) (w : World) :
  Dict.wf (_tokens w) -> accounts_keyed (accounts w) ->
  sessions_resolve w ->
  sessions_resolve (step verify_password hash_password_salted c w).
Proof.
  intros Hwf Hk Hr t u Hg.
  destruct (conserved_step verify_password hash_password_salted c w)
    as (_ & _ & _ & Hid & _).
  rewrite (mem_same_identities account_identity _ _ u Hid).
  destruct (writes_tokens c) eqn:Hw.
  - destruct c; try discriminate Hw; cbn [step] in Hg.
    + destruct (authenticate_tokens username password w)
        as [Hsame|(a & Ha & Hset)].
      * rewrite Hsame in Hg. apply (Hr t u Hg).
      * rewrite Hset in Hg.
        destruct (String.eqb_spec t (entropy w (draws w) 32)) as [->|Hne].
        -- rewrite get_set_same in Hg. injection Hg as <-.
           destruct (Hk username a Ha) as [-> _].
           unfold Dict.mem. rewrite Ha. reflexivity.
        -- rewrite get_set_other in Hg by exact Hne. apply (Hr t u Hg).
    + cbn in Hg. destruct (String.eqb_spec t token) as [->|Hne].
      * rewrite get_pop_same in Hg by exact Hwf. discriminate Hg.
      * rewrite get_pop_other in Hg by exact Hne. apply (Hr t u Hg).
  - rewrite (tokens_step_same verify_password hash_password_salted c w Hw)
      in Hg.
    apply (Hr t u Hg).
Qed.

Lemma sessions_resolve_run (cs : list call) (w : World) :
  Dict.wf (_tokens w) -> accounts_keyed (accounts w) ->
  sessions_resolve w ->
  sessions_resolve (run verify_password hash_password_salted cs w).
Proof.
  revert w; induction cs as [|c cs IH]; intros w Hwf Hk Hr; [exact Hr|].
  rewrite run_cons. apply IH.
  - apply sessions_wf_step; exact Hwf.
  - apply (accounts_keyed_run verify_password hash_password_salted [c] w Hk).
  - apply sessions_resolve_step; assumption.
Qed.

End Resolve.

(** X26.  Sessions never dangle.  On every world reached from the seed
    data by calls of the interface, the session store has one entry per
    token, every account is stored under its own, non-empty user name, and
    [get_account] returns the account of its user name for every token of
    the store and raises 401 for every other token: an account is never
    deleted or renamed under an open session. *)
Theorem sessions_never_dangle
    (verify_password : string -> string -> bool)
    (hash_password_salted : string -> string -> string)
    (clock : nat -> datetime) (entropy : nat -> nat -> string)
    (cs : list call) (token : string) :
  let w :=
    run verify_password hash_password_salted cs
      (data hash_password_salted clock entropy) in
  Dict.wf (_tokens w)
  /\ (forall k a,
        Dict.get k (accounts w) = Some a ->
        Account.username a = k /\ k <> "")
  /\ match Dict.get token (_tokens w) with
     | Some username =>
         exists a,
           get_account token w = (inr a, w)
           /\ Account.username a = username
     | None => get_account token w = (inl Unauthenticated, w)
     end.
Proof.
  intros w.
  destruct (sessions_accounts_reachable verify_password hash_password_salted
              clock entropy cs) as [Hwf Hk].
  fold w in Hwf, Hk. split; [exact Hwf|]. split; [exact Hk|].
  assert (Hr : sessions_resolve w).
  { destruct (data_sessions_accounts hash_password_salted clock entropy)
      as [Ht Ha].
    apply sessions_resolve_run.
    - rewrite Ht. constructor.
    - rewrite Ha. apply seed_accounts_keyed.
    - intros t u Hg. rewrite Ht in Hg. discriminate Hg. }
  rewrite get_account_run.
  destruct (Dict.get token (_tokens w)) as [username|] eqn:Hg;
    [|reflexivity].
  pose proof (Hr token username Hg) as Hmem. unfold Dict.mem in Hmem.
  destruct (Dict.get username (accounts w)) as [a|] eqn:Ha;
    [|discriminate Hmem].
  destruct (Hk username a Ha) as [Hu Hne].
  destruct (String.eqb_spec username "") as [E|_]; [contradiction|].
  exists a. auto.
Qed.

(** ** A written grade is listed *)

Lemma In_values_set {V : Type} (k : key3) (v : V) (d : dict key3 V) :
  In v (Dict.values (Dict.set k v d)).
Proof.
  unfold Dict.values. apply in_map_iff. exists (k, v). split; [reflexivity|].
  apply get_In. apply get_set_same.
Qed.

(** X27.  A grade that was written is read back.  After an upsert that
    returned a grade, in a world whose students and ledger are stored under
    their natural keys, the teacher listing of the same account, whatever
    the order asked, returns and has the row of the returned grade, with
    its rounded score and its published state; and the principal details
    for the exam and the subject have an entry for the student with that
    score. *)
Theorem upserted_grade_is_listed (account : Account.t) (e s n : string)
    (x : Q) (sort_by : string) (w : World) (g : Grade.t) :
  keyed w ->
  outcome (teacher_update_grade account e s n x) w = inr g ->
  let w' := after (teacher_update_grade account e s n x) w in
  (exists views,
     outcome (teacher_list_grades account None None sort_by) w' = inr views
     /\ exists view,
          In view views
          /\ TeacherGradeView.student_no view = n
          /\ TeacherGradeView.subject_code view = s
          /\ TeacherGradeView.score view = Py.round x 1
          /\ TeacherGradeView.published view = Grade.published g)
  /\ exists entry,
       In entry (principal_grade_details (Some e) None (Some s) w')
       /\ GradeDetailEntry.student_no entry = n
       /\ GradeDetailEntry.score entry = Py.round x 1.
Proof.
  intros [Hk Hl] Hup w'. subst w'. revert Hup.
  unfold outcome at 1, after. rewrite teacher_update_grade_run.
  destruct (Role_eqb (Account.role account) TEACHER) eqn:Hrole; cbn [negb];
    [|discriminate].
  destruct (Dict.get _ (teachers w)) as [teacher|] eqn:Ht; [|discriminate].
  destruct (Dict.get e (exams w)) as [exam|] eqn:He; [|discriminate].
  destruct (Dict.get s (subjects w)) as [subject|] eqn:Hs; [|discriminate].
  destruct (Dict.get n (students w)) as [student|] eqn:Hn; [|discriminate].
  destruct (Py.str_in s (Teacher.subjects teacher)) eqn:Hsub; cbn [negb];
    [|discriminate].
  destruct (Py.str_in (Student.class_name student) (Teacher.classes teacher))
    eqn:Hcl; cbn [negb]; [|discriminate].
  destruct (Py.Qltb x (0 # 1) || Py.Qltb (100 # 1) x); [discriminate|].
  cbv zeta. cbn [fst snd]. intros [= <-].
  set (g := upserted teacher e s n x (clock w (ticks w))
              (Dict.get (_grade_key e s n) (grades w))).
  match goal with
  | |- context [outcome (teacher_list_grades _ _ _ _) ?w1] => set (w' := w1)
  end.
  assert (Hids : Grade.exam_id g = e /\ Grade.subject_code g = s
                 /\ Grade.student_no g = n /\ Grade.score g = Py.round x 1).
  { unfold g, upserted.
    destruct (Dict.get (_grade_key e s n) (grades w)) as [previous|] eqn:Hp;
      [|cbn; auto].
    destruct Hl as [_ Hl].
    pose proof (Hl _ _ (get_In _ _ _ Hp)) as Hkey.
    unfold _grade_key in Hkey. injection Hkey as -> -> ->.
    cbn. auto. }
  destruct Hids as (Hge & Hgs & Hgn & Hgx).
  assert (Hin : In g (Dict.values (grades w'))).
  { unfold w'. cbn [grades set_audit_logs set_ticks set_grades].
    apply In_values_set. }
  assert (Hst : Dict.get (Grade.student_no g) (students w') = Some student).
  { rewrite Hgn. exact Hn. }
  split.
  - assert (Ht' : teacher_of account w' = Some teacher).
    { unfold teacher_of. rewrite Hrole. exact Ht. }
    eexists. split.
    + unfold outcome.
      rewrite (teacher_list_grades_filtered_run account None None sort_by w'
                 teacher Ht' Hk).
      reflexivity.
    + exists (teacher_view_of w' g). split.
      * apply (Permutation_in _ (Permutation_sym (sorted_perm _ _))).
        apply in_map. unfold teacher_selection.
        apply filter_In. split.
        -- apply filter_In. split; [exact Hin|].
           unfold teacher_scope. rewrite Hst, Hgs, Hsub, Hcl. reflexivity.
        -- unfold teacher_filter_passes. rewrite Hst. reflexivity.
      * unfold teacher_view_of. rewrite Hst. cbn. auto.
  - eexists. split.
    + unfold principal_grade_details. apply in_flat_map.
      exists g. split; [exact Hin|].
      rewrite Hge, Hgs.
      rewrite (proj2 (filtered_out_false (Some e) e))
        by (intros y [= <-] _; reflexivity).
      rewrite (proj2 (filtered_out_false (Some s) s))
        by (intros y [= <-] _; reflexivity).
      rewrite Hst. change (filtered_out None (Student.class_name student))
        with false. cbv iota. left. reflexivity.
    + cbn. auto.
Qed.

Lemma upserted_grade_is_listed_witness :
  exists views,
    outcome (teacher_list_grades demo_teacher_account None None "score_asc")
      demo_world_graded = inr views
    /\ exists view,
         In view views
         /\ TeacherGradeView.student_no view = "S001"
         /\ TeacherGradeView.subject_code view = "MTH"
         /\ TeacherGradeView.score view = Py.round (96 # 1) 1
         /\ TeacherGradeView.published view = false.
Proof.
  refine (proj1 (upserted_grade_is_listed demo_teacher_account "EX2025N" "MTH"
                   "S001" (96 # 1) "score_asc" demo_world_final
                   (Grade.mk "EX2025N" "MTH" "S001" (96 # 1) "T200"
                      (clock demo_world_final (ticks demo_world_final))
                      (clock demo_world_final (ticks demo_world_final)) false)
                   _ _)).
  - assert (Hs : students demo_world_final = students demo_world)
      by (vm_compute; reflexivity).
    assert (Hg : grades demo_world_final = grades demo_world)
      by (vm_compute; reflexivity).
    unfold keyed. rewrite Hs, Hg.
    exact (keyed_data demo_hash demo_clock demo_entropy).
  - vm_compute. reflexivity.
Defined.
